(** * med_food: the recipe / shop filtering and ranking engine

    A shallow embedding of [services/recipe_service.py],
    [services/shop_service.py] and the part of [config.py] they read,
    with the properties of the engine stated and proved over it; and
    further of [services/gpt_service.py], the rate limiter of
    [middleware.py], the users of [database.py], and the keyboards, the
    routing of callbacks and the text handlers of [handlers.py].

    Conventions of the embedding:
    - a Python [str] is its list of Unicode code points ([pystr]);
    - a Python [int] is a [Z]; the prices of the price tables, which the
      catalog gives in whole roubles, are [Z] as well;
    - decimal literals of the catalogs (coordinates, ratings) are exact
      rationals ([Q]); computed distances live in a number type of their
      own, instantiated with [R] for the Haversine formula in exact
      arithmetic; where the outcome of a computation on floats matters,
      the floats are a type with the operations of [float] and [math], of
      which [math.sin], [math.cos] and [math.sqrt] can raise;
    - a [dict] that is only looked up by key is a [gmap]; a [dict] whose
      iteration order is observed is an association list;
    - a [for] loop that appends to a list is a recursion over the iterated
      list with the list under construction as accumulator. *)

From Stdlib Require Import ZArith NArith List Bool Lia String Ascii QArith.
From Stdlib Require Import Reals Lra Permutation Sorted DecimalString.
From Stdlib Require Lqa.
From stdpp Require Import base option list gmap.
Import ListNotations.

Local Open Scope Z_scope.

(* ===================================================================== *)
(** * Python strings *)
(* ===================================================================== *)

Module PyStr.

(** A [str] value: the sequence of its code points. *)
Definition pystr := list N.

(** Decoding of the UTF-8 bytes of a source literal into code points. *)
Fixpoint utf8_decode (bs : list N) : pystr :=
  match bs with
  | [] => []
  | b0 :: t0 =>
    if (b0 <? 128)%N then b0 :: utf8_decode t0
    else
      match t0 with
      | [] => []
      | b1 :: t1 =>
        if (b0 <? 224)%N
        then ((b0 mod 32) * 64 + b1 mod 64)%N :: utf8_decode t1
        else
          match t1 with
          | [] => []
          | b2 :: t2 =>
            if (b0 <? 240)%N
            then ((b0 mod 16) * 4096 + (b1 mod 64) * 64 + b2 mod 64)%N
                   :: utf8_decode t2
            else
              match t2 with
              | [] => []
              | b3 :: t3 =>
                ((b0 mod 8) * 262144 + (b1 mod 64) * 4096
                 + (b2 mod 64) * 64 + b3 mod 64)%N :: utf8_decode t3
              end
          end
      end
  end.

(** The [str] denoted by a literal of the source. *)
Definition lit (s : string) : pystr :=
  utf8_decode (List.map N_of_ascii (list_ascii_of_string s)).

(** [a == b] on strings. *)
Fixpoint str_eqb (a b : pystr) : bool :=
  match a, b with
  | [], [] => true
  | x :: a', y :: b' => (x =? y)%N && str_eqb a' b'
  | _, _ => false
  end.

(** [s.startswith(p)]. *)
Fixpoint startswith (p s : pystr) : bool :=
  match p, s with
  | [], _ => true
  | _ :: _, [] => false
  | x :: p', y :: s' => (x =? y)%N && startswith p' s'
  end.

(** [needle in hay]: [needle] occurs in [hay] as a contiguous run. *)
Fixpoint str_in (needle hay : pystr) : bool :=
  startswith needle hay ||
  match hay with
  | [] => false
  | _ :: hay' => str_in needle hay'
  end.

(** [str.isspace] on one code point: the Unicode white space. *)
Definition isspace (c : N) : bool :=
  ((9 <=? c) && (c <=? 13) || (28 <=? c) && (c <=? 32)
   || (c =? 133) || (c =? 160) || (c =? 5760)
   || (8192 <=? c) && (c <=? 8202)
   || (c =? 8232) || (c =? 8233) || (c =? 8239) || (c =? 8287)
   || (c =? 12288))%N.

Fixpoint lstrip (s : pystr) : pystr :=
  match s with
  | [] => []
  | c :: s' => if isspace c then lstrip s' else s
  end.

Definition rstrip (s : pystr) : pystr := rev (lstrip (rev s)).

(** [s.strip()]. *)
Definition strip (s : pystr) : pystr := rstrip (lstrip s).

(** [str.lower] on the alphabets of the catalogs and of the queries of
    the examples: Basic Latin, Latin-1 and the Cyrillic letters U+0400 to
    U+042F.  Every other code point is left as it is, which is not what
    [str.lower] does of the capital letters of other alphabets: the
    properties below are stated for every [lower], and [py_lower] is
    applied to strings of these alphabets only. *)
Definition lower_cp (c : N) : N :=
  if ((65 <=? c) && (c <=? 90))%N then (c + 32)%N
  else if ((192 <=? c) && (c <=? 222) && negb (c =? 215))%N then (c + 32)%N
  else if ((1024 <=? c) && (c <=? 1039))%N then (c + 80)%N
  else if ((1040 <=? c) && (c <=? 1071))%N then (c + 32)%N
  else c.

Definition py_lower (s : pystr) : pystr := List.map lower_cp s.

End PyStr.

(* ===================================================================== *)
(** * Python built-ins used by the services *)
(* ===================================================================== *)

Module Py.

(** [l[:limit]]: the first [limit] items for a limit that is not
    negative, all but the last [-limit] items for a negative one. *)
Definition slice_to {A : Type} (limit : Z) (l : list A) : list A :=
  if 0 <=? limit then firstn (Z.to_nat limit) l
  else firstn (length l - Z.to_nat (- limit))%nat l.

(** [list.sort(key=...)] is a stable sort that compares keys with [<]
    only.  Its result is the one of the stable insertion sort: an item is
    put in front of the first item of the sorted rest whose key is not
    smaller than its own. *)
Section Sort.
Context {A : Type} (key : A -> Z).

Fixpoint insert_by_key (x : A) (l : list A) : list A :=
  match l with
  | [] => [x]
  | y :: l' =>
    if key y <? key x then y :: insert_by_key x l' else x :: y :: l'
  end.

Fixpoint sort_by_key (l : list A) : list A :=
  match l with
  | [] => []
  | x :: l' => insert_by_key x (sort_by_key l')
  end.
End Sort.

(** A float key that may be [float("inf")]. *)
Inductive ext : Type :=
| Fin (z : Z)
| Inf.

(** [a < b] on such keys. *)
Definition ext_ltb (a b : ext) : bool :=
  match a, b with
  | Fin x, Fin y => x <? y
  | Fin _, Inf => true
  | Inf, _ => false
  end.

(** [min(items, key=...)] on a sequence that is not empty: the first item
    whose key no other item's key is smaller than.  [best] is the minimum
    of the items seen so far. *)
Section Min.
Context {A : Type} (key : A -> ext).

Fixpoint min_loop (best : A) (items : list A) : A :=
  match items with
  | [] => best
  | x :: items' =>
    if ext_ltb (key x) (key best) then min_loop x items'
    else min_loop best items'
  end.

Definition min_by_key (items : list A) : option A :=
  match items with
  | [] => None
  | x :: items' => Some (min_loop x items')
  end.
End Min.

(** [d[k] = v] on a dict kept as an association list in insertion order:
    the value of a key that is there is replaced in place, a new key goes
    to the end. *)
Fixpoint dict_set {V : Type} (d : list (PyStr.pystr * V))
    (k : PyStr.pystr) (v : V) : list (PyStr.pystr * V) :=
  match d with
  | [] => [(k, v)]
  | (k', v') :: d' =>
    if PyStr.str_eqb k' k then (k', v) :: d' else (k', v') :: dict_set d' k v
  end.

(** What is raised to the caller: the error kinds of the specification,
    and the [ValueError] of [math.sin], [math.cos] and [math.sqrt]
    ("math domain error"). *)
Inductive exn : Type :=
| InvalidArgument
| ConfigurationError
| ValueError.

(** How a call ends: it returns a value or raises. *)
Inductive outcome (A : Type) : Type :=
| Returned (a : A)
| Raised (e : exn).
Arguments Returned {A} a.
Arguments Raised {A} e.

End Py.

(* ===================================================================== *)
(** * config.py: the settings the engine reads *)
(* ===================================================================== *)

Module Config.

Record Settings : Type := {
  max_recipe_results : Z;
  max_shops_results : Z;
  daily_purines_limit : Z;
  max_glycemic_index : Z
}.

(** The defaults of [class Settings]. *)
Definition settings : Settings :=
  {| max_recipe_results := 10;
     max_shops_results := 5;
     daily_purines_limit := 200;
     max_glycemic_index := 55 |}.

End Config.

(* ===================================================================== *)
(** * services/recipe_service.py *)
(* ===================================================================== *)

Module RecipeService.
Import PyStr.

(** An item of a recipe's ["ingredients"] list. *)
Record Ingredient : Type := {
  ing_name : pystr;
  ing_amount : Z;
  ing_unit : pystr
}.

Definition ingredient (n : string) (amount : Z) (u : string) : Ingredient :=
  {| ing_name := lit n; ing_amount := amount; ing_unit := lit u |}.

(** An entry of the recipe base.  Every entry carries every key, so that a
    [recipe.get(key, default)] of the source is the field.  The free texts
    ["description"] and ["instructions"], which only the display formatter
    reads, are left out. *)
Record Recipe : Type := {
  id : pystr;
  name : pystr;
  calories : Z;
  proteins : Z;
  fats : Z;
  carbs : Z;
  glycemic_index : Z;
  purines : Z;
  cooking_time_min : Z;
  servings : Z;
  suitable_for_diabetes : bool;
  suitable_for_gout : bool;
  suitable_for_celiac : bool;
  category : pystr;
  ingredients : list Ingredient
}.

Definition r_001 : Recipe :=
  {| id := lit "r_001";
     name := lit "Курица с брокколи на пару";
     calories := 320; proteins := 42; fats := 9; carbs := 18;
     glycemic_index := 35;
     purines := 120;
     cooking_time_min := 25; servings := 2;
     suitable_for_diabetes := true;
     suitable_for_gout := false;
     suitable_for_celiac := true;
     category := lit "main";
     ingredients :=
      [ingredient "Куриное филе" 300 "г";
       ingredient "Брокколи" 200 "г";
       ingredient "Оливковое масло" 10 "мл";
       ingredient "Лимонный сок" 15 "мл";
       ingredient "Соль, перец" 1 "по вкусу"] |}.

Definition r_002 : Recipe :=
  {| id := lit "r_002";
     name := lit "Салат Средиземноморский";
     calories := 180; proteins := 5; fats := 12; carbs := 15;
     glycemic_index := 20;
     purines := 15;
     cooking_time_min := 15; servings := 2;
     suitable_for_diabetes := true;
     suitable_for_gout := true;
     suitable_for_celiac := true;
     category := lit "salad";
     ingredients :=
      [ingredient "Помидоры черри" 150 "г";
       ingredient "Огурец" 1 "шт";
       ingredient "Болгарский перец" 1 "шт";
       ingredient "Красный лук" 50 "г";
       ingredient "Маслины" 50 "г";
       ingredient "Оливковое масло Extra Virgin" 30 "мл";
       ingredient "Лимонный сок" 15 "мл";
       ingredient "Орегано сушёный" 1 "ч.л."] |}.

Definition r_003 : Recipe :=
  {| id := lit "r_003";
     name := lit "Гречневая каша с овощами";
     calories := 250; proteins := 9; fats := 6; carbs := 42;
     glycemic_index := 40;
     purines := 25;
     cooking_time_min := 30; servings := 2;
     suitable_for_diabetes := true;
     suitable_for_gout := true;
     suitable_for_celiac := true;
     category := lit "main";
     ingredients :=
      [ingredient "Гречневая крупа" 150 "г";
       ingredient "Морковь" 1 "шт";
       ingredient "Лук репчатый" 1 "шт";
       ingredient "Кабачок" 150 "г";
       ingredient "Оливковое масло" 15 "мл";
       ingredient "Вода" 300 "мл"] |}.

Definition r_004 : Recipe :=
  {| id := lit "r_004";
     name := lit "Запечённая рыба с травами";
     calories := 280; proteins := 38; fats := 12; carbs := 2;
     glycemic_index := 0;
     purines := 80;
     cooking_time_min := 35; servings := 2;
     suitable_for_diabetes := true;
     suitable_for_gout := true;
     suitable_for_celiac := true;
     category := lit "main";
     ingredients :=
      [ingredient "Треска (филе)" 400 "г";
       ingredient "Лимон" 1 "шт";
       ingredient "Чеснок" 2 "зубчика";
       ingredient "Розмарин свежий" 2 "веточки";
       ingredient "Тимьян свежий" 3 "веточки";
       ingredient "Оливковое масло" 20 "мл"] |}.

Definition r_005 : Recipe :=
  {| id := lit "r_005";
     name := lit "Овсянка с ягодами и орехами";
     calories := 350; proteins := 12; fats := 14; carbs := 48;
     glycemic_index := 45;
     purines := 20;
     cooking_time_min := 15; servings := 1;
     suitable_for_diabetes := true;
     suitable_for_gout := true;
     suitable_for_celiac := false;
     category := lit "breakfast";
     ingredients :=
      [ingredient "Овсяные хлопья (долгой варки)" 50 "г";
       ingredient "Вода или молоко" 200 "мл";
       ingredient "Черника" 50 "г";
       ingredient "Малина" 50 "г";
       ingredient "Грецкие орехи" 20 "г";
       ingredient "Мёд (опционально)" 5 "мл"] |}.

Definition r_006 : Recipe :=
  {| id := lit "r_006";
     name := lit "Творожная запеканка без сахара";
     calories := 180; proteins := 18; fats := 5; carbs := 15;
     glycemic_index := 30;
     purines := 10;
     cooking_time_min := 45; servings := 4;
     suitable_for_diabetes := true;
     suitable_for_gout := true;
     suitable_for_celiac := false;
     category := lit "dessert";
     ingredients :=
      [ingredient "Творог 5%" 500 "г";
       ingredient "Яйцо" 2 "шт";
       ingredient "Мука рисовая" 30 "г";
       ingredient "Стевия" 1 "ч.л.";
       ingredient "Ванилин" 1 "щепотка"] |}.

Definition r_007 : Recipe :=
  {| id := lit "r_007";
     name := lit "Суп-пюре из тыквы";
     calories := 120; proteins := 3; fats := 4; carbs := 18;
     glycemic_index := 65;
     purines := 10;
     cooking_time_min := 40; servings := 4;
     suitable_for_diabetes := true;
     suitable_for_gout := true;
     suitable_for_celiac := true;
     category := lit "soup";
     ingredients :=
      [ingredient "Тыква" 500 "г";
       ingredient "Лук репчатый" 1 "шт";
       ingredient "Имбирь свежий" 10 "г";
       ingredient "Овощной бульон" 500 "мл";
       ingredient "Оливковое масло" 15 "мл";
       ingredient "Тыквенные семечки" 20 "г"] |}.

Definition r_008 : Recipe :=
  {| id := lit "r_008";
     name := lit "Киноа с овощами";
     calories := 280; proteins := 10; fats := 8; carbs := 42;
     glycemic_index := 35;
     purines := 20;
     cooking_time_min := 25; servings := 2;
     suitable_for_diabetes := true;
     suitable_for_gout := true;
     suitable_for_celiac := true;
     category := lit "main";
     ingredients :=
      [ingredient "Киноа" 150 "г";
       ingredient "Болгарский перец" 1 "шт";
       ingredient "Помидоры" 150 "г";
       ingredient "Огурец" 1 "шт";
       ingredient "Петрушка" 30 "г";
       ingredient "Лимонный сок" 30 "мл";
       ingredient "Оливковое масло" 20 "мл"] |}.

Definition r_009 : Recipe :=
  {| id := lit "r_009";
     name := lit "Омлет с зеленью и сыром";
     calories := 250; proteins := 18; fats := 18; carbs := 3;
     glycemic_index := 0;
     purines := 15;
     cooking_time_min := 10; servings := 1;
     suitable_for_diabetes := true;
     suitable_for_gout := true;
     suitable_for_celiac := true;
     category := lit "breakfast";
     ingredients :=
      [ingredient "Яйца" 2 "шт";
       ingredient "Молоко" 30 "мл";
       ingredient "Сыр твёрдый" 30 "г";
       ingredient "Шпинат" 30 "г";
       ingredient "Укроп" 10 "г";
       ingredient "Оливковое масло" 5 "мл"] |}.

Definition r_010 : Recipe :=
  {| id := lit "r_010";
     name := lit "Фасолевый салат с тунцом";
     calories := 320; proteins := 28; fats := 12; carbs := 25;
     glycemic_index := 25;
     purines := 150;
     cooking_time_min := 15; servings := 2;
     suitable_for_diabetes := true;
     suitable_for_gout := false;
     suitable_for_celiac := true;
     category := lit "salad";
     ingredients :=
      [ingredient "Тунец консервированный" 150 "г";
       ingredient "Фасоль белая (отварная)" 200 "г";
       ingredient "Красный лук" 50 "г";
       ingredient "Помидоры черри" 100 "г";
       ingredient "Петрушка" 20 "г";
       ingredient "Оливковое масло" 20 "мл";
       ingredient "Лимонный сок" 15 "мл"] |}.

Definition RECIPES_DATABASE : list Recipe :=
  [r_001; r_002; r_003; r_004; r_005; r_006; r_007; r_008; r_009; r_010].

Section Service.
(** [str.lower]; the service is correct whatever the case mapping. *)
Variable lower : pystr -> pystr.
(** [config.settings]. *)
Variable settings : Config.Settings.
(** [self.recipes_db]. *)
Variable recipes_db : list Recipe.

(** One turn of the loop of [_filter_by_diagnosis]: [false] when one of
    the three [continue] is taken, [true] when the recipe reaches
    [filtered.append]. *)
Definition passes_diagnosis (has_diabetes has_gout has_celiac : bool)
    (recipe : Recipe) : bool :=
  if has_diabetes
     && (glycemic_index recipe >? Config.max_glycemic_index settings)
  then false
  else if has_gout && (purines recipe >? 100)
  then false
  else if has_celiac && negb (suitable_for_celiac recipe)
  then false
  else true.

Fixpoint filter_loop (has_diabetes has_gout has_celiac : bool)
    (recipes filtered : list Recipe) : list Recipe :=
  match recipes with
  | [] => filtered
  | recipe :: rest =>
    if passes_diagnosis has_diabetes has_gout has_celiac recipe
    then filter_loop has_diabetes has_gout has_celiac rest
           (filtered ++ [recipe])
    else filter_loop has_diabetes has_gout has_celiac rest filtered
  end.

Definition _filter_by_diagnosis (recipes : list Recipe)
    (has_diabetes has_gout has_celiac : bool) : list Recipe :=
  filter_loop has_diabetes has_gout has_celiac recipes [].

(** The inner loop of [search_recipes]: [true] when an ingredient makes
    the recipe be appended (and the loop [break]). *)
Fixpoint ingredients_loop (query_lower : pystr)
    (ings : list Ingredient) : bool :=
  match ings with
  | [] => false
  | ing :: rest =>
    if str_in query_lower (lower (ing_name ing)) then true
    else ingredients_loop query_lower rest
  end.

Fixpoint search_loop (query_lower : pystr)
    (recipes matching_recipes : list Recipe) : list Recipe :=
  match recipes with
  | [] => matching_recipes
  | recipe :: rest =>
    if str_in query_lower (lower (name recipe))
    then search_loop query_lower rest (matching_recipes ++ [recipe])
    else if ingredients_loop query_lower (ingredients recipe)
    then search_loop query_lower rest (matching_recipes ++ [recipe])
    else search_loop query_lower rest matching_recipes
  end.

Definition search_recipes (query : pystr)
    (has_diabetes has_gout has_celiac : bool) (limit : Z) : list Recipe :=
  let query_lower := strip (lower query) in
  let matching_recipes := search_loop query_lower recipes_db [] in
  let filtered_recipes :=
    _filter_by_diagnosis matching_recipes has_diabetes has_gout has_celiac in
  Py.slice_to limit filtered_recipes.

(** [if category:] holds for a category that is neither [None] nor the
    empty string. *)
Definition get_all_recipes (has_diabetes has_gout has_celiac : bool)
    (category_opt : option pystr) (limit : Z) : list Recipe :=
  let recipes :=
    match category_opt with
    | Some (c :: cs) =>
      List.filter (fun r => str_eqb (category r) (c :: cs)) recipes_db
    | _ => recipes_db
    end in
  Py.slice_to limit
    (_filter_by_diagnosis recipes has_diabetes has_gout has_celiac).

Fixpoint get_recipe_by_id_loop (recipes : list Recipe)
    (recipe_id : pystr) : option Recipe :=
  match recipes with
  | [] => None
  | recipe :: rest =>
    if str_eqb (id recipe) recipe_id then Some recipe
    else get_recipe_by_id_loop rest recipe_id
  end.

Definition get_recipe_by_id (recipe_id : pystr) : option Recipe :=
  get_recipe_by_id_loop recipes_db recipe_id.

(** [random.choice(filtered)] is [filtered[k]] for an index [k] below the
    length that the generator draws; [draw] is the generator's raw
    output. *)
Definition get_random_recipe (draw : nat)
    (has_diabetes has_gout has_celiac : bool) : option Recipe :=
  let filtered :=
    _filter_by_diagnosis recipes_db has_diabetes has_gout has_celiac in
  match filtered with
  | [] => None
  | _ :: _ => nth_error filtered (draw mod length filtered)%nat
  end.

Definition get_recipes_by_category (cat : pystr)
    (has_diabetes has_gout has_celiac : bool) : list Recipe :=
  let category_recipes :=
    List.filter (fun r => str_eqb (category r) cat) recipes_db in
  _filter_by_diagnosis category_recipes has_diabetes has_gout has_celiac.

End Service.

End RecipeService.

(* ===================================================================== *)
(** * services/shop_service.py *)
(* ===================================================================== *)

Module ShopService.
Import PyStr.

(** An entry of the shop base; the coordinates and the rating are the
    decimal literals of the source. *)
Record Shop : Type := {
  id : pystr;
  name : pystr;
  chain : pystr;
  latitude : Q;
  longitude : Q;
  address : pystr;
  rating : Q;
  working_hours : pystr;
  has_delivery : bool
}.

(** The prices of one shop: product name and price, in the order of the
    dict, which the partial match observes. *)
Definition price_table : Type := list (pystr * Z).

Definition shop_001 : Shop :=
  {| id := lit "shop_001";
     name := lit "Пятёрочка";
     chain := lit "X5 Retail Group";
     latitude := 55.7558;
     longitude := 37.6173;
     address := lit "Москва, Красная площадь, 1";
     rating := 4.7;
     working_hours := lit "08:00-23:00";
     has_delivery := true |}.

Definition shop_002 : Shop :=
  {| id := lit "shop_002";
     name := lit "Магнит";
     chain := lit "Магнит";
     latitude := 55.75;
     longitude := 37.62;
     address := lit "Москва, ул. Тверская, 15";
     rating := 4.5;
     working_hours := lit "07:00-23:00";
     has_delivery := true |}.

Definition shop_003 : Shop :=
  {| id := lit "shop_003";
     name := lit "Дикси";
     chain := lit "Дикси";
     latitude := 55.76;
     longitude := 37.61;
     address := lit "Москва, Охотный ряд, 2";
     rating := 4.3;
     working_hours := lit "06:00-23:00";
     has_delivery := false |}.

Definition shop_004 : Shop :=
  {| id := lit "shop_004";
     name := lit "ВкусВилл";
     chain := lit "ВкусВилл";
     latitude := 55.752;
     longitude := 37.615;
     address := lit "Москва, ул. Никольская, 10";
     rating := 4.8;
     working_hours := lit "08:00-22:00";
     has_delivery := true |}.

Definition shop_005 : Shop :=
  {| id := lit "shop_005";
     name := lit "Перекрёсток";
     chain := lit "X5 Retail Group";
     latitude := 55.758;
     longitude := 37.622;
     address := lit "Москва, ул. Петровка, 5";
     rating := 4.6;
     working_hours := lit "07:00-24:00";
     has_delivery := true |}.

Definition MOCK_SHOPS : list Shop :=
  [shop_001; shop_002; shop_003; shop_004; shop_005].

Definition prices_shop_001 : price_table :=
  [(lit "Куриное филе", 289);
   (lit "Брокколи", 149);
   (lit "Гречневая крупа", 89);
   (lit "Оливковое масло", 549);
   (lit "Творог 5%", 89);
   (lit "Яйца (10 шт)", 99);
   (lit "Овсяные хлопья", 79);
   (lit "Треска (филе)", 449);
   (lit "Помидоры черри", 199);
   (lit "Киноа", 299)].

Definition prices_shop_002 : price_table :=
  [(lit "Куриное филе", 279);
   (lit "Брокколи", 159);
   (lit "Гречневая крупа", 79);
   (lit "Оливковое масло", 529);
   (lit "Творог 5%", 79);
   (lit "Яйца (10 шт)", 89);
   (lit "Овсяные хлопья", 69);
   (lit "Треска (филе)", 429);
   (lit "Помидоры черри", 189);
   (lit "Киноа", 319)].

Definition prices_shop_003 : price_table :=
  [(lit "Куриное филе", 299);
   (lit "Брокколи", 139);
   (lit "Гречневая крупа", 85);
   (lit "Оливковое масло", 569);
   (lit "Творог 5%", 85);
   (lit "Яйца (10 шт)", 95);
   (lit "Овсяные хлопья", 75);
   (lit "Треска (филе)", 459);
   (lit "Помидоры черри", 179);
   (lit "Киноа", 289)].

Definition prices_shop_004 : price_table :=
  [(lit "Куриное филе", 329);
   (lit "Брокколи", 169);
   (lit "Гречневая крупа", 99);
   (lit "Оливковое масло", 599);
   (lit "Творог 5%", 99);
   (lit "Яйца (10 шт)", 129);
   (lit "Овсяные хлопья", 89);
   (lit "Треска (филе)", 499);
   (lit "Помидоры черри", 229);
   (lit "Киноа", 349)].

Definition prices_shop_005 : price_table :=
  [(lit "Куриное филе", 309);
   (lit "Брокколи", 159);
   (lit "Гречневая крупа", 95);
   (lit "Оливковое масло", 579);
   (lit "Творог 5%", 95);
   (lit "Яйца (10 шт)", 109);
   (lit "Овсяные хлопья", 85);
   (lit "Треска (филе)", 479);
   (lit "Помидоры черри", 209);
   (lit "Киноа", 329)].

Definition MOCK_PRICES : gmap pystr price_table :=
  list_to_map
    [(lit "shop_001", prices_shop_001);
     (lit "shop_002", prices_shop_002);
     (lit "shop_003", prices_shop_003);
     (lit "shop_004", prices_shop_004);
     (lit "shop_005", prices_shop_005)].

(** An item of the result of [compare_prices]. *)
Record Offer : Type := {
  offer_shop_id : pystr;
  offer_shop_name : pystr;
  offer_shop_address : pystr;
  offer_price : Z;
  offer_rating : Q
}.

(** A value of the dict that [get_prices_for_recipe] returns. *)
Record ShopTotal : Type := {
  shop_name : pystr;
  shop_address : pystr;
  total_price : Z;
  found_items : Z;
  total_items : Z;
  items : list (pystr * Z);
  total_rating : Q
}.

(** An item of the result of [find_nearby_shops]: the copy of the shop
    with its ["distance_km"], a number with two decimals that is kept as
    its count of hundredths of a kilometre. *)
Record NearbyShop : Type := {
  shop : Shop;
  distance_km : Z
}.

Section Service.
(** [str.lower]. *)
Variable lower : pystr -> pystr.
(** [self.shops_db] and [self.prices_db]. *)
Variable shops_db : list Shop.
Variable prices_db : gmap pystr price_table.

(** The first loop of [_find_product_price]. *)
Fixpoint exact_loop (shop_prices : price_table)
    (product_lower : pystr) : option Z :=
  match shop_prices with
  | [] => None
  | (n, price) :: rest =>
    if str_eqb (lower n) product_lower then Some price
    else exact_loop rest product_lower
  end.

(** The second loop of [_find_product_price]. *)
Fixpoint partial_loop (shop_prices : price_table)
    (product_lower : pystr) : option Z :=
  match shop_prices with
  | [] => None
  | (n, price) :: rest =>
    if str_in product_lower (lower n) || str_in (lower n) product_lower
    then Some price
    else partial_loop rest product_lower
  end.

Definition _find_product_price (shop_prices : price_table)
    (product_name : pystr) : option Z :=
  let product_lower := lower product_name in
  match exact_loop shop_prices product_lower with
  | Some price => Some price
  | None => partial_loop shop_prices product_lower
  end.

(** [self.prices_db.get(shop_id, {})]. *)
Definition prices_of (shop_id : pystr) : price_table :=
  default [] (prices_db !! shop_id).

(** The loop of [compare_prices], before the sort. *)
Fixpoint compare_loop (shops : list Shop) (product_name : pystr)
    (results : list Offer) : list Offer :=
  match shops with
  | [] => results
  | s :: rest =>
    match _find_product_price (prices_of (id s)) product_name with
    | Some price =>
      compare_loop rest product_name
        (results ++ [ {| offer_shop_id := id s;
                         offer_shop_name := name s;
                         offer_shop_address := address s;
                         offer_price := price;
                         offer_rating := rating s |} ])
    | None => compare_loop rest product_name results
    end
  end.

Definition compare_prices (product_name : pystr) : list Offer :=
  Py.sort_by_key offer_price (compare_loop shops_db product_name []).

(** [find_cheapest_shop_for_product]: [best_price] starts at
    [float("inf")]. *)
Fixpoint cheapest_product_loop (shops : list Shop) (product_name : pystr)
    (best_shop : option Offer) (best_price : Py.ext) : option Offer :=
  match shops with
  | [] => best_shop
  | s :: rest =>
    match _find_product_price (prices_of (id s)) product_name with
    | Some price =>
      if Py.ext_ltb (Py.Fin price) best_price
      then cheapest_product_loop rest product_name
             (Some {| offer_shop_id := id s;
                      offer_shop_name := name s;
                      offer_shop_address := address s;
                      offer_price := price;
                      offer_rating := rating s |})
             (Py.Fin price)
      else cheapest_product_loop rest product_name best_shop best_price
    | None => cheapest_product_loop rest product_name best_shop best_price
    end
  end.

Definition find_cheapest_shop_for_product (product_name : pystr)
    : option Offer :=
  cheapest_product_loop shops_db product_name None Py.Inf.

(** The inner loop of [get_prices_for_recipe] over the ingredients, with
    [total_price], [found_count] and [items_prices] as its state. *)
Fixpoint ingredients_loop (shop_prices : price_table)
    (recipe_ingredients : list RecipeService.Ingredient)
    (st : Z * Z * list (pystr * Z)) : Z * Z * list (pystr * Z) :=
  match recipe_ingredients with
  | [] => st
  | ing :: rest =>
    let '(total, found_count, items_prices) := st in
    let ingredient_name := RecipeService.ing_name ing in
    match _find_product_price shop_prices ingredient_name with
    | Some price =>
      ingredients_loop shop_prices rest
        (total + price, found_count + 1,
         items_prices ++ [(ingredient_name, price)])
    | None => ingredients_loop shop_prices rest st
    end
  end.

(** The outer loop, over the shops, with the dict [prices_by_shop]. *)
Fixpoint shops_loop (shops : list Shop)
    (recipe_ingredients : list RecipeService.Ingredient)
    (prices_by_shop : list (pystr * ShopTotal)) : list (pystr * ShopTotal) :=
  match shops with
  | [] => prices_by_shop
  | s :: rest =>
    let '(total, found_count, items_prices) :=
      ingredients_loop (prices_of (id s)) recipe_ingredients (0, 0, []) in
    shops_loop rest recipe_ingredients
      (Py.dict_set prices_by_shop (id s)
         {| shop_name := name s;
            shop_address := address s;
            total_price := total;
            found_items := found_count;
            total_items := Z.of_nat (length recipe_ingredients);
            items := items_prices;
            total_rating := rating s |})
  end.

Definition get_prices_for_recipe
    (recipe_ingredients : list RecipeService.Ingredient)
    : list (pystr * ShopTotal) :=
  shops_loop shops_db recipe_ingredients [].

(** The key of the [min] of [find_cheapest_shop_for_recipe]. *)
Definition cheapest_key (x : pystr * ShopTotal) : Py.ext :=
  if total_price (snd x) >? 0 then Py.Fin (total_price (snd x)) else Py.Inf.

(** [find_cheapest_shop_for_recipe]; the result is the shop's dict
    together with the ["shop_id"] that the function stores in it. *)
Definition find_cheapest_shop_for_recipe
    (recipe_ingredients : list RecipeService.Ingredient)
    : option (pystr * ShopTotal) :=
  let prices_by_shop := get_prices_for_recipe recipe_ingredients in
  match prices_by_shop with
  | [] => None
  | _ :: _ => Py.min_by_key cheapest_key prices_by_shop
  end.

Fixpoint get_shop_by_id_loop (shops : list Shop) (shop_id : pystr)
    : option Shop :=
  match shops with
  | [] => None
  | s :: rest =>
    if str_eqb (id s) shop_id then Some s
    else get_shop_by_id_loop rest shop_id
  end.

Definition get_shop_by_id (shop_id : pystr) : option Shop :=
  get_shop_by_id_loop shops_db shop_id.

(** ** Nearby shops

    The distance is computed in a number type [num] (the floats of the
    source), of which the search needs the distance function, the value
    of a decimal literal, the comparison [<=] and [round(_, 2)]. *)
Section Nearby.
Variable num : Type.
Variable haversine_distance : num -> num -> num -> num -> num.
Variable of_decimal : Q -> num.
Variable num_leb : num -> num -> bool.
Variable round2 : num -> Z.

(** The distance of a shop from the query point, as the loop
    computes it. *)
Definition shop_distance (latitude' longitude' : num) (s : Shop) : num :=
  haversine_distance latitude' longitude'
    (of_decimal (latitude s)) (of_decimal (longitude s)).

Fixpoint nearby_loop (shops : list Shop) (latitude' longitude' : num)
    (radius_km : num) (shops_with_distance : list NearbyShop)
    : list NearbyShop :=
  match shops with
  | [] => shops_with_distance
  | s :: rest =>
    let distance := shop_distance latitude' longitude' s in
    if num_leb distance radius_km
    then nearby_loop rest latitude' longitude' radius_km
           (shops_with_distance
              ++ [ {| shop := s; distance_km := round2 distance |} ])
    else nearby_loop rest latitude' longitude' radius_km
           shops_with_distance
  end.

Definition find_nearby_shops (latitude' longitude' : num)
    (radius_km : num) (limit : Z) : list NearbyShop :=
  let shops_with_distance :=
    nearby_loop shops_db latitude' longitude' radius_km [] in
  Py.slice_to limit (Py.sort_by_key distance_km shops_with_distance).
End Nearby.

End Service.

End ShopService.

(* ===================================================================== *)
(** * The Haversine distance *)
(* ===================================================================== *)

(** The formula of [ShopService._calculate_haversine_distance] in exact
    arithmetic, the floats read as real numbers.  The computation on
    floats, whose rounding can take it out of the domain of [math.sqrt],
    is [PyFloat._calculate_haversine_distance] below. *)
Module Haversine.
Local Open Scope R_scope.

Definition EARTH_RADIUS_KM : R := 6371.

(** [math.radians]. *)
Definition radians (x : R) : R := x * (PI / 180).

(** [math.atan2(y, x)]: the angle of the point [(x, y)]. *)
Definition atan2 (y x : R) : R :=
  if Rlt_dec 0 x then atan (y / x)
  else if Rlt_dec x 0
       then if Rle_dec 0 y then atan (y / x) + PI else atan (y / x) - PI
       else if Rlt_dec 0 y then PI / 2
            else if Rlt_dec y 0 then - (PI / 2) else 0.

Definition _calculate_haversine_distance (lat1 lon1 lat2 lon2 : R) : R :=
  let lat1_rad := radians lat1 in
  let lat2_rad := radians lat2 in
  let delta_lat := radians (lat2 - lat1) in
  let delta_lon := radians (lon2 - lon1) in
  let a :=
    sin (delta_lat / 2) ^ 2
    + cos lat1_rad * cos lat2_rad * sin (delta_lon / 2) ^ 2 in
  let c := 2 * atan2 (sqrt a) (sqrt (1 - a)) in
  EARTH_RADIUS_KM * c.

(** [x <= y] as a truth value. *)
Definition Rleb (x y : R) : bool := if Rle_dec x y then true else false.

(** The integer nearest to [y], a tie going to the even one. *)
Definition round_half_even (y : R) : Z :=
  let f := (up y - 1)%Z in
  let d := y - IZR f in
  if Rlt_dec d (1 / 2) then f
  else if Rlt_dec (1 / 2) d then (f + 1)%Z
       else if Z.even f then f else (f + 1)%Z.

(** [round(x, 2)], as a count of hundredths. *)
Definition round2 (x : R) : Z := round_half_even (x * 100).

(** [find_nearby_shops] of the service, on real numbers. *)
Definition find_nearby_shops (shops_db : list ShopService.Shop)
    (latitude longitude radius_km : R) (limit : Z)
    : list ShopService.NearbyShop :=
  ShopService.find_nearby_shops shops_db R _calculate_haversine_distance
    Q2R Rleb round2 latitude longitude radius_km limit.

End Haversine.

(* ===================================================================== *)
(** * The Haversine distance on floats *)
(* ===================================================================== *)

Module PyFloat.

(** The operations on [float] that the distance and the search of shops
    use, on a type [num] of floats.  [math.sin], [math.cos] and
    [math.sqrt] raise [ValueError] outside their domain (an infinite
    angle, a negative radicand): [None]. *)
Record ops (num : Type) : Type := {
  (** the float of a decimal literal or of an [int] *)
  of_decimal : Q -> num;
  add : num -> num -> num;
  sub : num -> num -> num;
  mul : num -> num -> num;
  div : num -> num -> num;
  (** [x ** 2] *)
  sqr : num -> num;
  (** [math.radians] *)
  radians : num -> num;
  sin : num -> option num;
  cos : num -> option num;
  sqrt : num -> option num;
  atan2 : num -> num -> num;
  (** [x <= y] *)
  leb : num -> num -> bool;
  (** [round(x, 2)], as a count of hundredths *)
  round2 : num -> Z
}.
Arguments of_decimal {num} _ _.
Arguments add {num} _ _ _.
Arguments sub {num} _ _ _.
Arguments mul {num} _ _ _.
Arguments div {num} _ _ _.
Arguments sqr {num} _ _.
Arguments radians {num} _ _.
Arguments sin {num} _ _.
Arguments cos {num} _ _.
Arguments sqrt {num} _ _.
Arguments atan2 {num} _ _ _.
Arguments leb {num} _ _ _.
Arguments round2 {num} _ _.

Section Distance.
Context {num : Type} (F : ops num).

Definition EARTH_RADIUS_KM : num := of_decimal F 6371.

(** [_calculate_haversine_distance]: the distance, or [None] when a call
    of [math] raises [ValueError]. *)
Definition _calculate_haversine_distance (lat1 lon1 lat2 lon2 : num)
    : option num :=
  let lat1_rad := radians F lat1 in
  let lat2_rad := radians F lat2 in
  let delta_lat := radians F (sub F lat2 lat1) in
  let delta_lon := radians F (sub F lon2 lon1) in
  match sin F (div F delta_lat (of_decimal F 2)) with
  | None => None
  | Some sin_lat =>
    match cos F lat1_rad with
    | None => None
    | Some cos1 =>
      match cos F lat2_rad with
      | None => None
      | Some cos2 =>
        match sin F (div F delta_lon (of_decimal F 2)) with
        | None => None
        | Some sin_lon =>
          let a :=
            add F (sqr F sin_lat) (mul F (mul F cos1 cos2) (sqr F sin_lon)) in
          match sqrt F a with
          | None => None
          | Some root_a =>
            match sqrt F (sub F (of_decimal F 1) a) with
            | None => None
            | Some root_1a =>
              let c := mul F (of_decimal F 2) (atan2 F root_a root_1a) in
              Some (mul F EARTH_RADIUS_KM c)
            end
          end
        end
      end
    end
  end.


End Distance.

(** Exact arithmetic: the real numbers, on which the sine and the cosine
    are defined everywhere and the square root on the numbers that are
    not negative. *)
Definition exact : ops R :=
  {| of_decimal := Q2R;
     add := Rplus;
     sub := Rminus;
     mul := Rmult;
     div := Rdiv;
     sqr := fun x => (x ^ 2)%R;
     radians := Haversine.radians;
     sin := fun x => Some (Rtrigo_def.sin x);
     cos := fun x => Some (Rtrigo_def.cos x);
     sqrt := fun x =>
       if Rle_dec 0 x then Some (R_sqrt.sqrt x) else None;
     atan2 := Haversine.atan2;
     leb := Haversine.Rleb;
     round2 := Haversine.round2 |}.

End PyFloat.

(* ===================================================================== *)
(** * The calls as a caller sees them *)
(* ===================================================================== *)

(** Neither [search_recipes] nor [find_nearby_shops] has a [raise]
    statement or a check of its arguments.  Every operation of the body of
    [search_recipes] is defined on all the values of the arguments' types:
    the call returns.  [find_nearby_shops] computes a distance on floats
    for each shop, and the [ValueError] of a call of [math] in it leaves
    the loop and reaches the caller. *)
Module Calls.

Definition search_recipes (lower : PyStr.pystr -> PyStr.pystr)
    (settings : Config.Settings) (recipes_db : list RecipeService.Recipe)
    (query : PyStr.pystr) (has_diabetes has_gout has_celiac : bool)
    (limit : Z) : Py.outcome (list RecipeService.Recipe) :=
  Py.Returned
    (RecipeService.search_recipes lower settings recipes_db query
       has_diabetes has_gout has_celiac limit).

Section Nearby.
Context {num : Type} (F : PyFloat.ops num).

(** The distance of a shop from the query point, as the loop computes
    it. *)
Definition shop_distance (latitude longitude : num) (s : ShopService.Shop)
    : option num :=
  PyFloat._calculate_haversine_distance F latitude longitude
    (PyFloat.of_decimal F (ShopService.latitude s))
    (PyFloat.of_decimal F (ShopService.longitude s)).

Fixpoint nearby_loop (shops : list ShopService.Shop)
    (latitude longitude radius_km : num)
    (shops_with_distance : list ShopService.NearbyShop)
    : Py.outcome (list ShopService.NearbyShop) :=
  match shops with
  | [] => Py.Returned shops_with_distance
  | s :: rest =>
    match shop_distance latitude longitude s with
    | None => Py.Raised Py.ValueError
    | Some distance =>
      if PyFloat.leb F distance radius_km
      then nearby_loop rest latitude longitude radius_km
             (shops_with_distance
                ++ [ {| ShopService.shop := s;
                        ShopService.distance_km :=
                          PyFloat.round2 F distance |} ])
      else nearby_loop rest latitude longitude radius_km
             shops_with_distance
    end
  end.

Definition find_nearby_shops (shops_db : list ShopService.Shop)
    (latitude longitude radius_km : num) (limit : Z)
    : Py.outcome (list ShopService.NearbyShop) :=
  match nearby_loop shops_db latitude longitude radius_km [] with
  | Py.Returned shops_with_distance =>
    Py.Returned
      (Py.slice_to limit
         (Py.sort_by_key ShopService.distance_km shops_with_distance))
  | Py.Raised e => Py.Raised e
  end.


End Nearby.

End Calls.

(* ===================================================================== *)
(** * The specification's own words *)
(* ===================================================================== *)

(** The notions of the specification, written from its text and not from
    the code, against which the code is compared below. *)
Module Spec.
Import PyStr.

(** [needle] is a substring of [hay]. *)
Definition occurs (needle hay : pystr) : Prop :=
  exists pre post, hay = pre ++ needle ++ post.

(** A recipe meets every active constraint; an inactive flag imposes
    nothing. *)
Definition satisfies (settings : Config.Settings)
    (has_diabetes has_gout has_celiac : bool)
    (r : RecipeService.Recipe) : Prop :=
  (has_diabetes = true ->
   RecipeService.glycemic_index r <= Config.max_glycemic_index settings)
  /\ (has_gout = true -> RecipeService.purines r <= 100)
  /\ (has_celiac = true -> RecipeService.suitable_for_celiac r = true).

Definition satisfiesb (settings : Config.Settings)
    (has_diabetes has_gout has_celiac : bool)
    (r : RecipeService.Recipe) : bool :=
  implb has_diabetes
    (RecipeService.glycemic_index r <=? Config.max_glycemic_index settings)
  && implb has_gout (RecipeService.purines r <=? 100)
  && implb has_celiac (RecipeService.suitable_for_celiac r).

(** The normalised query is a substring of the recipe's lower-cased name
    or of the lower-cased name of one of its ingredients. *)
Definition matches (lower : pystr -> pystr) (q : pystr)
    (r : RecipeService.Recipe) : Prop :=
  occurs q (lower (RecipeService.name r))
  \/ Exists (fun i => occurs q (lower (RecipeService.ing_name i)))
       (RecipeService.ingredients r).

Definition matchesb (lower : pystr -> pystr) (q : pystr)
    (r : RecipeService.Recipe) : bool :=
  str_in q (lower (RecipeService.name r))
  || existsb (fun i => str_in q (lower (RecipeService.ing_name i)))
       (RecipeService.ingredients r).

(** [search]: normalise the query, match, apply the diagnosis filter, keep
    the first [limit] in catalog order. *)
Definition search (lower : pystr -> pystr) (settings : Config.Settings)
    (catalog : list RecipeService.Recipe) (query : pystr)
    (has_diabetes has_gout has_celiac : bool) (limit : nat)
    : list RecipeService.Recipe :=
  firstn limit
    (List.filter (satisfiesb settings has_diabetes has_gout has_celiac)
       (List.filter (matchesb lower (strip (lower query))) catalog)).

(** Two recipes that differ at most in [suitable_for_diabetes] and
    [suitable_for_gout]. *)
Definition same_but_suitability (r1 r2 : RecipeService.Recipe) : Prop :=
  RecipeService.id r1 = RecipeService.id r2
  /\ RecipeService.name r1 = RecipeService.name r2
  /\ RecipeService.calories r1 = RecipeService.calories r2
  /\ RecipeService.proteins r1 = RecipeService.proteins r2
  /\ RecipeService.fats r1 = RecipeService.fats r2
  /\ RecipeService.carbs r1 = RecipeService.carbs r2
  /\ RecipeService.glycemic_index r1 = RecipeService.glycemic_index r2
  /\ RecipeService.purines r1 = RecipeService.purines r2
  /\ RecipeService.cooking_time_min r1 = RecipeService.cooking_time_min r2
  /\ RecipeService.servings r1 = RecipeService.servings r2
  /\ RecipeService.suitable_for_celiac r1 = RecipeService.suitable_for_celiac r2
  /\ RecipeService.category r1 = RecipeService.category r2
  /\ RecipeService.ingredients r1 = RecipeService.ingredients r2.

(** The recipe with its two fields [suitable_for_diabetes] and
    [suitable_for_gout] set anew. *)
Definition with_suitability (for_diabetes for_gout : bool)
    (r : RecipeService.Recipe) : RecipeService.Recipe :=
  {| RecipeService.id := RecipeService.id r;
     RecipeService.name := RecipeService.name r;
     RecipeService.calories := RecipeService.calories r;
     RecipeService.proteins := RecipeService.proteins r;
     RecipeService.fats := RecipeService.fats r;
     RecipeService.carbs := RecipeService.carbs r;
     RecipeService.glycemic_index := RecipeService.glycemic_index r;
     RecipeService.purines := RecipeService.purines r;
     RecipeService.cooking_time_min := RecipeService.cooking_time_min r;
     RecipeService.servings := RecipeService.servings r;
     RecipeService.suitable_for_diabetes := for_diabetes;
     RecipeService.suitable_for_gout := for_gout;
     RecipeService.suitable_for_celiac := RecipeService.suitable_for_celiac r;
     RecipeService.category := RecipeService.category r;
     RecipeService.ingredients := RecipeService.ingredients r |}.

(** The price-match policy.  A key is an exact match when it equals the
    product name up to case, a partial match when one of the two names,
    lower-cased, is a substring of the other. *)
Definition exact_match (lower : pystr -> pystr) (product key : pystr) : Prop :=
  lower key = lower product.

Definition partial_match (lower : pystr -> pystr) (product key : pystr)
    : Prop :=
  occurs (lower product) (lower key) \/ occurs (lower key) (lower product).

(** The two tests as truth values, on an entry of a price table and the
    lower-cased product name. *)
Definition exact_matchb (lower : pystr -> pystr) (product_lower : pystr)
    (e : pystr * Z) : bool :=
  str_eqb (lower (fst e)) product_lower.

Definition partial_matchb (lower : pystr -> pystr) (product_lower : pystr)
    (e : pystr * Z) : bool :=
  str_in product_lower (lower (fst e)) || str_in (lower (fst e)) product_lower.

(** [price] is the price the policy gives for [product] in [table], or
    there is none ([None]): the first exact match in the order of the
    table; without an exact match, the first partial match; without any
    match, nothing. *)
Definition price_policy (lower : pystr -> pystr)
    (table : ShopService.price_table) (product : pystr)
    (price : option Z) : Prop :=
  match price with
  | Some v =>
    exists before key after,
      table = before ++ (key, v) :: after
      /\ ((exact_match lower product key
           /\ Forall (fun e => ~ exact_match lower product (fst e)) before)
          \/ (Forall (fun e => ~ exact_match lower product (fst e)) table
              /\ partial_match lower product key
              /\ Forall (fun e => ~ partial_match lower product (fst e))
                   before))
  | None =>
    Forall (fun e => ~ exact_match lower product (fst e)
                     /\ ~ partial_match lower product (fst e)) table
  end.

(** The offer of a shop for a product, if the shop stocks it. *)
Definition offer_of (lower : pystr -> pystr)
    (prices_db : gmap pystr ShopService.price_table)
    (product : pystr) (s : ShopService.Shop) : list ShopService.Offer :=
  match ShopService._find_product_price lower
          (ShopService.prices_of prices_db (ShopService.id s)) product with
  | Some price =>
    [ {| ShopService.offer_shop_id := ShopService.id s;
         ShopService.offer_shop_name := ShopService.name s;
         ShopService.offer_shop_address := ShopService.address s;
         ShopService.offer_price := price;
         ShopService.offer_rating := ShopService.rating s |} ]
  | None => []
  end.


(** A list in ascending order of a key. *)
Definition ascending {A : Type} (key : A -> Z) (l : list A) : Prop :=
  StronglySorted (fun a b => key a <= key b) l.

(** [sorted] is [l] put in ascending order of [key], items of equal key
    staying in the order they have in [l]. *)
Definition stable_sorted {A : Type} (key : A -> Z) (l sorted : list A)
    : Prop :=
  Permutation l sorted
  /\ ascending key sorted
  /\ forall k, List.filter (fun a => key a =? k) sorted
               = List.filter (fun a => key a =? k) l.

End Spec.

(* ===================================================================== *)
(** * Notions for the properties of the remaining code *)
(* ===================================================================== *)

Module Notions.
Import PyStr.

(** The sum of the prices of a list of priced items. *)
Definition sum_prices (items : list (pystr * Z)) : Z :=
  fold_right (fun item acc => snd item + acc) 0 items.

(** The ingredients that a price table prices, each with its price, in
    the order of the ingredient list. *)
Definition priced_items (lower : pystr -> pystr)
    (table : ShopService.price_table)
    (ings : list RecipeService.Ingredient) : list (pystr * Z) :=
  flat_map
    (fun ing =>
       match ShopService._find_product_price lower table
               (RecipeService.ing_name ing) with
       | Some price => [(RecipeService.ing_name ing, price)]
       | None => []
       end)
    ings.

(** The value that [get_prices_for_recipe] stores for a shop. *)
Definition shop_total (lower : pystr -> pystr)
    (prices_db : gmap pystr ShopService.price_table)
    (ings : list RecipeService.Ingredient) (s : ShopService.Shop)
    : ShopService.ShopTotal :=
  let priced :=
    priced_items lower (ShopService.prices_of prices_db (ShopService.id s))
      ings in
  {| ShopService.shop_name := ShopService.name s;
     ShopService.shop_address := ShopService.address s;
     ShopService.total_price := sum_prices priced;
     ShopService.found_items := Z.of_nat (length priced);
     ShopService.total_items := Z.of_nat (length ings);
     ShopService.items := priced;
     ShopService.total_rating := ShopService.rating s |}.

(** The head of a list sorted by the stable insertion sort after one more
    item [x] is put in front of the input: [x], unless the old head has a
    smaller key. *)
Definition pick_head {A : Type} (key : A -> Z) (x : A) (h : option A)
    : option A :=
  match h with
  | None => Some x
  | Some y => if key y <? key x then Some y else Some x
  end.

(** [x] is the first item of [l] with the least key. *)
Definition first_least {A : Type} (key : A -> Z) (l : list A) (x : A)
    : Prop :=
  exists before after,
    l = before ++ x :: after
    /\ Forall (fun y => key x < key y) before
    /\ Forall (fun y => key x <= key y) after.

End Notions.

(* ===================================================================== *)
(** * More Python built-ins *)
(* ===================================================================== *)

Module PyMore.
Import PyStr.

(** The line feed of a ["\n"] escape. *)
Definition nl : pystr := [10%N].

(** [sep.join(parts)]. *)
Fixpoint join (sep : pystr) (parts : list pystr) : pystr :=
  match parts with
  | [] => []
  | [p] => p
  | p :: rest => p ++ sep ++ join sep rest
  end.

(** [str(n)] for an [int]: the decimal digits, after a minus sign for a
    negative number. *)
Definition str_of_int (n : Z) : pystr :=
  lit (DecimalString.NilZero.string_of_int (Z.to_int n)).

(** [s.replace(old, new)] for an [old] that is not empty: the occurrences
    of [old] are replaced from the left, an occurrence starting where the
    one before it ends at the earliest.  [skip] counts the characters of
    an occurrence that are still to be passed over. *)
Fixpoint replace_from (old new : pystr) (skip : nat) (s : pystr) : pystr :=
  match s with
  | [] => []
  | ch :: s' =>
    match skip with
    | S k => replace_from old new k s'
    | O =>
      if startswith old s
      then new ++ replace_from old new (length old - 1) s'
      else ch :: replace_from old new 0 s'
    end
  end.

Definition replace (old new s : pystr) : pystr := replace_from old new 0 s.

(** [a or b] on an optional [int]: [a] unless it is [None] or 0. *)
Definition int_or (a : option Z) (b : Z) : Z :=
  match a with
  | Some n => if n =? 0 then b else n
  | None => b
  end.

End PyMore.

(* ===================================================================== *)
(** * services/gpt_service.py *)
(* ===================================================================== *)

Module GPTService.
Import PyStr PyMore.

(** The keyword arguments of [openai.ChatCompletion.create]; a message is
    its role and its content. *)
Record ChatRequest : Type := {
  model : pystr;
  messages : list (pystr * pystr);
  max_tokens : Z;
  temperature : Q;
  top_p : option Q
}.

(** How the call of the API and the reading of
    [response.choices[0].message["content"]] end: with the content, with
    an [openai.APIError], or with another exception. *)
Inductive ApiResult : Type :=
| ApiContent (content : pystr)
| ApiError
| ApiOtherError.

Definition SYSTEM_PROMPT : pystr :=
  lit "Вы опытный врач-диетолог с 20-летним стажем работы." ++ nl ++
  lit "Специализируетесь на средиземноморской диете для " ++
  lit "пациентов с:" ++ nl ++
  lit "- Подагрой (контроль пуринов, мочевой кислоты)" ++ nl ++
  lit "- Сахарным диабетом 2 типа (контроль гликемического " ++
  lit "индекса)" ++ nl ++
  lit "- Целиакией (безглютеновая диета)" ++ nl ++ nl ++
  lit "Правила ответов:" ++ nl ++
  lit "1. Отвечайте кратко, по существу (2-4 абзаца максимум)" ++ nl ++
  lit "2. Используйте научно обоснованные рекомендации" ++ nl ++
  lit "3. Всегда предупреждайте о необходимости консультации " ++
  lit "с врачом" ++ nl ++
  lit "4. Отвечайте на русском языке" ++ nl ++
  lit "5. Не давайте медицинских диагнозов" ++ nl ++
  lit "6. Рекомендуйте продукты из списка 99 полезных " ++
  lit "продуктов средиземноморской диеты".

Definition MODEL_NAME : pystr := lit "gpt-4".
Definition MAX_TOKENS : Z := 500.
Definition TEMPERATURE : Q := 0.7.

Definition _build_diagnosis_context (has_diabetes has_gout has_celiac : bool)
    : pystr :=
  let diagnoses := [] in
  let diagnoses :=
    if has_diabetes
    then diagnoses
           ++ [lit "сахарный диабет 2 типа (нужны продукты с низким "
               ++ lit "ГИ < 55)"]
    else diagnoses in
  let diagnoses :=
    if has_gout
    then diagnoses
           ++ [lit "подагра (нужны продукты с низким содержанием "
               ++ lit "пуринов < 100мг/100г)"]
    else diagnoses in
  let diagnoses :=
    if has_celiac
    then diagnoses ++ [lit "целиакия (нужны безглютеновые продукты)"]
    else diagnoses in
  match diagnoses with
  | _ :: _ =>
    lit "Диагнозы пользователя: " ++ join (lit ", ") diagnoses ++ lit "."
  | [] => lit "Пользователь без специальных диагнозов."
  end.

Definition _build_dietary_requirements
    (has_diabetes has_gout has_celiac : bool) : pystr :=
  let requirements := [] in
  let requirements :=
    if has_diabetes
    then requirements ++ [lit "низкий гликемический индекс (ГИ < 55)"]
    else requirements in
  let requirements :=
    if has_gout
    then requirements ++ [lit "низкое содержание пуринов (< 100мг/100г)"]
    else requirements in
  let requirements :=
    if has_celiac then requirements ++ [lit "без глютена"]
    else requirements in
  match requirements with
  | _ :: _ =>
    lit "Требования к диете: " ++ join (lit ", ") requirements ++ lit "."
  | [] => lit "Сбалансированное питание средиземноморской диеты."
  end.

Definition _get_fallback_response (question : pystr)
    (has_gout has_diabetes : bool) : pystr :=
  let tips := [] in
  let tips :=
    if has_gout
    then tips
           ++ [lit "При подагре рекомендуется: овощи, фрукты, нежирные "
               ++ lit "молочные продукты, цельнозерновые каши. "
               ++ lit "Избегайте: красное мясо, субпродукты, алкоголь."]
    else tips in
  let tips :=
    if has_diabetes
    then tips
           ++ [lit "При диабете выбирайте продукты с низким ГИ: гречка, "
               ++ lit "овсянка, бобовые, овощи. Избегайте: сахар, "
               ++ lit "белый хлеб, сладости."]
    else tips in
  let tips :=
    match tips with
    | [] =>
      tips
        ++ [lit "Рекомендуем средиземноморскую диету: много овощей, "
            ++ lit "фруктов, оливковое масло, рыба, орехи."]
    | _ :: _ => tips
    end in
  lit "AI-диетолог временно недоступен." ++ nl ++ nl
  ++ join (nl ++ nl) tips
  ++ nl ++ nl ++ lit "Обязательно проконсультируйтесь с врачом!".

Definition _get_fallback_meal_plan (days : Z) : pystr :=
  lit "План питания на " ++ str_of_int days ++ lit " дней (упрощённый):"
  ++ nl ++ nl
  ++ lit "Завтрак: Овсянка с ягодами, зелёный чай" ++ nl
  ++ lit "Обед: Гречка с овощами, куриная грудка на пару" ++ nl
  ++ lit "Ужин: Рыба запечённая с брокколи" ++ nl
  ++ lit "Перекус: Йогурт натуральный, горсть орехов" ++ nl ++ nl
  ++ lit "Для персонализированного плана настройте OPENAI_API_KEY.".

Definition _get_error_response : pystr :=
  lit "Извините, AI-диетолог временно недоступен." ++ nl
  ++ lit "Пожалуйста, попробуйте позже или обратитесь к врачу.".

Section Service.
(** [OPENAI_AVAILABLE], [settings.openai_api_key], with the empty string
    for a key that is [None], and the API. *)
Variable OPENAI_AVAILABLE : bool.
Variable openai_api_key : pystr.
Variable create : ChatRequest -> ApiResult.

(** [not OPENAI_AVAILABLE or not settings.openai_api_key]. *)
Definition unavailable : bool :=
  negb OPENAI_AVAILABLE
  || match openai_api_key with [] => true | _ :: _ => false end.

(** The [full_prompt] of [ask_dietician]. *)
Definition dietician_prompt (question : pystr)
    (has_diabetes has_gout has_celiac : bool) : pystr :=
  let diagnosis_context :=
    _build_diagnosis_context has_diabetes has_gout has_celiac in
  diagnosis_context ++ nl ++ nl
  ++ lit "Вопрос пользователя: " ++ question ++ nl ++ nl
  ++ lit "Дайте рекомендацию с учётом диагнозов пользователя.".

(** The request that [ask_dietician] sends. *)
Definition dietician_request (question : pystr)
    (has_diabetes has_gout has_celiac : bool) (max_tokens' : option Z)
    : ChatRequest :=
  {| model := MODEL_NAME;
     messages :=
       [(lit "system", SYSTEM_PROMPT);
        (lit "user",
         dietician_prompt question has_diabetes has_gout has_celiac)];
     max_tokens := int_or max_tokens' MAX_TOKENS;
     temperature := TEMPERATURE;
     top_p := Some 0.9%Q |}.

Definition ask_dietician (question : pystr)
    (has_diabetes has_gout has_celiac : bool) (max_tokens' : option Z)
    : pystr :=
  if unavailable
  then _get_fallback_response question has_gout has_diabetes
  else
    match create (dietician_request question has_diabetes has_gout
                    has_celiac max_tokens') with
    | ApiContent content => strip content
    | ApiError => _get_error_response
    | ApiOtherError => _get_error_response
    end.

(** The [prompt] of [generate_meal_plan], for a number of days that is
    already limited. *)
Definition meal_plan_prompt (days : Z)
    (has_diabetes has_gout has_celiac : bool) : pystr :=
  let requirements :=
    _build_dietary_requirements has_diabetes has_gout has_celiac in
  lit "Создайте план питания на " ++ str_of_int days ++ lit " дней."
  ++ nl ++ requirements ++ nl ++ nl
  ++ lit "Для каждого дня укажите:" ++ nl
  ++ lit "- Завтрак" ++ nl ++ lit "- Обед" ++ nl ++ lit "- Ужин" ++ nl
  ++ lit "- Перекус" ++ nl ++ nl
  ++ lit "Используйте продукты из средиземноморской диеты. "
  ++ lit "Укажите примерную калорийность.".

(** The request that [generate_meal_plan] sends. *)
Definition meal_plan_request (days : Z)
    (has_diabetes has_gout has_celiac : bool) : ChatRequest :=
  {| model := MODEL_NAME;
     messages :=
       [(lit "system", SYSTEM_PROMPT);
        (lit "user",
         meal_plan_prompt days has_diabetes has_gout has_celiac)];
     max_tokens := 2000;
     temperature := 0.7;
     top_p := None |}.

Definition generate_meal_plan (days : Z)
    (has_diabetes has_gout has_celiac : bool) : pystr :=
  if unavailable then _get_fallback_meal_plan days
  else
    let days := Z.min (Z.max 1 days) 14 in
    match create (meal_plan_request days has_diabetes has_gout has_celiac)
    with
    | ApiContent content => strip content
    | ApiError => _get_fallback_meal_plan days
    | ApiOtherError => _get_fallback_meal_plan days
    end.

End Service.

End GPTService.

(* ===================================================================== *)
(** * middleware.py: the rate limiter *)
(* ===================================================================== *)

Module Middleware.

Section RateLimit.
(** The arguments of [rate_limit]. *)
Variable calls period : Z.
(** The decorated function, and the [from_user.id] of its first argument:
    [None] when there is no argument or it has no [from_user]. *)
Context {Args Res : Type}.
Variable func : Args -> Res.
Variable user_of : Args -> option Z.

(** [current_time - t < period], the readings of [time.time()] taken as
    exact numbers. *)
Definition recent (current_time t : Q) : bool :=
  if Qlt_le_dec (current_time - t) (inject_Z period) then true else false.

(** One call of [wrapper], with the dict [call_history] of the decorator
    and the reading of the clock as [current_time]: the dict afterwards
    and the value returned, [None] when the call is refused. *)
Definition wrapper (call_history : gmap Z (list Q)) (args : Args)
    (current_time : Q) : gmap Z (list Q) * option Res :=
  match user_of args with
  | Some user_id =>
    if user_id =? 0 then (call_history, Some (func args))
    else
      let history := default [] (call_history !! user_id) in
      let history := List.filter (recent current_time) history in
      if Z.of_nat (length history) >=? calls
      then (<[user_id := history]> call_history, None)
      else (<[user_id := history ++ [current_time]]> call_history,
            Some (func args))
  | None => (call_history, Some (func args))
  end.

(** A series of calls, each with the clock reading at the call: the dict
    at the end and, for each call, whether [func] was run. *)
Fixpoint run (call_history : gmap Z (list Q)) (events : list (Args * Q))
    : gmap Z (list Q) * list (Args * Q * bool) :=
  match events with
  | [] => (call_history, [])
  | (args, now) :: rest =>
    let '(call_history', result) := wrapper call_history args now in
    let '(final, log) := run call_history' rest in
    (final, (args, now, bool_decide (is_Some result)) :: log)
  end.

(** The times, in a log, of the calls of a user for which [func] was
    run. *)
Definition run_times (user_id : Z) (log : list (Args * Q * bool))
    : list Q :=
  List.map (fun e => snd (fst e))
    (List.filter
       (fun e => snd e
                 && match user_of (fst (fst e)) with
                    | Some v => v =? user_id
                    | None => false
                    end)
       log).

End RateLimit.

End Middleware.

(* ===================================================================== *)
(** * database.py: the users *)
(* ===================================================================== *)

Module Database.
Import PyStr.

(** A row of the table [users]; a time is a reading of the clock. *)
Record User : Type := {
  id : Z;
  telegram_id : Z;
  username : option pystr;
  first_name : option pystr;
  last_name : option pystr;
  language_code : pystr;
  is_active : bool;
  has_diabetes : bool;
  has_gout : bool;
  has_celiac : bool;
  weight_kg : option Q;
  height_cm : option Q;
  age : option Z;
  notification_enabled : bool;
  created_at : Z;
  updated_at : Z
}.

(** What a session sees of the database: the rows of [users] in the order
    of their insertion, and the next value of the autoincrement key. *)
Record Session : Type := {
  users : list User;
  next_user_id : Z
}.

(** How [create_user] ends: with the session after the commit and the new
    row, or, the table staying as it was, with the [IntegrityError] of the
    unique constraint on [telegram_id] or with the [OverflowError] of the
    driver for a [telegram_id] that is no 64-bit integer. *)
Inductive Created : Type :=
| UserRow (db : Session) (user : User)
| IntegrityError
| OverflowError.

(** The values of a [BigInteger] column, which the driver of the default
    database (SQLite) binds as signed 64-bit integers; it raises
    [OverflowError] for every other [int]. *)
Definition BIGINT_MIN : Z := - 2 ^ 63.
Definition BIGINT_MAX : Z := 2 ^ 63 - 1.

Definition in_bigint (n : Z) : bool :=
  (BIGINT_MIN <=? n) && (n <=? BIGINT_MAX).

(** [db.query(User).filter(User.telegram_id == telegram_id).first()], for
    a [telegram_id] that the driver binds.  The functions below check the
    range before they use it. *)
Definition get_user_by_telegram_id (db : Session) (telegram_id' : Z)
    : option User :=
  List.find (fun u => telegram_id u =? telegram_id') (users db).

(** [create_user], at the clock reading [now]; the columns that the call
    does not give take their defaults.  The [INSERT] of the commit binds
    the [telegram_id]. *)
Definition create_user (db : Session) (now : Z) (telegram_id' : Z)
    (username' first_name' last_name' : option pystr)
    (language_code' : pystr) : Created :=
  if negb (in_bigint telegram_id') then OverflowError
  else if existsb (fun u => telegram_id u =? telegram_id') (users db)
  then IntegrityError
  else
    let user :=
      {| id := next_user_id db;
         telegram_id := telegram_id';
         username := username';
         first_name := first_name';
         last_name := last_name';
         language_code := language_code';
         is_active := true;
         has_diabetes := false;
         has_gout := false;
         has_celiac := false;
         weight_kg := None;
         height_cm := None;
         age := None;
         notification_enabled := true;
         created_at := now;
         updated_at := now |} in
    UserRow {| users := users db ++ [user];
               next_user_id := next_user_id db + 1 |} user.

(** [get_or_create_user]; the query of [get_user_by_telegram_id], its
    first statement, binds the [telegram_id]. *)
Definition get_or_create_user (db : Session) (now : Z) (telegram_id' : Z)
    (username' first_name' last_name' : option pystr)
    (language_code' : pystr) : Created :=
  if negb (in_bigint telegram_id') then OverflowError
  else
    match get_user_by_telegram_id db telegram_id' with
    | Some user => UserRow db user
    | None =>
      create_user db now telegram_id' username' first_name' last_name'
        language_code'
    end.

(** The commit of a change of the three diagnosis flags of a row, at the
    clock reading [now]: the row is replaced in place and its
    [updated_at] takes the reading. *)
Definition with_diagnoses (u : User) (d g c : bool) (now : Z) : User :=
  {| id := id u;
     telegram_id := telegram_id u;
     username := username u;
     first_name := first_name u;
     last_name := last_name u;
     language_code := language_code u;
     is_active := is_active u;
     has_diabetes := d;
     has_gout := g;
     has_celiac := c;
     weight_kg := weight_kg u;
     height_cm := height_cm u;
     age := age u;
     notification_enabled := notification_enabled u;
     created_at := created_at u;
     updated_at := now |}.

Fixpoint update_row (rows : list User) (row_id : Z) (new : User)
    : list User :=
  match rows with
  | [] => []
  | u :: rest =>
    if id u =? row_id then new :: rest
    else u :: update_row rest row_id new
  end.

End Database.

(* ===================================================================== *)
(** * services/shop_service.py: the display of a price comparison *)
(* ===================================================================== *)

Module ShopDisplay.
Import PyStr PyMore.

(** The medal of the first three places, the number for the others. *)
Definition place_emoji (i : Z) : pystr :=
  if i =? 1 then lit "🥇"
  else if i =? 2 then lit "🥈"
  else if i =? 3 then lit "🥉"
  else str_of_int i ++ lit ".".

(** The loop of [format_prices_for_display] over
    [enumerate(prices_comparison, 1)]. *)
Fixpoint prices_loop (i : Z) (comparison : list ShopService.Offer)
    (text : pystr) : pystr :=
  match comparison with
  | [] => text
  | item :: rest =>
    prices_loop (i + 1) rest
      (text
       ++ place_emoji i ++ lit " <b>" ++ ShopService.offer_shop_name item
       ++ lit "</b>" ++ nl
       ++ lit "   Цена: " ++ str_of_int (ShopService.offer_price item)
       ++ lit " руб." ++ nl
       ++ lit "   " ++ ShopService.offer_shop_address item ++ nl ++ nl)
  end.

Definition format_prices_for_display
    (prices_comparison : list ShopService.Offer) (product_name : pystr)
    : pystr :=
  match prices_comparison with
  | [] => lit "Цены на '" ++ product_name ++ lit "' не найдены."
  | first :: _ =>
    let text := lit "<b>Сравнение цен: " ++ product_name ++ lit "</b>"
                ++ nl ++ nl in
    let text := prices_loop 1 prices_comparison text in
    if Z.of_nat (length prices_comparison) >=? 2
    then
      let savings :=
        ShopService.offer_price (List.last prices_comparison first)
        - ShopService.offer_price first in
      if savings >? 0
      then text ++ lit "💡 Экономия: до " ++ str_of_int savings
           ++ lit " руб."
      else text
    else text
  end.

End ShopDisplay.

(* ===================================================================== *)
(** * handlers.py *)
(* ===================================================================== *)

Module Handlers.
Import PyStr PyMore.

(** An [InlineKeyboardButton] and an [InlineKeyboardMarkup]: the rows of
    buttons. *)
Record Button : Type := {
  text : pystr;
  callback_data : pystr
}.

Definition Keyboard : Type := list (list Button).

(** The rows that [add] makes of its buttons: [row_width] buttons in a
    row, the rest in the last one.  [fuel] bounds the number of rows. *)
Fixpoint chunks (fuel row_width : nat) (buttons : list Button) : Keyboard :=
  match fuel, buttons with
  | _, [] => []
  | O, _ :: _ => []
  | S fuel', _ :: _ =>
    firstn row_width buttons :: chunks fuel' row_width (skipn row_width buttons)
  end.

(** [keyboard.add] of some buttons on a markup of the given [row_width]. *)
Definition add (row_width : nat) (keyboard : Keyboard)
    (buttons : list Button) : Keyboard :=
  keyboard ++ chunks (length buttons) row_width buttons.

Definition button (t data : string) : Button :=
  {| text := lit t; callback_data := lit data |}.

Definition create_main_menu_keyboard : Keyboard :=
  let keyboard := [] in
  let keyboard :=
    add 2 keyboard [button "🔍 Поиск рецептов" "search_recipes";
                    button "🍽 Рецепт дня" "daily_recipe"] in
  let keyboard :=
    add 2 keyboard [button "📍 Магазины рядом" "find_shops";
                    button "💰 Сравнить цены" "compare_prices"] in
  let keyboard :=
    add 2 keyboard [button "📔 Мой дневник" "view_diary";
                    button "🛒 Список покупок" "shopping_list"] in
  let keyboard :=
    add 2 keyboard [button "🤖 AI-диетолог" "ask_dietician";
                    button "⚙️ Настройки" "settings"] in
  add 2 keyboard [button "❓ Помощь" "help"].

Definition create_settings_keyboard (user : Database.User) : Keyboard :=
  let keyboard := [] in
  let diabetes_status :=
    if Database.has_diabetes user then lit "✅" else lit "❌" in
  let gout_status :=
    if Database.has_gout user then lit "✅" else lit "❌" in
  let celiac_status :=
    if Database.has_celiac user then lit "✅" else lit "❌" in
  let keyboard :=
    add 1 keyboard
      [ {| text := diabetes_status ++ lit " Сахарный диабет";
           callback_data := lit "toggle_diabetes" |};
        {| text := gout_status ++ lit " Подагра";
           callback_data := lit "toggle_gout" |};
        {| text := celiac_status ++ lit " Целиакия (глютен)";
           callback_data := lit "toggle_celiac" |} ] in
  add 1 keyboard [button "◀️ Назад в меню" "main_menu"].

(** The default [row_width] of a markup is 3. *)
Definition create_back_to_menu_keyboard : Keyboard :=
  add 3 [] [button "◀️ Главное меню" "main_menu"].

Definition create_category_keyboard : Keyboard :=
  let keyboard := [] in
  let keyboard :=
    add 2 keyboard [button "🍳 Завтраки" "cat_breakfast";
                    button "🍲 Основные" "cat_main"] in
  let keyboard :=
    add 2 keyboard [button "🥗 Салаты" "cat_salad";
                    button "🍜 Супы" "cat_soup"] in
  add 2 keyboard [button "🍰 Десерты" "cat_dessert";
                  button "◀️ Назад" "main_menu"].

(** The keyboards that [handle_search_recipes_start], [handle_view_diary]
    and [handle_shopping_list] build for their messages. *)
Definition search_recipes_start_keyboard : Keyboard :=
  let keyboard := add 3 [] [button "📂 По категориям" "show_categories"] in
  add 3 keyboard [button "◀️ Назад" "main_menu"].

Definition view_diary_keyboard : Keyboard :=
  let keyboard := add 3 [] [button "➕ Добавить" "add_diary_entry"] in
  add 3 keyboard [button "◀️ Назад" "main_menu"].

Definition shopping_list_keyboard : Keyboard :=
  let keyboard := add 3 [] [button "➕ Добавить" "add_shopping_item"] in
  add 3 keyboard [button "◀️ Назад" "main_menu"].

(** ** The routing of callbacks *)

(** The function that [handle_callback] calls for a [callback_data], with
    the argument it computes for it; [UnknownCallback] is the last
    [else], which only logs a warning. *)
Inductive Route : Type :=
| RouteMainMenu
| RouteSearchRecipesStart
| RouteDailyRecipe
| RouteFindShopsStart
| RouteComparePricesStart
| RouteViewDiary
| RouteShoppingList
| RouteAskDieticianStart
| RouteSettings
| RouteHelp
| RouteCategoryRecipes (category : pystr)
| RouteToggleDiagnosis (diagnosis : pystr)
| UnknownCallback.

Definition callback_route (data : pystr) : Route :=
  if str_eqb data (lit "main_menu") then RouteMainMenu
  else if str_eqb data (lit "search_recipes") then RouteSearchRecipesStart
  else if str_eqb data (lit "daily_recipe") then RouteDailyRecipe
  else if str_eqb data (lit "find_shops") then RouteFindShopsStart
  else if str_eqb data (lit "compare_prices") then RouteComparePricesStart
  else if str_eqb data (lit "view_diary") then RouteViewDiary
  else if str_eqb data (lit "shopping_list") then RouteShoppingList
  else if str_eqb data (lit "ask_dietician") then RouteAskDieticianStart
  else if str_eqb data (lit "settings") then RouteSettings
  else if str_eqb data (lit "help") then RouteHelp
  else if startswith (lit "cat_") data
  then RouteCategoryRecipes (replace (lit "cat_") [] data)
  else if str_eqb data (lit "toggle_diabetes")
  then RouteToggleDiagnosis (lit "diabetes")
  else if str_eqb data (lit "toggle_gout")
  then RouteToggleDiagnosis (lit "gout")
  else if str_eqb data (lit "toggle_celiac")
  then RouteToggleDiagnosis (lit "celiac")
  else UnknownCallback.

(** Where the buttons of a keyboard lead, row after row. *)
Definition routes (keyboard : Keyboard) : list Route :=
  map (fun b => callback_route (callback_data b)) (concat keyboard).

(** The keys of [category_names] in [handle_category_recipes]. *)
Definition category_names_keys : list pystr :=
  [lit "breakfast"; lit "main"; lit "salad"; lit "soup"; lit "dessert"].

(** ** The bot, the database and the states *)

(** What the handlers do to the bot: messages sent, with the id that
    Telegram gives them, and messages deleted.  The calls of the bot are
    taken to return: an exception of the network or of Telegram is not
    modelled. *)
Inductive BotAction : Type :=
| Send (message_id chat_id : Z) (text' : pystr) (parse_mode : option pystr)
    (reply_markup : option Keyboard)
| Delete (chat_id message_id : Z).

(** The state that the handlers share: the users of the database, the
    dict [user_states], what was done to the bot, in order, and the id of
    the next message. *)
Record World : Type := {
  db : Database.Session;
  user_states : gmap Z (gmap pystr pystr);
  actions : list BotAction;
  next_message_id : Z
}.

(** [bot.send_message]. *)
Definition send_message (w : World) (chat_id : Z) (text' : pystr)
    (parse_mode : option pystr) (reply_markup : option Keyboard) : World :=
  {| db := db w;
     user_states := user_states w;
     actions := actions w
                ++ [Send (next_message_id w) chat_id text' parse_mode
                      reply_markup];
     next_message_id := next_message_id w + 1 |}.

(** [bot.delete_message]. *)
Definition delete_message (w : World) (chat_id message_id : Z) : World :=
  {| db := db w;
     user_states := user_states w;
     actions := actions w ++ [Delete chat_id message_id];
     next_message_id := next_message_id w |}.

Definition set_user_states (w : World)
    (states : gmap Z (gmap pystr pystr)) : World :=
  {| db := db w;
     user_states := states;
     actions := actions w;
     next_message_id := next_message_id w |}.

Definition set_db (w : World) (db' : Database.Session) : World :=
  {| db := db';
     user_states := user_states w;
     actions := actions w;
     next_message_id := next_message_id w |}.

(** How a handler ends: it returns, or an exception leaves it, in both
    cases with what it has done so far. *)
Inductive Outcome : Type :=
| Done (w : World)
| Raised (w : World).

(** [del user_states[user_id]], a [KeyError] for a user without state. *)
Definition del_state (w : World) (user_id : Z) : Outcome :=
  match user_states w !! user_id with
  | Some _ => Done (set_user_states w (delete user_id (user_states w)))
  | None => Raised w
  end.

(** [if user_id in user_states: del user_states[user_id]]. *)
Definition clear_state (w : World) (user_id : Z) : World :=
  match user_states w !! user_id with
  | Some _ => set_user_states w (delete user_id (user_states w))
  | None => w
  end.

(** [user_states[user_id] = {"action": action}]. *)
Definition set_action (w : World) (user_id : Z) (action : string) : World :=
  set_user_states w
    (<[user_id := {[ lit "action" := lit action ]}]> (user_states w)).

Definition HTML : option pystr := Some (lit "HTML").

Definition show_main_menu (w : World) (chat_id user_id : Z) : World :=
  let w := clear_state w user_id in
  send_message w chat_id
    (lit "<b>Главное меню</b>" ++ nl ++ nl ++ lit "Выберите действие:")
    HTML (Some create_main_menu_keyboard).

Definition show_settings (w : World) (chat_id user_id : Z) : World :=
  match Database.get_user_by_telegram_id (db w) user_id with
  | None =>
    send_message w chat_id (lit "❌ Пользователь не найден") None None
  | Some user =>
    let text' :=
      lit "<b>⚙️ Настройки профиля</b>" ++ nl ++ nl
      ++ lit "Укажите ваши диагнозы для фильтрации рецептов:" ++ nl ++ nl
      ++ lit "✅ = учитывается при поиске" ++ nl
      ++ lit "❌ = не учитывается" in
    send_message w chat_id text' HTML (Some (create_settings_keyboard user))
  end.

(** [toggle_diagnosis], with the clock reading of the commit.  A
    diagnosis that is none of the three changes no column, and the commit
    writes nothing. *)
Definition toggle_diagnosis (w : World) (now : Z) (chat_id user_id : Z)
    (diagnosis : pystr) : World :=
  match Database.get_user_by_telegram_id (db w) user_id with
  | None => w
  | Some user =>
    let d := Database.has_diabetes user in
    let g := Database.has_gout user in
    let c := Database.has_celiac user in
    let changed :=
      if str_eqb diagnosis (lit "diabetes")
      then Some (Database.with_diagnoses user (negb d) g c now)
      else if str_eqb diagnosis (lit "gout")
      then Some (Database.with_diagnoses user d (negb g) c now)
      else if str_eqb diagnosis (lit "celiac")
      then Some (Database.with_diagnoses user d g (negb c) now)
      else None in
    let w :=
      match changed with
      | Some user' =>
        set_db w
          {| Database.users :=
               Database.update_row (Database.users (db w))
                 (Database.id user) user';
             Database.next_user_id := Database.next_user_id (db w) |}
      | None => w
      end in
    show_settings w chat_id user_id
  end.

Definition handle_search_recipes_start (w : World) (chat_id user_id : Z)
    : World :=
  let w := set_action w user_id "search_recipes" in
  let text' :=
    lit "🔍 <b>Поиск рецептов</b>" ++ nl ++ nl
    ++ lit "Введите название блюда или ингредиент:" ++ nl
    ++ lit "(например: 'курица', 'гречка', 'салат')" in
  send_message w chat_id text' HTML (Some search_recipes_start_keyboard).

Definition handle_find_shops_start (w : World) (chat_id user_id : Z)
    : World :=
  let w := set_action w user_id "find_shops" in
  let text' :=
    lit "📍 <b>Поиск магазинов</b>" ++ nl ++ nl
    ++ lit "Отправьте свою геолокацию для поиска ближайших "
    ++ lit "магазинов." ++ nl ++ nl
    ++ lit "Нажмите кнопку 📎 → Геолокация" in
  send_message w chat_id text' HTML (Some create_back_to_menu_keyboard).

Definition handle_compare_prices_start (w : World) (chat_id user_id : Z)
    : World :=
  let w := set_action w user_id "compare_prices" in
  let text' :=
    lit "💰 <b>Сравнение цен</b>" ++ nl ++ nl
    ++ lit "Введите название продукта для сравнения цен:" ++ nl
    ++ lit "(например: 'гречка', 'оливковое масло', 'творог')" in
  send_message w chat_id text' HTML (Some create_back_to_menu_keyboard).

Definition handle_ask_dietician_start (w : World) (chat_id user_id : Z)
    : World :=
  let w := set_action w user_id "ask_dietician" in
  let text' :=
    lit "🤖 <b>AI-диетолог</b>" ++ nl ++ nl
    ++ lit "Задайте любой вопрос о питании:" ++ nl
    ++ lit "(например: 'Что можно есть при подагре?')" in
  send_message w chat_id text' HTML (Some create_back_to_menu_keyboard).

(** A text message: its sender, its chat and its text.  The ids that
    Telegram gives to users and chats fit in 64 bits. *)
Record Message : Type := {
  from_user_id : Z;
  message_chat_id : Z;
  message_text : pystr
}.

Section TextHandlers.
(** [str.lower], [config.settings], and what the AI dietician depends
    on; the services are the ones of the module, on the built-in
    catalogs. *)
Variable lower : pystr -> pystr.
Variable settings : Config.Settings.
Variable OPENAI_AVAILABLE : bool.
Variable openai_api_key : pystr.
Variable create : GPTService.ChatRequest -> GPTService.ApiResult.

(** The three flags of the user of a handler: those of the row, [False]
    without a row. *)
Definition flags_of (w : World) (user_id : Z) : bool * bool * bool :=
  match Database.get_user_by_telegram_id (db w) user_id with
  | Some user =>
    (Database.has_diabetes user, Database.has_gout user,
     Database.has_celiac user)
  | None => (false, false, false)
  end.

(** The loop of [process_recipe_search] over [enumerate(recipes, 1)]. *)
Fixpoint recipes_loop (i : Z) (recipes : list RecipeService.Recipe)
    (text' : pystr) : pystr :=
  match recipes with
  | [] => text'
  | recipe :: rest =>
    recipes_loop (i + 1) rest
      (text'
       ++ lit "<b>" ++ str_of_int i ++ lit ". "
       ++ RecipeService.name recipe ++ lit "</b>" ++ nl
       ++ lit "   Калории: " ++ str_of_int (RecipeService.calories recipe)
       ++ lit " ккал | ГИ: "
       ++ str_of_int (RecipeService.glycemic_index recipe)
       ++ lit " | Пурины: " ++ str_of_int (RecipeService.purines recipe)
       ++ lit " мг" ++ nl
       ++ lit "   ⏱ "
       ++ str_of_int (RecipeService.cooking_time_min recipe)
       ++ lit " мин" ++ nl ++ nl)
  end.

Definition process_recipe_search (w : World) (message : Message)
    : Outcome :=
  let user_id := from_user_id message in
  let chat_id := message_chat_id message in
  let query := message_text message in
  let '(has_diabetes, has_gout, has_celiac) := flags_of w user_id in
  let recipes :=
    RecipeService.search_recipes lower settings
      RecipeService.RECIPES_DATABASE query has_diabetes has_gout has_celiac
      (Config.max_recipe_results settings) in
  let text' :=
    match recipes with
    | _ :: _ =>
      recipes_loop 1 recipes
        (lit "✅ <b>Найдено рецептов: "
         ++ str_of_int (Z.of_nat (length recipes)) ++ lit "</b>"
         ++ nl ++ nl)
    | [] =>
      lit "❌ По запросу '" ++ query ++ lit "' рецепты не найдены."
      ++ nl ++ nl
      ++ lit "Попробуйте другой запрос или выберите категорию."
    end in
  match del_state w user_id with
  | Raised w' => Raised w'
  | Done w' =>
    Done (send_message w' chat_id text' HTML
            (Some create_back_to_menu_keyboard))
  end.

(** [process_dietician_question]; the [KeyError] of a user without state
    is caught by the [except] of the function itself. *)
Definition process_dietician_question (w : World) (message : Message)
    : Outcome :=
  let user_id := from_user_id message in
  let chat_id := message_chat_id message in
  let question := message_text message in
  let loading_id := next_message_id w in
  let w := send_message w chat_id (lit "🤔 Диетолог думает...") None None in
  let '(has_diabetes, has_gout, has_celiac) := flags_of w user_id in
  let answer :=
    GPTService.ask_dietician OPENAI_AVAILABLE openai_api_key create
      question has_diabetes has_gout has_celiac None in
  let w := delete_message w chat_id loading_id in
  match del_state w user_id with
  | Done w' =>
    Done (send_message w' chat_id
            (lit "🤖 <b>AI-диетолог:</b>" ++ nl ++ nl ++ answer)
            HTML (Some create_back_to_menu_keyboard))
  | Raised w' =>
    let w' := delete_message w' chat_id loading_id in
    Done (send_message w' chat_id
            (lit "❌ Диетолог временно недоступен. Попробуйте позже.")
            None (Some create_back_to_menu_keyboard))
  end.

Definition process_price_comparison (w : World) (message : Message)
    : Outcome :=
  let user_id := from_user_id message in
  let chat_id := message_chat_id message in
  let product_name := message_text message in
  let comparison :=
    ShopService.compare_prices lower ShopService.MOCK_SHOPS
      ShopService.MOCK_PRICES product_name in
  let text' :=
    match comparison with
    | _ :: _ => ShopDisplay.format_prices_for_display comparison product_name
    | [] => lit "❌ Цены на '" ++ product_name ++ lit "' не найдены."
    end in
  match del_state w user_id with
  | Raised w' => Raised w'
  | Done w' =>
    Done (send_message w' chat_id text' HTML
            (Some create_back_to_menu_keyboard))
  end.

Definition process_add_to_diary (w : World) (message : Message) : Outcome :=
  let w :=
    send_message w (message_chat_id message)
      (lit "📔 Функция добавления в дневник в разработке.")
      None (Some create_back_to_menu_keyboard) in
  Done (clear_state w (from_user_id message)).

Definition process_add_to_shopping (w : World) (message : Message)
    : Outcome :=
  let w :=
    send_message w (message_chat_id message)
      (lit "🛒 Функция добавления в список в разработке.")
      None (Some create_back_to_menu_keyboard) in
  Done (clear_state w (from_user_id message)).

(** [state == name] for the [state] that [.get("action")] gave, [None]
    without the key. *)
Definition is_state (state : option pystr) (name : string) : bool :=
  match state with
  | Some s => str_eqb s (lit name)
  | None => false
  end.

(** The [try] block of [handle_text]: the handler chosen by the
    ["action"] of the state of the sender. *)
Definition handle_text_body (w : World) (message : Message) : Outcome :=
  let user_id := from_user_id message in
  let chat_id := message_chat_id message in
  match user_states w !! user_id with
  | Some state_dict =>
    let state := state_dict !! lit "action" in
    if is_state state "search_recipes"
    then process_recipe_search w message
    else if is_state state "ask_dietician"
    then process_dietician_question w message
    else if is_state state "compare_prices"
    then process_price_comparison w message
    else if is_state state "add_to_diary"
    then process_add_to_diary w message
    else if is_state state "add_to_shopping"
    then process_add_to_shopping w message
    else
      match del_state w user_id with
      | Done w' => Done (show_main_menu w' chat_id user_id)
      | Raised w' => Raised w'
      end
  | None =>
    Done (send_message w chat_id
            (lit "👋 Используйте меню для навигации:") None
            (Some create_main_menu_keyboard))
  end.

(** [handle_text]: an exception that leaves the [try] block is answered
    by the error message. *)
Definition handle_text (w : World) (message : Message) : World :=
  match handle_text_body w message with
  | Done w' => w'
  | Raised w' =>
    send_message w' (message_chat_id message)
      (lit "❌ Произошла ошибка. Попробуйте позже.")
      None (Some create_back_to_menu_keyboard)
  end.

End TextHandlers.

End Handlers.

(* ===================================================================== *)
(** * Sample data *)
(* ===================================================================== *)

(** A table of one user, registered at the clock reading 0, and a state
    of the bot on it, for the examples below. *)
Module Samples.

Definition empty_session : Database.Session :=
  {| Database.users := []; Database.next_user_id := 1 |}.

Definition sample_session : Database.Session :=
  match Database.create_user empty_session 0 42 None
          (Some (PyStr.lit "Иван")) None (PyStr.lit "ru") with
  | Database.UserRow db _ => db
  | Database.IntegrityError | Database.OverflowError => empty_session
  end.

Definition sample_world : Handlers.World :=
  {| Handlers.db := sample_session;
     Handlers.user_states := ∅;
     Handlers.actions := [];
     Handlers.next_message_id := 1 |}.

End Samples.

(* ===================================================================== *)
(** * Facts on the built-ins *)
(* ===================================================================== *)

Module PyStrFacts.
Import PyStr.

Lemma str_eqb_eq (a b : pystr) : str_eqb a b = true <-> a = b.
Proof.
  revert b; induction a as [|x a IH]; intros [|y b]; simpl;
    try (split; [discriminate | congruence]); try tauto.
  rewrite andb_true_iff, N.eqb_eq, IH. split.
  - intros [-> ->]; reflexivity.
  - intros [= -> ->]; auto.
Qed.

Lemma startswith_app (p s : pystr) :
  startswith p s = true <-> exists post, s = p ++ post.
Proof.
  revert s; induction p as [|x p IH]; intros s; simpl.
  - split; [exists s; reflexivity | reflexivity].
  - destruct s as [|y s].
    + split; [discriminate | intros [post H]; discriminate].
    + rewrite andb_true_iff, N.eqb_eq, IH. split.
      * intros [-> [post ->]]. exists post; reflexivity.
      * intros [post [= -> ->]].
        split; [reflexivity | exists post; reflexivity].
Qed.

(** [needle in hay] holds exactly when [hay] is [pre ++ needle ++ post]. *)
Lemma str_in_occurs (needle hay : pystr) :
  str_in needle hay = true <-> exists pre post, hay = pre ++ needle ++ post.
Proof.
  induction hay as [|c hay IH].
  - simpl. rewrite orb_false_r, startswith_app. split.
    + intros [post H]. exists [], post. exact H.
    + intros [pre [post H]].
      destruct pre; [exists post; exact H | discriminate].
  - change (str_in needle (c :: hay))
      with (startswith needle (c :: hay) || str_in needle hay).
    rewrite orb_true_iff, startswith_app, IH. split.
    + intros [[post H] | [pre [post H]]].
      * exists [], post. exact H.
      * exists (c :: pre), post. simpl. congruence.
    + intros [[|d pre] [post H]].
      * left. exists post. exact H.
      * right. injection H as _ H. exists pre, post. exact H.
Qed.

(** The empty string occurs in every string. *)
Lemma str_in_empty (hay : pystr) : str_in [] hay = true.
Proof. destruct hay; reflexivity. Qed.

Lemma lstrip_all_space (s : pystr) :
  forallb isspace s = true -> lstrip s = [].
Proof.
  induction s as [|c s IH]; simpl; [reflexivity|].
  rewrite andb_true_iff. intros [-> H]. auto.
Qed.

(** An all-white-space string strips to the empty string, also after
    lower-casing. *)
Lemma strip_all_space (s : pystr) :
  forallb isspace s = true -> strip s = [].
Proof. intros H. unfold strip. rewrite (lstrip_all_space s H). reflexivity. Qed.

Lemma lower_cp_space (c : N) : isspace c = true -> lower_cp c = c.
Proof.
  unfold isspace, lower_cp. intros H.
  repeat match goal with
         | |- context [if ?b then _ else _] => destruct b eqn:?
         end; try reflexivity; exfalso;
  repeat match goal with
         | H : _ && _ = true |- _ => apply andb_true_iff in H; destruct H
         | H : negb _ = true |- _ => apply negb_true_iff in H
         | H : (_ <=? _)%N = true |- _ => apply N.leb_le in H
         | H : (_ <=? _)%N = false |- _ => apply N.leb_gt in H
         | H : (_ =? _)%N = true |- _ => apply N.eqb_eq in H
         | H : (_ =? _)%N = false |- _ => apply N.eqb_neq in H
         | H : _ || _ = true |- _ => apply orb_true_iff in H; destruct H
         end; lia.
Qed.

Lemma strip_lower_all_space (s : pystr) :
  forallb isspace s = true -> strip (py_lower s) = [].
Proof.
  intros H. apply strip_all_space. unfold py_lower.
  induction s as [|c s IH]; simpl in *; [reflexivity|].
  apply andb_true_iff in H as [Hc Hs].
  rewrite (lower_cp_space c Hc), Hc. simpl. auto.
Qed.

(** [str_in] decides the specification's substring relation. *)
Lemma str_in_spec (needle hay : pystr) :
  str_in needle hay = true <-> Spec.occurs needle hay.
Proof. apply str_in_occurs. Qed.

End PyStrFacts.

Module PyFacts.

Lemma slice_to_nonneg {A : Type} (limit : Z) (l : list A) :
  0 <= limit -> Py.slice_to limit l = firstn (Z.to_nat limit) l.
Proof.
  intros H. unfold Py.slice_to.
  destruct (0 <=? limit) eqn:E; [reflexivity|].
  apply Z.leb_gt in E. lia.
Qed.

(** Whatever the limit, the slice is the first [n] items for some [n]. *)
Lemma slice_to_firstn {A : Type} (limit : Z) (l : list A) :
  exists n, Py.slice_to limit l = firstn n l.
Proof. unfold Py.slice_to. destruct (0 <=? limit); eauto. Qed.


Lemma firstn_Forall {A : Type} (P : A -> Prop) (n : nat) (l : list A) :
  Forall P l -> Forall P (firstn n l).
Proof.
  intros H. revert n. induction H as [|x l Hx Hl IH]; intros [|n]; simpl;
    constructor; auto.
Qed.

Lemma slice_to_Forall {A : Type} (P : A -> Prop) (limit : Z) (l : list A) :
  Forall P l -> Forall P (Py.slice_to limit l).
Proof.
  intros H. destruct (slice_to_firstn limit l) as [n ->].
  apply firstn_Forall, H.
Qed.


Section SortFacts.
Context {A : Type} (key : A -> Z).

Lemma insert_by_key_perm (x : A) (l : list A) :
  Permutation (x :: l) (Py.insert_by_key key x l).
Proof.
  induction l as [|y l IH]; simpl; [reflexivity|].
  destruct (key y <? key x); [|reflexivity].
  rewrite perm_swap. apply perm_skip, IH.
Qed.

Lemma sort_by_key_perm (l : list A) :
  Permutation l (Py.sort_by_key key l).
Proof.
  induction l as [|x l IH]; simpl; [reflexivity|].
  rewrite <- insert_by_key_perm. apply perm_skip, IH.
Qed.

Lemma insert_by_key_ascending (x : A) (l : list A) :
  Spec.ascending key l -> Spec.ascending key (Py.insert_by_key key x l).
Proof.
  unfold Spec.ascending.
  induction 1 as [|y l Hl IH Hy]; simpl.
  - constructor; constructor.
  - destruct (key y <? key x) eqn:E.
    + apply Z.ltb_lt in E. constructor; [exact IH|].
      rewrite <- insert_by_key_perm. constructor; [lia | exact Hy].
    + apply Z.ltb_ge in E. constructor.
      * constructor; assumption.
      * constructor; [exact E|].
        eapply Forall_impl; [exact Hy|]. simpl. intros; lia.
Qed.

Lemma sort_by_key_ascending (l : list A) :
  Spec.ascending key (Py.sort_by_key key l).
Proof.
  induction l as [|x l IH]; simpl.
  - constructor.
  - apply insert_by_key_ascending, IH.
Qed.

(** Inserting does not change the order of the items of one key. *)
Lemma insert_by_key_filter (k : Z) (x : A) (l : list A) :
  List.filter (fun a => key a =? k) (Py.insert_by_key key x l)
  = List.filter (fun a => key a =? k) (x :: l).
Proof.
  induction l as [|y l IH]; [reflexivity|].
  simpl Py.insert_by_key. destruct (key y <? key x) eqn:E; [|reflexivity].
  apply Z.ltb_lt in E.
  change (List.filter (fun a => key a =? k) (y :: Py.insert_by_key key x l))
    with (if key y =? k
          then y :: List.filter (fun a => key a =? k)
                      (Py.insert_by_key key x l)
          else List.filter (fun a => key a =? k) (Py.insert_by_key key x l)).
  rewrite IH. simpl.
  destruct (key y =? k) eqn:Ey, (key x =? k) eqn:Ex; try reflexivity.
  apply Z.eqb_eq in Ey, Ex. lia.
Qed.

Lemma sort_by_key_filter (k : Z) (l : list A) :
  List.filter (fun a => key a =? k) (Py.sort_by_key key l)
  = List.filter (fun a => key a =? k) l.
Proof.
  induction l as [|x l IH]; [reflexivity|].
  simpl Py.sort_by_key. rewrite insert_by_key_filter. simpl.
  rewrite IH. reflexivity.
Qed.

(** [list.sort(key=...)] sorts, and it is stable. *)
Lemma sort_by_key_stable_sorted (l : list A) :
  Spec.stable_sorted key l (Py.sort_by_key key l).
Proof.
  split; [apply sort_by_key_perm|].
  split; [apply sort_by_key_ascending|].
  intros k. apply sort_by_key_filter.
Qed.
End SortFacts.

End PyFacts.

(* ===================================================================== *)
(** * The recipe service *)
(* ===================================================================== *)

Module RecipeFacts.
Import PyStr RecipeService.

Section Loops.
Variable lower : pystr -> pystr.
Variable settings : Config.Settings.

(** The loop of [_filter_by_diagnosis] keeps, in order, the recipes that
    take none of its [continue]. *)
Lemma filter_loop_filter (d g c : bool) (recipes filtered : list Recipe) :
  filter_loop settings d g c recipes filtered
  = filtered ++ List.filter (passes_diagnosis settings d g c) recipes.
Proof.
  revert filtered. induction recipes as [|r rest IH]; intros filtered; simpl.
  - rewrite app_nil_r. reflexivity.
  - destruct (passes_diagnosis settings d g c r).
    + rewrite IH, <- app_assoc. reflexivity.
    + apply IH.
Qed.

Lemma filter_by_diagnosis_filter (recipes : list Recipe) (d g c : bool) :
  _filter_by_diagnosis settings recipes d g c
  = List.filter (passes_diagnosis settings d g c) recipes.
Proof. apply filter_loop_filter. Qed.

(** The three checks of the loop are the three constraints. *)
Lemma passes_diagnosis_satisfiesb (d g c : bool) (r : Recipe) :
  passes_diagnosis settings d g c r = Spec.satisfiesb settings d g c r.
Proof.
  unfold passes_diagnosis, Spec.satisfiesb.
  rewrite Z.gtb_ltb, (Z.gtb_ltb (purines r)).
  rewrite (Z.leb_antisym (Config.max_glycemic_index settings)).
  rewrite (Z.leb_antisym 100).
  destruct d, g, c; simpl;
    destruct (Config.max_glycemic_index settings <? glycemic_index r);
    destruct (100 <? purines r);
    destruct (suitable_for_celiac r); reflexivity.
Qed.

Lemma satisfiesb_satisfies (d g c : bool) (r : Recipe) :
  Spec.satisfiesb settings d g c r = true <-> Spec.satisfies settings d g c r.
Proof.
  unfold Spec.satisfiesb, Spec.satisfies.
  rewrite !andb_true_iff. destruct d, g, c; simpl;
    rewrite ?Z.leb_le; intuition congruence.
Qed.

Lemma passes_diagnosis_satisfies (d g c : bool) (r : Recipe) :
  passes_diagnosis settings d g c r = true <-> Spec.satisfies settings d g c r.
Proof. rewrite passes_diagnosis_satisfiesb. apply satisfiesb_satisfies. Qed.

Lemma filter_by_diagnosis_Forall (recipes : list Recipe) (d g c : bool) :
  Forall (Spec.satisfies settings d g c)
    (_filter_by_diagnosis settings recipes d g c).
Proof.
  rewrite filter_by_diagnosis_filter. apply List.Forall_forall.
  intros r Hr. apply List.filter_In in Hr as [_ Hr].
  apply passes_diagnosis_satisfies, Hr.
Qed.

(** The inner loop of the search finds out whether some ingredient
    matches. *)
Lemma ingredients_loop_existsb (q : pystr) (ings : list Ingredient) :
  ingredients_loop lower q ings
  = existsb (fun i => str_in q (lower (ing_name i))) ings.
Proof.
  induction ings as [|i rest IH]; simpl; [reflexivity|].
  destruct (str_in q (lower (ing_name i))); simpl; auto.
Qed.

(** The loop of the search keeps, in order and once each, the recipes
    that match. *)
Lemma search_loop_filter (q : pystr) (recipes matching : list Recipe) :
  search_loop lower q recipes matching
  = matching ++ List.filter (Spec.matchesb lower q) recipes.
Proof.
  revert matching. induction recipes as [|r rest IH]; intros matching; simpl.
  - rewrite app_nil_r. reflexivity.
  - unfold Spec.matchesb at 1. rewrite <- ingredients_loop_existsb.
    destruct (str_in q (lower (name r))); simpl.
    + rewrite IH, <- app_assoc. reflexivity.
    + destruct (ingredients_loop lower q (ingredients r)).
      * rewrite IH, <- app_assoc. reflexivity.
      * apply IH.
Qed.

Lemma matchesb_matches (q : pystr) (r : Recipe) :
  Spec.matchesb lower q r = true <-> Spec.matches lower q r.
Proof.
  unfold Spec.matchesb, Spec.matches.
  rewrite orb_true_iff, PyStrFacts.str_in_spec, existsb_exists.
  rewrite List.Exists_exists.
  split; (intros [H | [i [Hi H]]]; [left; exact H | right; exists i]);
    (split; [exact Hi|]); apply PyStrFacts.str_in_spec; exact H.
Qed.

(** The empty string matches every recipe. *)
Lemma matchesb_empty (r : Recipe) : Spec.matchesb lower [] r = true.
Proof. unfold Spec.matchesb. rewrite PyStrFacts.str_in_empty. reflexivity. Qed.

Lemma filter_all {A : Type} (p : A -> bool) (l : list A) :
  (forall x, p x = true) -> List.filter p l = l.
Proof.
  intros H. induction l as [|x l IH]; simpl; [reflexivity|].
  rewrite H, IH. reflexivity.
Qed.

(** Filtering with a stronger test gives a sublist. *)
Lemma filter_sublist {A : Type} (p q : A -> bool) (l : list A) :
  (forall x, p x = true -> q x = true) ->
  sublist (List.filter p l) (List.filter q l).
Proof.
  intros H. induction l as [|x l IH]; simpl; [constructor|].
  destruct (p x) eqn:Ep.
  - rewrite (H x Ep). constructor. exact IH.
  - destruct (q x); [constructor|]; exact IH.
Qed.

Lemma filter_Forall2 {A : Type} (R : A -> A -> Prop) (p q : A -> bool)
    (l1 l2 : list A) :
  (forall a b, R a b -> p a = q b) ->
  Forall2 R l1 l2 -> Forall2 R (List.filter p l1) (List.filter q l2).
Proof.
  intros H. induction 1 as [|a b l1 l2 Hab Hl IH]; simpl; [constructor|].
  rewrite (H a b Hab). destruct (q b); [constructor|]; assumption.
Qed.

Lemma firstn_Forall2 {A : Type} (R : A -> A -> Prop) (n : nat)
    (l1 l2 : list A) :
  Forall2 R l1 l2 -> Forall2 R (firstn n l1) (firstn n l2).
Proof.
  intros H. revert n. induction H as [|a b l1 l2 Hab Hl IH]; intros [|n];
    simpl; constructor; auto.
Qed.

Lemma slice_to_Forall2 {A : Type} (R : A -> A -> Prop) (limit : Z)
    (l1 l2 : list A) :
  Forall2 R l1 l2 -> Forall2 R (Py.slice_to limit l1) (Py.slice_to limit l2).
Proof.
  intros H. unfold Py.slice_to. rewrite (Forall2_length _ _ _ H).
  destruct (0 <=? limit); apply firstn_Forall2, H.
Qed.

(** The checks read neither [suitable_for_diabetes] nor
    [suitable_for_gout]. *)
Lemma passes_diagnosis_same (d g c : bool) (r1 r2 : Recipe) :
  Spec.same_but_suitability r1 r2 ->
  passes_diagnosis settings d g c r1 = passes_diagnosis settings d g c r2.
Proof.
  intros (_ & _ & _ & _ & _ & _ & Hgi & Hpu & _ & _ & Hce & _ & _).
  unfold passes_diagnosis. rewrite Hgi, Hpu, Hce. reflexivity.
Qed.

Lemma matchesb_same (q : pystr) (r1 r2 : Recipe) :
  Spec.same_but_suitability r1 r2 ->
  Spec.matchesb lower q r1 = Spec.matchesb lower q r2.
Proof.
  intros (_ & Hn & _ & _ & _ & _ & _ & _ & _ & _ & _ & _ & Hi).
  unfold Spec.matchesb. rewrite Hn, Hi. reflexivity.
Qed.

Lemma category_same (cat : pystr) (r1 r2 : Recipe) :
  Spec.same_but_suitability r1 r2 ->
  str_eqb (category r1) cat = str_eqb (category r2) cat.
Proof.
  intros (_ & _ & _ & _ & _ & _ & _ & _ & _ & _ & _ & Hc & _).
  rewrite Hc. reflexivity.
Qed.

Lemma filter_by_diagnosis_same (d g c : bool) (l1 l2 : list Recipe) :
  Forall2 Spec.same_but_suitability l1 l2 ->
  Forall2 Spec.same_but_suitability
    (_filter_by_diagnosis settings l1 d g c)
    (_filter_by_diagnosis settings l2 d g c).
Proof.
  intros H. rewrite !filter_by_diagnosis_filter.
  apply filter_Forall2; [|exact H]. apply passes_diagnosis_same.
Qed.
End Loops.

End RecipeFacts.

(* ===================================================================== *)
(** * Properties of the recipe service *)
(* ===================================================================== *)

Section RecipeProperties.
Import PyStr RecipeService.
Variable lower : pystr -> pystr.
Variable settings : Config.Settings.
Variable recipes_db : list Recipe.

Lemma search_recipes_filter (query : pystr) (d g c : bool) (limit : Z) :
  search_recipes lower settings recipes_db query d g c limit
  = Py.slice_to limit
      (List.filter (passes_diagnosis settings d g c)
         (List.filter (Spec.matchesb lower (strip (lower query)))
            recipes_db)).
Proof.
  unfold search_recipes.
  rewrite RecipeFacts.filter_by_diagnosis_filter,
    RecipeFacts.search_loop_filter.
  reflexivity.
Qed.

Lemma get_random_recipe_In (draw : nat) (d g c : bool) (r : Recipe) :
  get_random_recipe settings recipes_db draw d g c = Some r ->
  In r (_filter_by_diagnosis settings recipes_db d g c).
Proof.
  unfold get_random_recipe.
  destruct (_filter_by_diagnosis settings recipes_db d g c) as [|x l];
    [discriminate|].
  apply nth_error_In.
Qed.

(** C1: whatever the recipes and the three diagnosis flags, the
    diagnosis filter returns exactly the recipes of its input that meet
    every active constraint (glycemic index at most
    [max_glycemic_index], 55 by default, under diabetes; purines at most
    100 under gout; [suitable_for_celiac] under celiac; nothing for an
    inactive flag), and so every recipe that the search, the category
    listing, get-all or the random selection returns meets them. *)
Theorem diagnosis_filter_sound (recipes : list Recipe) (d g c : bool)
    (query cat : pystr) (cat_opt : option pystr) (limit : Z) (draw : nat) :
  (forall r, In r (_filter_by_diagnosis settings recipes d g c)
             <-> In r recipes /\ Spec.satisfies settings d g c r)
  /\ Forall (Spec.satisfies settings d g c)
       (search_recipes lower settings recipes_db query d g c limit)
  /\ Forall (Spec.satisfies settings d g c)
       (get_recipes_by_category settings recipes_db cat d g c)
  /\ Forall (Spec.satisfies settings d g c)
       (get_all_recipes settings recipes_db d g c cat_opt limit)
  /\ from_option (Spec.satisfies settings d g c) True
       (get_random_recipe settings recipes_db draw d g c)
  /\ Config.max_glycemic_index Config.settings = 55.
Proof.
  split; [|split; [|split; [|split; [|split; [|reflexivity]]]]].
  - intros r. rewrite RecipeFacts.filter_by_diagnosis_filter, List.filter_In.
    rewrite RecipeFacts.passes_diagnosis_satisfies. reflexivity.
  - apply PyFacts.slice_to_Forall, RecipeFacts.filter_by_diagnosis_Forall.
  - apply RecipeFacts.filter_by_diagnosis_Forall.
  - apply PyFacts.slice_to_Forall, RecipeFacts.filter_by_diagnosis_Forall.
  - destruct (get_random_recipe settings recipes_db draw d g c) as [r|] eqn:E;
      simpl; [|exact I].
    apply get_random_recipe_In in E.
    pose proof (RecipeFacts.filter_by_diagnosis_Forall settings recipes_db
                  d g c) as HF.
    rewrite List.Forall_forall in HF. apply HF, E.
Qed.

(** C3: the diagnosis filtering is monotonic: whatever the recipes and
    the flags, the result with one more flag active is a sublist (same
    order, nothing added) of the result without it. *)
Theorem diagnosis_filter_monotone (recipes : list Recipe) (d g c : bool) :
  sublist (_filter_by_diagnosis settings recipes true g c)
          (_filter_by_diagnosis settings recipes d g c)
  /\ sublist (_filter_by_diagnosis settings recipes d true c)
             (_filter_by_diagnosis settings recipes d g c)
  /\ sublist (_filter_by_diagnosis settings recipes d g true)
             (_filter_by_diagnosis settings recipes d g c).
Proof.
  rewrite !RecipeFacts.filter_by_diagnosis_filter.
  repeat split; apply RecipeFacts.filter_sublist; intros r;
    unfold passes_diagnosis; destruct d, g, c; simpl;
    repeat match goal with
           | |- context [if ?b then _ else _] => destruct b
           end; congruence.
Qed.

(** C4: for a limit that is not negative, [search_recipes] returns
    exactly the first [limit] recipes, in catalog order, of those that
    match the trimmed, lower-cased query in their lower-cased name or in
    the lower-cased name of one of their ingredients and that pass the
    diagnosis filter; a query that is empty once trimmed matches every
    recipe, the result being the first [limit] recipes of the filtered
    catalog. *)
Theorem search_recipes_spec (query : pystr) (d g c : bool) (limit : Z) :
  0 <= limit ->
  search_recipes lower settings recipes_db query d g c limit
  = Spec.search lower settings recipes_db query d g c (Z.to_nat limit)
  /\ (forall r, Spec.matchesb lower (strip (lower query)) r = true
                <-> Spec.matches lower (strip (lower query)) r)
  /\ (forall r, Spec.satisfiesb settings d g c r = true
                <-> Spec.satisfies settings d g c r)
  /\ (strip (lower query) = [] ->
      search_recipes lower settings recipes_db query d g c limit
      = firstn (Z.to_nat limit)
          (_filter_by_diagnosis settings recipes_db d g c)).
Proof.
  intros Hlimit. rewrite search_recipes_filter.
  rewrite (PyFacts.slice_to_nonneg _ _ Hlimit).
  split; [|split; [|split]].
  - unfold Spec.search. f_equal. apply List.filter_ext.
    intros r. apply RecipeFacts.passes_diagnosis_satisfiesb.
  - intros r. apply RecipeFacts.matchesb_matches.
  - intros r. apply RecipeFacts.satisfiesb_satisfies.
  - intros ->. rewrite RecipeFacts.filter_by_diagnosis_filter.
    rewrite (RecipeFacts.filter_all (Spec.matchesb lower [])); [reflexivity|].
    apply RecipeFacts.matchesb_empty.
Qed.

End RecipeProperties.

(** The search with the empty query after trimming, on the recipe base:
    at limit 3 and the all-blank query the search returns the head of
    the filtered base. *)
Lemma search_recipes_spec_witness :
  0 <= 3
  /\ RecipeService.search_recipes PyStr.py_lower Config.settings
       RecipeService.RECIPES_DATABASE (PyStr.lit "  ") true false false 3
     = [RecipeService.r_001; RecipeService.r_002; RecipeService.r_003].
Proof.
  split; [lia|].
  destruct (search_recipes_spec PyStr.py_lower Config.settings
              RecipeService.RECIPES_DATABASE (PyStr.lit "  ")
              true false false 3) as (_ & _ & _ & H); [lia|].
  rewrite H; vm_compute; reflexivity.
Defined.

Section Suitability.
Import PyStr RecipeService.
Variable lower : pystr -> pystr.
Variable settings : Config.Settings.

Lemma category_filter_same (cat : pystr) (db1 db2 : list Recipe) :
  Forall2 Spec.same_but_suitability db1 db2 ->
  Forall2 Spec.same_but_suitability
    (List.filter (fun r => str_eqb (category r) cat) db1)
    (List.filter (fun r => str_eqb (category r) cat) db2).
Proof.
  apply RecipeFacts.filter_Forall2. intros a b.
  apply RecipeFacts.category_same.
Qed.

Lemma nth_error_Forall2 {A : Type} (R : A -> A -> Prop) (n : nat)
    (l1 l2 : list A) :
  Forall2 R l1 l2 -> option_Forall2 R (nth_error l1 n) (nth_error l2 n).
Proof.
  intros H. revert n. induction H as [|a b l1 l2 Hab Hl IH]; intros [|n];
    simpl; try constructor; auto.
Qed.

(** C10: the diagnosis filter does not depend on the fields
    [suitable_for_diabetes] and [suitable_for_gout]: on two catalogs
    that are the same but for these two fields, the filter makes the
    same keep-or-drop decision on each recipe under every combination of
    flags, and the filter, the search, get-all, the category listing and
    the random selection return results that are again the same but for
    these fields; so recipe r_007 of the base, marked
    [suitable_for_diabetes] with glycemic index 65, is dropped when
    diabetes is active. *)
Theorem diagnosis_filter_ignores_suitability (db1 db2 : list Recipe)
    (d g c : bool) (query cat : pystr) (cat_opt : option pystr)
    (limit : Z) (draw : nat) :
  Forall2 Spec.same_but_suitability db1 db2 ->
  Forall2 (fun r1 r2 => passes_diagnosis settings d g c r1
                        = passes_diagnosis settings d g c r2) db1 db2
  /\ Forall2 Spec.same_but_suitability
       (_filter_by_diagnosis settings db1 d g c)
       (_filter_by_diagnosis settings db2 d g c)
  /\ Forall2 Spec.same_but_suitability
       (search_recipes lower settings db1 query d g c limit)
       (search_recipes lower settings db2 query d g c limit)
  /\ Forall2 Spec.same_but_suitability
       (get_all_recipes settings db1 d g c cat_opt limit)
       (get_all_recipes settings db2 d g c cat_opt limit)
  /\ Forall2 Spec.same_but_suitability
       (get_recipes_by_category settings db1 cat d g c)
       (get_recipes_by_category settings db2 cat d g c)
  /\ option_Forall2 Spec.same_but_suitability
       (get_random_recipe settings db1 draw d g c)
       (get_random_recipe settings db2 draw d g c)
  /\ (In r_007 RECIPES_DATABASE
      /\ suitable_for_diabetes r_007 = true
      /\ glycemic_index r_007 = 65
      /\ ~ In r_007
           (_filter_by_diagnosis Config.settings RECIPES_DATABASE
              true false false)).
Proof.
  intros Hdb.
  split; [|split; [|split; [|split; [|split; [|split]]]]].
  - eapply Forall2_impl; [exact Hdb|].
    intros r1 r2. apply RecipeFacts.passes_diagnosis_same.
  - apply RecipeFacts.filter_by_diagnosis_same, Hdb.
  - rewrite !search_recipes_filter.
    apply RecipeFacts.slice_to_Forall2.
    apply RecipeFacts.filter_Forall2;
      [intros a b; apply RecipeFacts.passes_diagnosis_same|].
    apply RecipeFacts.filter_Forall2;
      [intros a b; apply RecipeFacts.matchesb_same | exact Hdb].
  - unfold get_all_recipes. apply RecipeFacts.slice_to_Forall2.
    apply RecipeFacts.filter_by_diagnosis_same.
    destruct cat_opt as [[|x xs]|]; try exact Hdb.
    apply category_filter_same, Hdb.
  - unfold get_recipes_by_category.
    apply RecipeFacts.filter_by_diagnosis_same, category_filter_same, Hdb.
  - unfold get_random_recipe.
    pose proof (RecipeFacts.filter_by_diagnosis_same settings d g c _ _ Hdb)
      as HF.
    rewrite (Forall2_length _ _ _ HF).
    destruct HF as [|a b l1 l2 Hab Hl]; [constructor|].
    apply nth_error_Forall2. constructor; assumption.
  - split; [|split; [reflexivity|split; [reflexivity|]]].
    + apply (nth_error_In _ 6). reflexivity.
    + rewrite RecipeFacts.filter_by_diagnosis_filter.
      intros H. apply List.filter_In in H as [_ H].
      vm_compute in H. discriminate.
Qed.

End Suitability.

Lemma same_but_suitability_map (for_diabetes for_gout : bool)
    (db : list RecipeService.Recipe) :
  Forall2 Spec.same_but_suitability db
    (List.map (Spec.with_suitability for_diabetes for_gout) db).
Proof.
  induction db as [|r db IH]; simpl; constructor; [|exact IH].
  unfold Spec.same_but_suitability. simpl. tauto.
Qed.

(** The recipe base and the base with every recipe marked unsuitable for
    diabetes and gout are the same but for these two fields, and so are
    the results of the filter for diabetes on both. *)
Lemma diagnosis_filter_ignores_suitability_witness :
  Forall2 Spec.same_but_suitability RecipeService.RECIPES_DATABASE
    (List.map (Spec.with_suitability false false)
       RecipeService.RECIPES_DATABASE)
  /\ Forall2 Spec.same_but_suitability
       (RecipeService._filter_by_diagnosis Config.settings
          RecipeService.RECIPES_DATABASE true false false)
       (RecipeService._filter_by_diagnosis Config.settings
          (List.map (Spec.with_suitability false false)
             RecipeService.RECIPES_DATABASE) true false false).
Proof.
  assert (Hdb : Forall2 Spec.same_but_suitability
                  RecipeService.RECIPES_DATABASE
                  (List.map (Spec.with_suitability false false)
                     RecipeService.RECIPES_DATABASE)).
  { apply same_but_suitability_map. }
  split; [exact Hdb|].
  destruct (diagnosis_filter_ignores_suitability PyStr.py_lower
              Config.settings _ _ true false false [] [] None 0 0%nat Hdb)
    as (_ & HF & _).
  exact HF.
Defined.

(* ===================================================================== *)
(** * The shop service *)
(* ===================================================================== *)

Module ShopFacts.
Import PyStr ShopService.

(** What [List.find] finds is the first item that passes the test. *)
Lemma find_first {A : Type} (p : A -> bool) (l : list A) :
  match List.find p l with
  | Some x =>
    exists before after,
      l = before ++ x :: after /\ p x = true
      /\ Forall (fun e => p e = false) before
  | None => Forall (fun e => p e = false) l
  end.
Proof.
  induction l as [|a l IH]; simpl; [constructor|].
  destruct (p a) eqn:Ea.
  - exists [], l. repeat split; [exact Ea | constructor].
  - destruct (List.find p l) as [x|].
    + destruct IH as (before & after & -> & Hx & Hb).
      exists (a :: before), after. repeat split; [exact Hx|].
      constructor; assumption.
    + constructor; assumption.
Qed.

Section Loops.
Variable lower : pystr -> pystr.
Variable prices_db : gmap pystr price_table.

(** Each loop of [_find_product_price] returns the price of the first
    entry that passes its test. *)
Lemma exact_loop_find (table : price_table) (product_lower : pystr) :
  exact_loop lower table product_lower
  = option_map snd (List.find (Spec.exact_matchb lower product_lower) table).
Proof.
  induction table as [|[n price] rest IH]; simpl; [reflexivity|].
  unfold Spec.exact_matchb at 1. simpl.
  destruct (str_eqb (lower n) product_lower); [reflexivity | exact IH].
Qed.

Lemma partial_loop_find (table : price_table) (product_lower : pystr) :
  partial_loop lower table product_lower
  = option_map snd (List.find (Spec.partial_matchb lower product_lower) table).
Proof.
  induction table as [|[n price] rest IH]; simpl; [reflexivity|].
  unfold Spec.partial_matchb at 1. simpl.
  destruct (str_in product_lower (lower n) || str_in (lower n) product_lower);
    [reflexivity | exact IH].
Qed.

Lemma exactb_exact_match (product : pystr) (e : pystr * Z) :
  Spec.exact_matchb lower (lower product) e = true
  <-> Spec.exact_match lower product (fst e).
Proof.
  unfold Spec.exact_matchb, Spec.exact_match. apply PyStrFacts.str_eqb_eq.
Qed.

Lemma partialb_partial_match (product : pystr) (e : pystr * Z) :
  Spec.partial_matchb lower (lower product) e = true
  <-> Spec.partial_match lower product (fst e).
Proof.
  unfold Spec.partial_matchb, Spec.partial_match.
  rewrite orb_true_iff, !PyStrFacts.str_in_spec. reflexivity.
Qed.

Lemma Forall_not_exact (product : pystr) (l : price_table) :
  Forall (fun e => Spec.exact_matchb lower (lower product) e = false) l ->
  Forall (fun e => ~ Spec.exact_match lower product (fst e)) l.
Proof.
  intros H. eapply Forall_impl; [exact H|]. simpl. intros e He Hm.
  apply exactb_exact_match in Hm. congruence.
Qed.

Lemma Forall_not_partial (product : pystr) (l : price_table) :
  Forall (fun e => Spec.partial_matchb lower (lower product) e = false) l ->
  Forall (fun e => ~ Spec.partial_match lower product (fst e)) l.
Proof.
  intros H. eapply Forall_impl; [exact H|]. simpl. intros e He Hm.
  apply partialb_partial_match in Hm. congruence.
Qed.

(** The loop of [compare_prices] collects, in catalog order, the offer
    of every shop that has one. *)
Lemma compare_loop_flat_map (shops : list Shop) (product : pystr)
    (results : list Offer) :
  compare_loop lower prices_db shops product results
  = results ++ flat_map (Spec.offer_of lower prices_db product) shops.
Proof.
  revert results. induction shops as [|s rest IH]; intros results; simpl.
  - rewrite app_nil_r. reflexivity.
  - unfold Spec.offer_of at 1.
    destruct (_find_product_price lower (prices_of prices_db (id s)) product).
    + rewrite IH, <- app_assoc. reflexivity.
    + apply IH.
Qed.
End Loops.

(** ** The minimum of [min] *)
Section MinFacts.
Context {A : Type} (key : A -> Py.ext).

(** The result of the loop is the running minimum or one of the items
    still to come. *)
Lemma min_loop_In (best : A) (l : list A) :
  Py.min_loop key best l = best \/ In (Py.min_loop key best l) l.
Proof.
  revert best. induction l as [|x l IH]; intros best; simpl; [auto|].
  destruct (Py.ext_ltb (key x) (key best)).
  - destruct (IH x) as [-> | H]; auto.
  - destruct (IH best) as [-> | H]; auto.
Qed.

Lemma ext_ltb_trans_false (a b c : Py.ext) :
  Py.ext_ltb a b = false -> Py.ext_ltb b c = false -> Py.ext_ltb a c = false.
Proof.
  destruct a, b, c; simpl; try congruence; rewrite ?Z.ltb_ge; lia.
Qed.

Lemma ext_ltb_false_of_true (a b : Py.ext) :
  Py.ext_ltb a b = true -> Py.ext_ltb b a = false.
Proof.
  destruct a, b; simpl; try congruence. rewrite Z.ltb_lt, Z.ltb_ge. lia.
Qed.

Lemma min_loop_below_best (best : A) (l : list A) :
  Py.ext_ltb (key best) (key (Py.min_loop key best l)) = false.
Proof.
  revert best. induction l as [|x l IH]; intros best; simpl.
  - destruct (key best); simpl; [apply Z.ltb_irrefl | reflexivity].
  - destruct (Py.ext_ltb (key x) (key best)) eqn:E.
    + eapply ext_ltb_trans_false; [|apply IH].
      apply ext_ltb_false_of_true, E.
    + apply IH.
Qed.

(** No item has a key smaller than the key of the result. *)
Lemma min_loop_least (best : A) (l : list A) (y : A) :
  y = best \/ In y l ->
  Py.ext_ltb (key y) (key (Py.min_loop key best l)) = false.
Proof.
  revert best. induction l as [|x l IH]; intros best [-> | Hy].
  - apply min_loop_below_best.
  - destruct Hy.
  - apply min_loop_below_best.
  - simpl. destruct Hy as [-> | Hy].
    + destruct (Py.ext_ltb (key y) (key best)) eqn:E.
      * apply min_loop_below_best.
      * eapply ext_ltb_trans_false; [exact E | apply min_loop_below_best].
    + destruct (Py.ext_ltb (key x) (key best)); apply IH; auto.
Qed.

(** When no key is finite, the first item is the minimum. *)
Lemma min_loop_all_inf (best : A) (l : list A) :
  Forall (fun x => key x = Py.Inf) l -> Py.min_loop key best l = best.
Proof.
  intros H. revert best. induction H as [|x l Hx Hl IH]; intros best; simpl;
    [reflexivity|].
  rewrite Hx. simpl. apply IH.
Qed.
End MinFacts.

End ShopFacts.

(* ===================================================================== *)
(** * Properties of the shop service *)
(* ===================================================================== *)

Section ShopProperties.
Import PyStr ShopService.
Variable lower : pystr -> pystr.
Variable shops_db : list Shop.
Variable prices_db : gmap pystr price_table.

(** C5: the price lookup of a shop follows the policy: the price of the
    first key, in the order of the table, that equals the product name
    up to case; without such a key, the price of the first key that
    contains the product name or is contained in it, up to case;
    without any match, no price ([None], not zero). *)
Theorem find_product_price_policy (table : price_table) (product : pystr) :
  Spec.price_policy lower table product
    (_find_product_price lower table product).
Proof.
  unfold _find_product_price, Spec.price_policy.
  rewrite ShopFacts.exact_loop_find, ShopFacts.partial_loop_find.
  pose proof (ShopFacts.find_first
                (Spec.exact_matchb lower (lower product)) table) as He.
  destruct (List.find (Spec.exact_matchb lower (lower product)) table)
    as [[key v]|]; simpl.
  - destruct He as (before & after & -> & Hk & Hb).
    exists before, key, after. split; [reflexivity|]. left. split.
    + apply (ShopFacts.exactb_exact_match lower product (key, v)), Hk.
    + apply ShopFacts.Forall_not_exact, Hb.
  - pose proof (ShopFacts.find_first
                  (Spec.partial_matchb lower (lower product)) table) as Hp.
    destruct (List.find (Spec.partial_matchb lower (lower product)) table)
      as [[key v]|]; simpl.
    + destruct Hp as (before & after & Ht & Hk & Hb).
      exists before, key, after. split; [exact Ht|]. right.
      split; [apply ShopFacts.Forall_not_exact, He|]. split.
      * apply (ShopFacts.partialb_partial_match lower product (key, v)), Hk.
      * apply ShopFacts.Forall_not_partial, Hb.
    + apply ShopFacts.Forall_not_exact in He.
      apply ShopFacts.Forall_not_partial in Hp.
      rewrite List.Forall_forall in *. intros e Hin. split; auto.
Qed.

(** C7: [compare_prices] returns the offers of the shops that stock the
    product under the price-match policy, one for each such shop and
    none for a shop without a match, in ascending order of price (shops
    of equal price in catalog order); on the built-in catalog the
    comparison for "Гречневая крупа" has five shops, the cheapest being
    "Магнит" at 79. *)
Theorem compare_prices_spec (product : pystr) :
  Spec.stable_sorted offer_price
    (flat_map (Spec.offer_of lower prices_db product) shops_db)
    (compare_prices lower shops_db prices_db product)
  /\ List.map (fun o => (offer_shop_name o, offer_price o))
       (compare_prices py_lower MOCK_SHOPS MOCK_PRICES
          (lit "Гречневая крупа"))
     = [(lit "Магнит", 79); (lit "Дикси", 85); (lit "Пятёрочка", 89);
        (lit "Перекрёсток", 95); (lit "ВкусВилл", 99)].
Proof.
  split.
  - unfold compare_prices. rewrite ShopFacts.compare_loop_flat_map. simpl.
    apply PyFacts.sort_by_key_stable_sorted.
  - vm_compute. reflexivity.
Qed.

(** The shop that [find_cheapest_shop_for_recipe] returns is one of the
    dict of totals, and when some shop has a positive total its total is
    the least of the positive totals. *)
Lemma find_cheapest_shop_for_recipe_least
    (ings : list RecipeService.Ingredient) (x : pystr * ShopTotal) :
  find_cheapest_shop_for_recipe lower shops_db prices_db ings = Some x ->
  In x (get_prices_for_recipe lower shops_db prices_db ings)
  /\ forall y, In y (get_prices_for_recipe lower shops_db prices_db ings) ->
               0 < total_price (snd y) ->
               0 < total_price (snd x)
               /\ total_price (snd x) <= total_price (snd y).
Proof.
  unfold find_cheapest_shop_for_recipe. cbv zeta.
  destruct (get_prices_for_recipe lower shops_db prices_db ings) as [|b l];
    [discriminate|].
  simpl. intros [= <-]. split.
  - destruct (ShopFacts.min_loop_In cheapest_key b l) as [-> | H]; auto.
  - intros y Hy Hpos.
    assert (Hy' : y = b \/ In y l) by (destruct Hy; auto).
    pose proof (ShopFacts.min_loop_least cheapest_key b l y Hy') as Hle.
    set (m := Py.min_loop cheapest_key b l) in *.
    revert Hle. unfold cheapest_key.
    destruct (total_price (snd y) >? 0) eqn:E1; [|lia].
    destruct (total_price (snd m) >? 0) eqn:E2; simpl; [|discriminate].
    rewrite Z.ltb_ge. lia.
Qed.

(** When no shop has a positive total, the function still returns a
    shop: the first of the dict of totals. *)
Lemma find_cheapest_shop_for_recipe_unpriced
    (ings : list RecipeService.Ingredient) :
  Forall (fun y => total_price (snd y) <= 0)
    (get_prices_for_recipe lower shops_db prices_db ings) ->
  find_cheapest_shop_for_recipe lower shops_db prices_db ings
  = head (get_prices_for_recipe lower shops_db prices_db ings).
Proof.
  unfold find_cheapest_shop_for_recipe. cbv zeta.
  destruct (get_prices_for_recipe lower shops_db prices_db ings) as [|b l];
    [reflexivity|].
  intros H. simpl. f_equal. apply ShopFacts.min_loop_all_inf.
  apply Forall_cons in H as [_ H].
  eapply Forall_impl; [exact H|]. simpl. intros y Hy.
  unfold cheapest_key. destruct (total_price (snd y) >? 0) eqn:E; [lia|].
  reflexivity.
Qed.

(** C2, on the built-in catalog and the one-ingredient list "Вода", which
    no shop prices: every shop's total is 0, the single-product lookup
    [find_cheapest_shop_for_product] finds no shop, and yet
    [find_cheapest_shop_for_recipe] returns the first shop, shop_001,
    with total 0. *)
Theorem find_cheapest_shop_for_recipe_unpriced_sample :
  Forall (fun y => total_price (snd y) = 0)
    (get_prices_for_recipe py_lower MOCK_SHOPS MOCK_PRICES
       [RecipeService.ingredient "Вода" 300 "мл"])
  /\ find_cheapest_shop_for_product py_lower MOCK_SHOPS MOCK_PRICES
       (lit "Вода") = None
  /\ find_cheapest_shop_for_recipe py_lower MOCK_SHOPS MOCK_PRICES
       [RecipeService.ingredient "Вода" 300 "мл"]
     = Some (lit "shop_001",
             {| shop_name := lit "Пятёрочка";
                shop_address := lit "Москва, Красная площадь, 1";
                total_price := 0;
                found_items := 0;
                total_items := 1;
                items := [];
                total_rating := 4.7 |}).
Proof.
  split; [|split].
  - vm_compute. repeat constructor.
  - vm_compute. reflexivity.
  - vm_compute. reflexivity.
Qed.

End ShopProperties.

Section NearbyProperties.
Import PyStr ShopService.
Variable shops_db : list Shop.
Variable num : Type.
Variable haversine_distance : num -> num -> num -> num -> num.
Variable of_decimal : Q -> num.
Variable num_leb : num -> num -> bool.
Variable round2 : num -> Z.




End NearbyProperties.


(* ===================================================================== *)
(** * Properties of the Haversine distance *)
(* ===================================================================== *)

Module HaversineFacts.
Import Haversine.
Local Open Scope R_scope.

Lemma radians_opp (x : R) : radians (- x) = - radians x.
Proof. unfold radians. ring. Qed.

Lemma radians_0 : radians 0 = 0.
Proof. unfold radians. ring. Qed.

(** The half-angle term does not change when the two points are
    swapped. *)
Lemma sin_half_delta_sqr (x y : R) :
  sin (radians (y - x) / 2) ^ 2 = sin (radians (x - y) / 2) ^ 2.
Proof.
  replace (radians (x - y) / 2) with (- (radians (y - x) / 2)).
  - rewrite sin_neg. ring.
  - replace (x - y) with (- (y - x)) by ring. rewrite radians_opp. field.
Qed.

Lemma atan2_0_1 : atan2 0 1 = 0.
Proof.
  unfold atan2. destruct (Rlt_dec 0 1) as [_|H]; [|exfalso; lra].
  replace (0 / 1) with 0 by field. apply atan_0.
Qed.

End HaversineFacts.

(** C9: the Haversine distance is symmetric, the distance from A to B
    being the distance from B to A for every two points, and the distance
    from a point to itself is 0. *)
Theorem haversine_symmetric_and_zero (lat1 lon1 lat2 lon2 : R) :
  Haversine._calculate_haversine_distance lat1 lon1 lat2 lon2
  = Haversine._calculate_haversine_distance lat2 lon2 lat1 lon1
  /\ Haversine._calculate_haversine_distance lat1 lon1 lat1 lon1 = 0%R.
Proof.
  unfold Haversine._calculate_haversine_distance. split.
  - cbv zeta.
    rewrite (HaversineFacts.sin_half_delta_sqr lat1 lat2).
    rewrite (HaversineFacts.sin_half_delta_sqr lon1 lon2).
    rewrite (Rmult_comm (cos (Haversine.radians lat1))).
    reflexivity.
  - cbv zeta.
    replace (lat1 - lat1)%R with 0%R by ring.
    replace (lon1 - lon1)%R with 0%R by ring.
    rewrite HaversineFacts.radians_0.
    replace (0 / 2)%R with 0%R by field.
    rewrite sin_0.
    replace (0 ^ 2 + cos (Haversine.radians lat1)
                     * cos (Haversine.radians lat1) * 0 ^ 2)%R
      with 0%R by ring.
    rewrite sqrt_0, Rminus_0_r, sqrt_1, HaversineFacts.atan2_0_1.
    unfold Haversine.EARTH_RADIUS_KM. ring.
Qed.

(* ===================================================================== *)
(** * Arguments that are not checked *)
(* ===================================================================== *)

Module CallsFacts.



End CallsFacts.



(* ===================================================================== *)
(** * The services on the built-in catalogs *)
(* ===================================================================== *)

Module Examples.
Import PyStr.

(** With [py_lower], a query of white space only is the empty query: the
    search returns the head of the filtered catalog. *)
Lemma search_recipes_blank_query (settings : Config.Settings)
    (recipes_db : list RecipeService.Recipe) (query : pystr)
    (d g c : bool) (limit : Z) :
  forallb isspace query = true ->
  0 <= limit ->
  RecipeService.search_recipes py_lower settings recipes_db query d g c limit
  = firstn (Z.to_nat limit)
      (RecipeService._filter_by_diagnosis settings recipes_db d g c).
Proof.
  intros Hblank Hlimit. rewrite search_recipes_filter.
  rewrite (PyStrFacts.strip_lower_all_space query Hblank).
  rewrite (PyFacts.slice_to_nonneg _ _ Hlimit).
  rewrite RecipeFacts.filter_by_diagnosis_filter.
  rewrite (RecipeFacts.filter_all (Spec.matchesb py_lower []));
    [reflexivity|].
  apply RecipeFacts.matchesb_empty.
Qed.

(** The search for "курица" under diabetes finds the steamed chicken,
    whose glycemic index is 35. *)
Example search_chicken_diabetes :
  RecipeService.search_recipes py_lower Config.settings
    RecipeService.RECIPES_DATABASE (lit "курица") true false false 10
  = [RecipeService.r_001].
Proof. vm_compute. reflexivity. Qed.

(** The query is matched against ingredient names too, up to case. *)
Example search_by_ingredient :
  List.map RecipeService.id
    (RecipeService.search_recipes py_lower Config.settings
       RecipeService.RECIPES_DATABASE (lit "  ТРЕСКА ") false false false 10)
  = [lit "r_004"].
Proof. vm_compute. reflexivity. Qed.

(** Under gout the recipes above 100 mg of purines, r_001 and r_010, are
    left out. *)
Example filter_gout :
  List.map RecipeService.id
    (RecipeService._filter_by_diagnosis Config.settings
       RecipeService.RECIPES_DATABASE false true false)
  = List.map lit
      ["r_002"; "r_003"; "r_004"; "r_005"; "r_006"; "r_007"; "r_008";
       "r_009"]%string.
Proof. vm_compute. reflexivity. Qed.

(** A partial match takes the first key in table order: "филе" is in
    "Куриное филе" and in "Треска (филе)", and the price is the one of the
    former. *)
Example price_first_partial_match :
  ShopService._find_product_price py_lower ShopService.prices_shop_001
    (lit "филе") = Some 289.
Proof. vm_compute. reflexivity. Qed.

(** An ingredient name that contains a key matches it: "Яйца" does not,
    "Оливковое масло Extra Virgin" does. *)
Example price_key_inside_name :
  ShopService._find_product_price py_lower ShopService.prices_shop_001
    (lit "Оливковое масло Extra Virgin") = Some 549
  /\ ShopService._find_product_price py_lower ShopService.prices_shop_001
       (lit "Яйцо") = None.
Proof. vm_compute. split; reflexivity. Qed.

(** The cheapest shop for the ingredients of r_001 is shop_002, where the
    three priced ingredients cost 967. *)
Example cheapest_shop_for_r_001 :
  option_map (fun x => (fst x, ShopService.total_price (snd x),
                        ShopService.found_items (snd x)))
    (ShopService.find_cheapest_shop_for_recipe py_lower
       ShopService.MOCK_SHOPS ShopService.MOCK_PRICES
       (RecipeService.ingredients RecipeService.r_001))
  = Some (lit "shop_002", 967, 3).
Proof. vm_compute. reflexivity. Qed.

(** Slices with a negative bound. *)
Example slice_to_negative_bound :
  Py.slice_to (-2) [1; 2; 3; 4; 5] = [1; 2; 3]
  /\ Py.slice_to (-7) [1; 2; 3; 4; 5] = []
  /\ Py.slice_to 2 [1; 2; 3; 4; 5] = [1; 2].
Proof. repeat split. Qed.

(** The stable sort keeps items of equal key in their order. *)
Example sort_by_key_ties :
  Py.sort_by_key fst [(2, 10); (1, 20); (2, 30); (1, 40)]
  = [(1, 20); (1, 40); (2, 10); (2, 30)].
Proof. reflexivity. Qed.

End Examples.

(* ===================================================================== *)
(** * More on the recipe service *)
(* ===================================================================== *)

Section RecipeLookup.
Import PyStr RecipeService.
Variable recipes_db : list Recipe.

Lemma get_recipe_by_id_loop_find (recipes : list Recipe) (rid : pystr) :
  get_recipe_by_id_loop recipes rid
  = List.find (fun r => str_eqb (id r) rid) recipes.
Proof.
  induction recipes as [|r rest IH]; simpl; [reflexivity|].
  destruct (str_eqb (id r) rid); [reflexivity | exact IH].
Qed.

(** X1: [get_recipe_by_id] returns a recipe of the base that has the id asked
    for, the first such one, and [None] exactly when no recipe of the base has
    that id. *)
Theorem get_recipe_by_id_first (rid : pystr) :
  match get_recipe_by_id recipes_db rid with
  | Some r =>
    id r = rid
    /\ exists before after,
         recipes_db = before ++ r :: after
         /\ Forall (fun r' => id r' <> rid) before
  | None => Forall (fun r' => id r' <> rid) recipes_db
  end.
Proof.
  unfold get_recipe_by_id. rewrite get_recipe_by_id_loop_find.
  pose proof (ShopFacts.find_first (fun r => str_eqb (id r) rid) recipes_db)
    as H.
  assert (Hneq : forall l : list Recipe,
             Forall (fun e => str_eqb (id e) rid = false) l ->
             Forall (fun r' => id r' <> rid) l).
  { intros l Hl. eapply Forall_impl; [exact Hl|]. simpl. intros r' Hr' Heq.
    apply PyStrFacts.str_eqb_eq in Heq. congruence. }
  destruct (List.find (fun r => str_eqb (id r) rid) recipes_db) as [r|].
  - destruct H as (before & after & Hdb & Hr & Hb).
    split; [apply PyStrFacts.str_eqb_eq, Hr|].
    exists before, after. split; [exact Hdb | apply Hneq, Hb].
  - apply Hneq, H.
Qed.

(** X2: when the ids of the base are pairwise different, looking up the id of
    a recipe of the base gives back that very recipe. *)
Theorem get_recipe_by_id_round_trip (r : Recipe) :
  NoDup (List.map id recipes_db) ->
  In r recipes_db ->
  get_recipe_by_id recipes_db (id r) = Some r.
Proof.
  unfold get_recipe_by_id.
  induction recipes_db as [|x rest IH]; intros Hnd Hin; [destruct Hin|].
  simpl in *. apply NoDup_cons in Hnd as [Hx Hnd].
  destruct Hin as [-> | Hin].
  - assert (E : str_eqb (id r) (id r) = true)
      by (apply PyStrFacts.str_eqb_eq; reflexivity).
    rewrite E. reflexivity.
  - destruct (str_eqb (id x) (id r)) eqn:E.
    + apply PyStrFacts.str_eqb_eq in E. exfalso. apply Hx.
      rewrite E. apply list_elem_of_In, List.in_map, Hin.
    + apply IH; assumption.
Qed.

End RecipeLookup.

(** The ids of the built-in recipe base are pairwise different, and the
    lookup of the id of r_007 gives r_007. *)
Lemma get_recipe_by_id_round_trip_witness :
  NoDup (List.map RecipeService.id RecipeService.RECIPES_DATABASE)
  /\ In RecipeService.r_007 RecipeService.RECIPES_DATABASE
  /\ RecipeService.get_recipe_by_id RecipeService.RECIPES_DATABASE
       (RecipeService.id RecipeService.r_007)
     = Some RecipeService.r_007.
Proof.
  assert (Hnd : NoDup (List.map RecipeService.id
                         RecipeService.RECIPES_DATABASE)).
  { apply (bool_decide_unpack _). vm_compute. exact I. }
  assert (Hin : In RecipeService.r_007 RecipeService.RECIPES_DATABASE).
  { apply (nth_error_In _ 6). reflexivity. }
  split; [exact Hnd|]. split; [exact Hin|].
  apply (get_recipe_by_id_round_trip _ _ Hnd Hin).
Defined.

Section RecipeComposition.
Import PyStr RecipeService.
Variable lower : pystr -> pystr.
Variable settings : Config.Settings.
Variable recipes_db : list Recipe.

Lemma passes_diagnosis_orb (d1 g1 c1 d2 g2 c2 : bool) (r : Recipe) :
  passes_diagnosis settings d1 g1 c1 r && passes_diagnosis settings d2 g2 c2 r
  = passes_diagnosis settings (d1 || d2) (g1 || g2) (c1 || c2) r.
Proof.
  unfold passes_diagnosis.
  destruct (glycemic_index r >? Config.max_glycemic_index settings),
    (purines r >? 100), (suitable_for_celiac r);
    destruct d1, g1, c1, d2, g2, c2; reflexivity.
Qed.

Lemma filter_filter_andb {A : Type} (p q : A -> bool) (l : list A) :
  List.filter q (List.filter p l) = List.filter (fun x => p x && q x) l.
Proof.
  induction l as [|x l IH]; simpl; [reflexivity|].
  destruct (p x); simpl; [destruct (q x)|]; rewrite IH; reflexivity.
Qed.

(** X3: filtering twice is filtering once with the flags of both passes put
    together: the order of the passes does not matter and a second pass with
    the same flags changes nothing. *)
Theorem filter_by_diagnosis_compose (recipes : list Recipe)
    (d1 g1 c1 d2 g2 c2 : bool) :
  _filter_by_diagnosis settings
    (_filter_by_diagnosis settings recipes d1 g1 c1) d2 g2 c2
  = _filter_by_diagnosis settings recipes (d1 || d2) (g1 || g2) (c1 || c2).
Proof.
  rewrite !RecipeFacts.filter_by_diagnosis_filter, filter_filter_andb.
  apply List.filter_ext. intros r. apply passes_diagnosis_orb.
Qed.

Lemma filter_sublist_of {A : Type} (p : A -> bool) (l : list A) :
  sublist (List.filter p l) l.
Proof.
  induction l as [|x l IH]; simpl; [constructor|].
  destruct (p x); constructor; exact IH.
Qed.

Lemma firstn_sublist {A : Type} (n : nat) (l : list A) :
  sublist (firstn n l) l.
Proof.
  revert n. induction l as [|x l IH]; intros [|n]; simpl;
    try constructor; auto.
  apply sublist_nil_l.
Qed.

Lemma slice_to_sublist {A : Type} (limit : Z) (l : list A) :
  sublist (Py.slice_to limit l) l.
Proof.
  destruct (PyFacts.slice_to_firstn limit l) as [n ->]. apply firstn_sublist.
Qed.

Lemma slice_to_length {A : Type} (limit : Z) (l : list A) :
  Z.of_nat (length (Py.slice_to limit l))
  = if 0 <=? limit then Z.min limit (Z.of_nat (length l))
    else Z.max 0 (Z.of_nat (length l) + limit).
Proof.
  unfold Py.slice_to. destruct (0 <=? limit) eqn:E.
  - apply Z.leb_le in E. rewrite List.length_firstn. lia.
  - apply Z.leb_gt in E. rewrite List.length_firstn. lia.
Qed.

(** X4: whatever the query, the flags and the limit (negative ones too), the
    search returns recipes of the base in the order of the base, none twice
    unless the base has it twice.  What it returns is the beginning of the
    list of all matches that pass the filter: at most [limit] of them when
    the limit is not negative, and all but the last [-limit] when it is. *)
Theorem search_recipes_sublist (query : pystr) (d g c : bool) (limit : Z) :
  let matches :=
    List.filter (Spec.satisfiesb settings d g c)
      (List.filter (Spec.matchesb lower (strip (lower query))) recipes_db) in
  let found := Z.of_nat (length matches) in
  let result := search_recipes lower settings recipes_db query d g c limit in
  sublist result recipes_db
  /\ Z.of_nat (length result)
     = (if 0 <=? limit then Z.min limit found else Z.max 0 (found + limit))
  /\ exists dropped,
       matches = result ++ dropped
       /\ Z.of_nat (length dropped)
          = (if 0 <=? limit then Z.max 0 (found - limit)
             else Z.min found (- limit)).
Proof.
  intros matches found result.
  assert (Hresult : result = Py.slice_to limit matches).
  { unfold result, matches. rewrite search_recipes_filter.
    rewrite (List.filter_ext _ _
               (RecipeFacts.passes_diagnosis_satisfiesb settings d g c)).
    reflexivity. }
  assert (Hlength : Z.of_nat (length result)
                    = if 0 <=? limit then Z.min limit found
                      else Z.max 0 (found + limit)).
  { rewrite Hresult. apply slice_to_length. }
  split; [|split; [exact Hlength|]].
  - rewrite Hresult. etransitivity; [apply slice_to_sublist|].
    etransitivity; apply filter_sublist_of.
  - destruct (PyFacts.slice_to_firstn limit matches) as [n Hn].
    exists (skipn n matches). rewrite Hresult, Hn. split.
    + symmetry. apply firstn_skipn.
    + pose proof (firstn_skipn n matches) as Hsplit.
      apply (f_equal (@length _)) in Hsplit.
      rewrite length_app in Hsplit.
      rewrite Hresult, Hn in Hlength. fold found in Hlength.
      unfold found in *. destruct (0 <=? limit); lia.
Qed.

(** X5: a search whose query is empty once trimmed and lower-cased is the
    listing of all recipes: it returns what [get_all_recipes] returns without
    a category, and [get_all_recipes] takes the empty string as no category. *)
Theorem search_blank_is_get_all (query : pystr) (d g c : bool) (limit : Z) :
  strip (lower query) = [] ->
  search_recipes lower settings recipes_db query d g c limit
  = get_all_recipes settings recipes_db d g c None limit
  /\ get_all_recipes settings recipes_db d g c (Some []) limit
     = get_all_recipes settings recipes_db d g c None limit.
Proof.
  intros Hq. split; [|reflexivity].
  rewrite search_recipes_filter, Hq. unfold get_all_recipes.
  rewrite RecipeFacts.filter_by_diagnosis_filter.
  rewrite (RecipeFacts.filter_all (Spec.matchesb lower [])); [reflexivity|].
  apply RecipeFacts.matchesb_empty.
Qed.

(** X6: with a category that is not empty, [get_all_recipes] is the category
    listing cut to the limit, and the category listing is the part of the
    diagnosis-filtered base that has the category. *)
Theorem get_all_recipes_category (cat : pystr) (d g c : bool) (limit : Z) :
  cat <> [] ->
  get_all_recipes settings recipes_db d g c (Some cat) limit
  = Py.slice_to limit (get_recipes_by_category settings recipes_db cat d g c)
  /\ get_recipes_by_category settings recipes_db cat d g c
     = List.filter (fun r => str_eqb (category r) cat)
         (_filter_by_diagnosis settings recipes_db d g c).
Proof.
  intros Hcat. split.
  - destruct cat as [|x xs]; [congruence | reflexivity].
  - unfold get_recipes_by_category.
    rewrite !RecipeFacts.filter_by_diagnosis_filter, !filter_filter_andb.
    apply List.filter_ext. intros r. apply andb_comm.
Qed.

(** X7: the random selection returns [None] exactly when no recipe of the base
    passes the diagnosis filter, and every recipe that passes is returned for
    some draw of the generator. *)
Theorem get_random_recipe_reaches (d g c : bool) :
  (forall draw,
      get_random_recipe settings recipes_db draw d g c = None
      <-> _filter_by_diagnosis settings recipes_db d g c = [])
  /\ Forall
       (fun r => exists draw,
            get_random_recipe settings recipes_db draw d g c = Some r)
       (_filter_by_diagnosis settings recipes_db d g c).
Proof.
  unfold get_random_recipe.
  destruct (_filter_by_diagnosis settings recipes_db d g c) as [|x l] eqn:E.
  - split; [tauto | constructor].
  - split.
    + intros draw. split; [|discriminate].
      intros H. apply List.nth_error_None in H.
      pose proof (Nat.mod_upper_bound draw (length (x :: l))) as Hb.
      simpl in *. lia.
    + apply List.Forall_forall. intros r Hr.
      apply List.In_nth_error in Hr as [n Hn]. exists n.
      rewrite Nat.mod_small; [exact Hn|].
      apply List.nth_error_Some. congruence.
Qed.

End RecipeComposition.

(** The all-blank query on the built-in base with [py_lower]. *)
Lemma search_blank_is_get_all_witness :
  PyStr.strip (PyStr.py_lower (PyStr.lit "   ")) = []
  /\ RecipeService.search_recipes PyStr.py_lower Config.settings
       RecipeService.RECIPES_DATABASE (PyStr.lit "   ") false true false 4
     = RecipeService.get_all_recipes Config.settings
         RecipeService.RECIPES_DATABASE false true false None 4.
Proof.
  assert (H : PyStr.strip (PyStr.py_lower (PyStr.lit "   ")) = [])
    by (vm_compute; reflexivity).
  split; [exact H|].
  apply (search_blank_is_get_all PyStr.py_lower Config.settings
           RecipeService.RECIPES_DATABASE (PyStr.lit "   ")
           false true false 4 H).
Defined.

(** The category "soup" on the built-in base. *)
Lemma get_all_recipes_category_witness :
  PyStr.lit "soup" <> []
  /\ RecipeService.get_all_recipes Config.settings
       RecipeService.RECIPES_DATABASE false false false
       (Some (PyStr.lit "soup")) 20
     = Py.slice_to 20
         (RecipeService.get_recipes_by_category Config.settings
            RecipeService.RECIPES_DATABASE (PyStr.lit "soup")
            false false false).
Proof.
  assert (H : PyStr.lit "soup" <> []) by (vm_compute; discriminate).
  split; [exact H|].
  apply (get_all_recipes_category Config.settings
           RecipeService.RECIPES_DATABASE (PyStr.lit "soup")
           false false false 20 H).
Defined.

(* ===================================================================== *)
(** * More on the shop service *)
(* ===================================================================== *)

Section ShopLookup.
Import PyStr ShopService.
Variable lower : pystr -> pystr.
Variable shops_db : list Shop.
Variable prices_db : gmap pystr price_table.

Lemma get_shop_by_id_loop_find (shops : list Shop) (sid : pystr) :
  get_shop_by_id_loop shops sid
  = List.find (fun s => str_eqb (id s) sid) shops.
Proof.
  induction shops as [|s rest IH]; simpl; [reflexivity|].
  destruct (str_eqb (id s) sid); [reflexivity | exact IH].
Qed.

(** X8: [get_shop_by_id] finds a shop exactly when the base has one with the
    id asked for; the shop found has that id and is of the base; and when the
    ids of the base are pairwise different, the lookup of the id of a shop of
    the base gives back that shop. *)
Theorem get_shop_by_id_lookup (sid : pystr) :
  (get_shop_by_id shops_db sid = None
   <-> Forall (fun s => id s <> sid) shops_db)
  /\ (forall s, get_shop_by_id shops_db sid = Some s ->
                In s shops_db /\ id s = sid)
  /\ (NoDup (List.map id shops_db) ->
      forall s, In s shops_db -> get_shop_by_id shops_db (id s) = Some s).
Proof.
  unfold get_shop_by_id. split; [|split].
  - induction shops_db as [|x rest IH]; simpl.
    + split; [constructor | reflexivity].
    + destruct (str_eqb (id x) sid) eqn:E.
      * apply PyStrFacts.str_eqb_eq in E. split; [discriminate|].
        intros H. apply Forall_cons in H as [H _]. contradiction.
      * rewrite IH. split.
        -- intros H. constructor; [|exact H]. intros Heq.
           apply PyStrFacts.str_eqb_eq in Heq. congruence.
        -- intros H. apply Forall_cons in H as [_ H]. exact H.
  - intros s. rewrite get_shop_by_id_loop_find. intros H.
    apply List.find_some in H as [Hin Hid].
    split; [exact Hin | apply PyStrFacts.str_eqb_eq, Hid].
  - induction shops_db as [|x rest IH]; intros Hnd s Hin; [destruct Hin|].
    simpl in *. apply NoDup_cons in Hnd as [Hx Hnd].
    destruct Hin as [-> | Hin].
    + assert (E : str_eqb (id s) (id s) = true)
        by (apply PyStrFacts.str_eqb_eq; reflexivity).
      rewrite E. reflexivity.
    + destruct (str_eqb (id x) (id s)) eqn:E.
      * apply PyStrFacts.str_eqb_eq in E. exfalso. apply Hx.
        rewrite E. apply list_elem_of_In, List.in_map, Hin.
      * apply IH; assumption.
Qed.

End ShopLookup.

Section CheapestProduct.
Import PyStr ShopService.
Variable lower : pystr -> pystr.
Variable shops_db : list Shop.
Variable prices_db : gmap pystr price_table.

Lemma head_insert_by_key {A : Type} (key : A -> Z) (x : A) (l : list A) :
  head (Py.insert_by_key key x l) = Notions.pick_head key x (head l).
Proof.
  destruct l as [|y l]; simpl; [reflexivity|].
  destruct (key y <? key x); reflexivity.
Qed.

Lemma head_sort_cons {A : Type} (key : A -> Z) (x : A) (l : list A) :
  head (Py.sort_by_key key (x :: l))
  = Notions.pick_head key x (head (Py.sort_by_key key l)).
Proof. simpl. apply head_insert_by_key. Qed.

(** An item whose key is smaller than the one of the item before it
    takes its place at the head of the sorted list. *)
Lemma head_sort_smaller {A : Type} (key : A -> Z) (b o : A) (l : list A) :
  key o < key b ->
  head (Py.sort_by_key key (b :: o :: l))
  = head (Py.sort_by_key key (o :: l)).
Proof.
  intros Hlt. rewrite (head_sort_cons key b), (head_sort_cons key o).
  destruct (head (Py.sort_by_key key l)) as [y|]; simpl.
  - destruct (key y <? key o) eqn:E; simpl.
    + apply Z.ltb_lt in E.
      destruct (key y <? key b) eqn:E'; [reflexivity|].
      apply Z.ltb_ge in E'. lia.
    + destruct (key o <? key b) eqn:E'; [reflexivity|].
      apply Z.ltb_ge in E'. lia.
  - destruct (key o <? key b) eqn:E'; [reflexivity|].
    apply Z.ltb_ge in E'. lia.
Qed.

(** An item whose key is not smaller than the one of the item before it
    does not change the head of the sorted list. *)
Lemma head_sort_not_smaller {A : Type} (key : A -> Z) (b o : A)
    (l : list A) :
  key b <= key o ->
  head (Py.sort_by_key key (b :: o :: l))
  = head (Py.sort_by_key key (b :: l)).
Proof.
  intros Hle. rewrite !(head_sort_cons key b), (head_sort_cons key o).
  destruct (head (Py.sort_by_key key l)) as [y|]; simpl.
  - destruct (key y <? key o) eqn:E; simpl; [reflexivity|].
    apply Z.ltb_ge in E.
    destruct (key o <? key b) eqn:E1; [apply Z.ltb_lt in E1; lia|].
    destruct (key y <? key b) eqn:E2; [apply Z.ltb_lt in E2; lia|].
    reflexivity.
  - destruct (key o <? key b) eqn:E1; [apply Z.ltb_lt in E1; lia|].
    reflexivity.
Qed.

(** The loop of [find_cheapest_shop_for_product], started with a best
    shop or with none, ends with the head of the sorted offers. *)
Lemma cheapest_product_loop_head (shops : list Shop) (product : pystr) :
  cheapest_product_loop lower prices_db shops product None Py.Inf
  = head (Py.sort_by_key offer_price
            (flat_map (Spec.offer_of lower prices_db product) shops))
  /\ forall b,
       cheapest_product_loop lower prices_db shops product (Some b)
         (Py.Fin (offer_price b))
       = head (Py.sort_by_key offer_price
                 (b :: flat_map (Spec.offer_of lower prices_db product)
                         shops)).
Proof.
  induction shops as [|s rest [IHn IHs]]; [split; reflexivity|].
  cbn [cheapest_product_loop flat_map]. unfold Spec.offer_of at 1 3.
  destruct (_find_product_price lower (prices_of prices_db (id s)) product)
    as [price|]; [|split; [exact IHn | exact IHs]].
  set (o := {| offer_shop_id := id s; offer_shop_name := name s;
               offer_shop_address := address s; offer_price := price;
               offer_rating := rating s |}).
  change (Py.Fin price) with (Py.Fin (offer_price o)). clearbody o.
  split.
  - simpl Py.ext_ltb. cbn iota. rewrite (IHs o). reflexivity.
  - intros b. simpl Py.ext_ltb. simpl app.
    destruct (offer_price o <? offer_price b) eqn:E.
    + apply Z.ltb_lt in E. rewrite (IHs o).
      symmetry. apply head_sort_smaller, E.
    + apply Z.ltb_ge in E. rewrite (IHs b).
      symmetry. apply head_sort_not_smaller, E.
Qed.

Lemma ascending_head_least {A : Type} (key : A -> Z) (l : list A) (x : A) :
  Spec.ascending key l -> head l = Some x ->
  Forall (fun y => key x <= key y) l.
Proof.
  intros Hs Hh. destruct l as [|y l]; [discriminate|].
  injection Hh as ->. apply StronglySorted_inv in Hs as [_ Hs].
  constructor; [lia | exact Hs].
Qed.

(** X9: [find_cheapest_shop_for_product] returns the first entry of
    [compare_prices]: no shop when no shop stocks the product, and otherwise
    an offer that no offer of the comparison undercuts. *)
Theorem find_cheapest_shop_for_product_head (product : pystr) :
  find_cheapest_shop_for_product lower shops_db prices_db product
  = head (compare_prices lower shops_db prices_db product)
  /\ (find_cheapest_shop_for_product lower shops_db prices_db product = None
      <-> compare_prices lower shops_db prices_db product = [])
  /\ from_option
       (fun best =>
          Forall (fun o => offer_price best <= offer_price o)
            (compare_prices lower shops_db prices_db product))
       True
       (find_cheapest_shop_for_product lower shops_db prices_db product).
Proof.
  assert (H : find_cheapest_shop_for_product lower shops_db prices_db product
              = head (compare_prices lower shops_db prices_db product)).
  { unfold find_cheapest_shop_for_product, compare_prices.
    rewrite ShopFacts.compare_loop_flat_map. simpl.
    apply cheapest_product_loop_head. }
  rewrite H. split; [reflexivity|]. split.
  - destruct (compare_prices lower shops_db prices_db product);
      simpl; split; congruence.
  - destruct (head (compare_prices lower shops_db prices_db product))
      as [best|] eqn:E; simpl; [|exact I].
    apply ascending_head_least; [|exact E].
    unfold compare_prices. apply PyFacts.sort_by_key_ascending.
Qed.

End CheapestProduct.

Section RecipePrices.
Import PyStr ShopService.
Variable lower : pystr -> pystr.
Variable shops_db : list Shop.
Variable prices_db : gmap pystr price_table.

(** The inner loop adds the priced ingredients to its state. *)
Lemma ingredients_loop_priced (table : price_table)
    (ings : list RecipeService.Ingredient) (total found : Z)
    (items_prices : list (pystr * Z)) :
  ingredients_loop lower table ings (total, found, items_prices)
  = (total + Notions.sum_prices (Notions.priced_items lower table ings),
     found + Z.of_nat (length (Notions.priced_items lower table ings)),
     items_prices ++ Notions.priced_items lower table ings).
Proof.
  revert total found items_prices.
  induction ings as [|ing rest IH]; intros total found items_prices.
  - simpl. rewrite app_nil_r. f_equal. f_equal; lia.
  - cbn [ingredients_loop Notions.priced_items flat_map].
    destruct (_find_product_price lower table (RecipeService.ing_name ing))
      as [price|].
    + rewrite IH. fold (Notions.priced_items lower table rest).
      cbn [app Notions.sum_prices fold_right length snd].
      fold (Notions.sum_prices (Notions.priced_items lower table rest)).
      rewrite <- app_assoc. f_equal. f_equal; lia.
    + rewrite IH. reflexivity.
Qed.

Lemma priced_items_length (table : price_table)
    (ings : list RecipeService.Ingredient) :
  (length (Notions.priced_items lower table ings) <= length ings)%nat.
Proof.
  induction ings as [|ing rest IH]; simpl; [lia|].
  destruct (_find_product_price lower table (RecipeService.ing_name ing));
    simpl; rewrite ?length_app; simpl; lia.
Qed.

Lemma dict_set_In {V : Type} (d : list (pystr * V)) (k : pystr) (v : V)
    (x : pystr * V) :
  In x (Py.dict_set d k v) -> x = (k, v) \/ In x d.
Proof.
  induction d as [|[k' v'] d IH]; simpl.
  - intros [<- | []]. auto.
  - destruct (str_eqb k' k) eqn:E.
    + apply PyStrFacts.str_eqb_eq in E. subst k'.
      intros [<- | H]; auto.
    + intros [<- | H]; auto. destruct (IH H); auto.
Qed.

Lemma dict_set_nonempty {V : Type} (d : list (pystr * V)) (k : pystr)
    (v : V) :
  Py.dict_set d k v <> [].
Proof.
  destruct d as [|[k' v'] d]; simpl; [discriminate|].
  destruct (str_eqb k' k); discriminate.
Qed.

(** A key that is not in the dict goes to its end. *)
Lemma dict_set_new {V : Type} (d : list (pystr * V)) (k : pystr) (v : V) :
  ~ In k (List.map fst d) -> Py.dict_set d k v = d ++ [(k, v)].
Proof.
  induction d as [|[k' v'] d IH]; simpl; [reflexivity|].
  intros H. destruct (str_eqb k' k) eqn:E.
  - apply PyStrFacts.str_eqb_eq in E. tauto.
  - rewrite IH; [reflexivity | tauto].
Qed.

Lemma shops_loop_step (s : Shop) (rest : list Shop)
    (ings : list RecipeService.Ingredient)
    (acc : list (pystr * ShopTotal)) :
  shops_loop lower prices_db (s :: rest) ings acc
  = shops_loop lower prices_db rest ings
      (Py.dict_set acc (id s) (Notions.shop_total lower prices_db ings s)).
Proof.
  cbn [shops_loop]. rewrite ingredients_loop_priced. cbn iota beta.
  unfold Notions.shop_total. cbn zeta.
  rewrite !Z.add_0_l. reflexivity.
Qed.

Lemma shops_loop_In (shops : list Shop)
    (ings : list RecipeService.Ingredient)
    (acc : list (pystr * ShopTotal)) (x : pystr * ShopTotal) :
  In x (shops_loop lower prices_db shops ings acc) ->
  In x acc
  \/ exists s, In s shops
               /\ x = (id s, Notions.shop_total lower prices_db ings s).
Proof.
  revert acc. induction shops as [|s rest IH]; intros acc; [simpl; auto|].
  rewrite shops_loop_step. intros H. apply IH in H as [H | (s' & Hs' & ->)].
  - apply dict_set_In in H as [-> | H]; [|auto].
    right. exists s. split; [left|]; reflexivity.
  - right. exists s'. split; [right; exact Hs' | reflexivity].
Qed.

Lemma shops_loop_nonempty (shops : list Shop)
    (ings : list RecipeService.Ingredient)
    (acc : list (pystr * ShopTotal)) :
  acc <> [] -> shops_loop lower prices_db shops ings acc <> [].
Proof.
  revert acc. induction shops as [|s rest IH]; intros acc H; [exact H|].
  rewrite shops_loop_step. apply IH, dict_set_nonempty.
Qed.

(** X10: every entry of the dict of [get_prices_for_recipe] belongs to a shop
    of the base, under that shop's id and with its name and address; its items
    are the ingredients that the shop's table prices, each with the price of
    the lookup; [total_price] is the sum of the prices of the items,
    [found_items] their number, [total_items] the number of ingredients asked
    for, and [found_items] never exceeds [total_items]. *)
Theorem get_prices_for_recipe_totals
    (ings : list RecipeService.Ingredient) :
  Forall
    (fun x =>
       (exists s, In s shops_db /\ fst x = id s
                  /\ shop_name (snd x) = name s
                  /\ shop_address (snd x) = address s)
       /\ items (snd x)
          = Notions.priced_items lower (prices_of prices_db (fst x)) ings
       /\ total_price (snd x) = Notions.sum_prices (items (snd x))
       /\ found_items (snd x) = Z.of_nat (length (items (snd x)))
       /\ total_items (snd x) = Z.of_nat (length ings)
       /\ 0 <= found_items (snd x) <= total_items (snd x))
    (get_prices_for_recipe lower shops_db prices_db ings).
Proof.
  apply List.Forall_forall. intros x Hx.
  apply shops_loop_In in Hx as [[] | (s & Hs & ->)]. simpl.
  split; [exists s; auto|].
  repeat split; try lia.
  pose proof (priced_items_length (prices_of prices_db (id s)) ings). lia.
Qed.

Lemma shops_loop_unique (shops : list Shop)
    (ings : list RecipeService.Ingredient)
    (acc : list (pystr * ShopTotal)) :
  NoDup (List.map fst acc ++ List.map id shops) ->
  shops_loop lower prices_db shops ings acc
  = acc ++ List.map
             (fun s => (id s, Notions.shop_total lower prices_db ings s))
             shops.
Proof.
  revert acc. induction shops as [|s rest IH]; intros acc Hnd.
  - simpl. rewrite app_nil_r. reflexivity.
  - rewrite shops_loop_step.
    assert (Hnew : ~ In (id s) (List.map fst acc)).
    { intros Hin. apply NoDup_app in Hnd as (_ & Hd & _).
      apply (Hd (id s)); [apply list_elem_of_In, Hin|]. simpl. left. }
    rewrite (dict_set_new _ _ _ Hnew). rewrite IH.
    + rewrite <- app_assoc. reflexivity.
    + rewrite List.map_app. simpl. rewrite <- app_assoc. exact Hnd.
Qed.

(** X11: when the ids of the shop base are pairwise different, the dict of
    [get_prices_for_recipe] has one entry for each shop, in the order of the
    base, also for a shop that prices none of the ingredients. *)
Theorem get_prices_for_recipe_one_per_shop
    (ings : list RecipeService.Ingredient) :
  NoDup (List.map id shops_db) ->
  get_prices_for_recipe lower shops_db prices_db ings
  = List.map (fun s => (id s, Notions.shop_total lower prices_db ings s))
      shops_db.
Proof.
  intros Hnd. unfold get_prices_for_recipe.
  rewrite shops_loop_unique; [reflexivity | exact Hnd].
Qed.

(** X12: [find_cheapest_shop_for_recipe] returns no shop only when the shop
    base is empty.  The shop it returns is an entry of the dict of totals;
    when some shop has a positive total its total is positive and the least of
    the positive totals; when no shop has a positive total it is the first
    shop of the dict. *)
Theorem find_cheapest_shop_for_recipe_result
    (ings : list RecipeService.Ingredient) :
  match find_cheapest_shop_for_recipe lower shops_db prices_db ings with
  | None => shops_db = []
  | Some x =>
    In x (get_prices_for_recipe lower shops_db prices_db ings)
    /\ Forall
         (fun y => 0 < total_price (snd y) ->
                   0 < total_price (snd x)
                   /\ total_price (snd x) <= total_price (snd y))
         (get_prices_for_recipe lower shops_db prices_db ings)
    /\ (Forall (fun y => total_price (snd y) <= 0)
          (get_prices_for_recipe lower shops_db prices_db ings) ->
        head (get_prices_for_recipe lower shops_db prices_db ings) = Some x)
  end.
Proof.
  destruct (find_cheapest_shop_for_recipe lower shops_db prices_db ings)
    as [x|] eqn:E.
  - pose proof (find_cheapest_shop_for_recipe_least lower shops_db
                  prices_db ings x E) as [Hin Hmin].
    split; [exact Hin|]. split.
    + apply List.Forall_forall. intros y Hy. apply Hmin, Hy.
    + intros Hall.
      rewrite <- (find_cheapest_shop_for_recipe_unpriced lower shops_db
                    prices_db ings Hall).
      exact E.
  - unfold find_cheapest_shop_for_recipe in E. cbv zeta in E.
    destruct (get_prices_for_recipe lower shops_db prices_db ings)
      as [|b l] eqn:Ep; [|discriminate].
    destruct shops_db as [|s rest]; [reflexivity|].
    unfold get_prices_for_recipe in Ep. rewrite shops_loop_step in Ep.
    exfalso. revert Ep. apply shops_loop_nonempty, dict_set_nonempty.
Qed.

(** X13: a product name that is empty once lower-cased is never without a
    price in a table that is not empty: when no key is empty after
    lower-casing, it gets the price of the first entry of the table. *)
Theorem find_product_price_empty_name (table : price_table)
    (product key : pystr) (price : Z) (rest : price_table) :
  lower product = [] ->
  table = (key, price) :: rest ->
  (exists p, _find_product_price lower table product = Some p)
  /\ (Forall (fun e => lower (fst e) <> []) table ->
      _find_product_price lower table product = Some price).
Proof.
  intros Hp ->. unfold _find_product_price. rewrite Hp.
  split.
  - destruct (exact_loop lower ((key, price) :: rest) []) as [p|];
      [eauto|].
    simpl. rewrite PyStrFacts.str_in_empty. simpl. eauto.
  - intros Hall.
    assert (He : exact_loop lower ((key, price) :: rest) [] = None).
    { induction Hall as [|[k v] l Hk Hl IH]; simpl; [reflexivity|].
      simpl in Hk. destruct (lower k) as [|c cs]; [congruence|]. exact IH. }
    rewrite He. simpl. rewrite PyStrFacts.str_in_empty. reflexivity.
Qed.

End RecipePrices.

(** The ids of the built-in shop base are pairwise different; for the
    ingredients of r_001 the dict of totals has the five shops in the
    order of the base. *)
Lemma get_prices_for_recipe_one_per_shop_witness :
  NoDup (List.map ShopService.id ShopService.MOCK_SHOPS)
  /\ List.map fst
       (ShopService.get_prices_for_recipe PyStr.py_lower
          ShopService.MOCK_SHOPS ShopService.MOCK_PRICES
          (RecipeService.ingredients RecipeService.r_001))
     = List.map ShopService.id ShopService.MOCK_SHOPS.
Proof.
  assert (Hnd : NoDup (List.map ShopService.id ShopService.MOCK_SHOPS)).
  { apply (bool_decide_unpack _). vm_compute. exact I. }
  split; [exact Hnd|].
  rewrite (get_prices_for_recipe_one_per_shop PyStr.py_lower
             ShopService.MOCK_SHOPS ShopService.MOCK_PRICES
             (RecipeService.ingredients RecipeService.r_001) Hnd).
  rewrite List.map_map. reflexivity.
Defined.

(** The empty product name in the table of shop_001: it gets 289, the
    price of the first entry, "Куриное филе". *)
Lemma find_product_price_empty_name_witness :
  PyStr.py_lower [] = []
  /\ ShopService.prices_shop_001
     = (PyStr.lit "Куриное филе", 289) :: tl ShopService.prices_shop_001
  /\ ShopService._find_product_price PyStr.py_lower
       ShopService.prices_shop_001 [] = Some 289.
Proof.
  assert (H1 : PyStr.py_lower [] = []) by reflexivity.
  assert (H2 : ShopService.prices_shop_001
               = (PyStr.lit "Куриное филе", 289)
                   :: tl ShopService.prices_shop_001) by reflexivity.
  split; [exact H1|]. split; [exact H2|].
  apply (find_product_price_empty_name PyStr.py_lower _ _ _ _ _ H1 H2).
  apply (bool_decide_unpack _). vm_compute. exact I.
Defined.

(* ===================================================================== *)
(** * The distance in exact arithmetic *)
(* ===================================================================== *)

Module HaversineBounds.
Import Haversine.
Local Open Scope R_scope.

Lemma sin_half_sqr (x : R) : sin (x / 2) ^ 2 = (1 - cos x) / 2.
Proof.
  pose proof (cos_2a_sin (x / 2)) as H.
  replace (2 * (x / 2)) with x in H by field.
  rewrite H. field.
Qed.

Lemma radians_minus (x y : R) : radians (x - y) = radians x - radians y.
Proof. unfold radians. ring. Qed.

(** The spherical law of cosines keeps its value between -1 and 1. *)
Lemma central_cos_bound (s1 c1 s2 c2 k : R) :
  s1 * s1 + c1 * c1 = 1 -> s2 * s2 + c2 * c2 = 1 -> -1 <= k <= 1 ->
  -1 <= s1 * s2 + c1 * c2 * k <= 1.
Proof.
  intros H1 H2 Hk.
  assert (Hk2 : 0 <= 1 - k * k) by nra.
  assert (Hsq : (s1 * s2 + c1 * c2 * k) * (s1 * s2 + c1 * c2 * k) <= 1).
  { pose proof (Rle_0_sqr (s1 * c2 - c1 * s2 * k)) as Ha. unfold Rsqr in Ha.
    pose proof (Rle_0_sqr (c1 * s2)) as Hb. unfold Rsqr in Hb.
    pose proof (Rle_0_sqr (c1 * c2)) as Hc. unfold Rsqr in Hc.
    pose proof (Rmult_le_pos _ _ Hb Hk2) as Hb'.
    pose proof (Rmult_le_pos _ _ Hc Hk2) as Hc'.
    replace 1 with ((s1 * s1 + c1 * c1) * (s2 * s2 + c2 * c2))
      by (rewrite H1, H2; ring).
    nra. }
  nra.
Qed.

(** The quantity [a] of the formula. *)
Lemma haversine_a_bound (lat1 lon1 lat2 lon2 : R) :
  0 <= sin (radians (lat2 - lat1) / 2) ^ 2
       + cos (radians lat1) * cos (radians lat2)
         * sin (radians (lon2 - lon1) / 2) ^ 2 <= 1.
Proof.
  rewrite !sin_half_sqr, radians_minus, cos_minus.
  pose proof (sin2_cos2 (radians lat1)) as H1. unfold Rsqr in H1.
  pose proof (sin2_cos2 (radians lat2)) as H2. unfold Rsqr in H2.
  pose proof (COS_bound (radians (lon2 - lon1))) as Hk.
  pose proof (central_cos_bound _ _ _ _ _ H1 H2 Hk) as HX.
  nra.
Qed.

(** In exact arithmetic no call of [math] is outside its domain: the
    computation on floats, read on the real numbers, always gives the
    value of the formula.  The [ValueError] of the square roots is an
    effect of rounding. *)
Lemma exact_distance (lat1 lon1 lat2 lon2 : R) :
  PyFloat._calculate_haversine_distance PyFloat.exact lat1 lon1 lat2 lon2
  = Some (_calculate_haversine_distance lat1 lon1 lat2 lon2).
Proof.
  pose proof (haversine_a_bound lat1 lon1 lat2 lon2) as [Hlow Hhigh].
  unfold PyFloat._calculate_haversine_distance, PyFloat.EARTH_RADIUS_KM,
    _calculate_haversine_distance, EARTH_RADIUS_KM.
  cbn [PyFloat.exact PyFloat.of_decimal PyFloat.add PyFloat.sub PyFloat.mul
       PyFloat.div PyFloat.sqr PyFloat.radians PyFloat.sin PyFloat.cos
       PyFloat.sqrt PyFloat.atan2].
  assert (H2 : Q2R 2 = 2) by (unfold Q2R; cbn; lra).
  assert (H1 : Q2R 1 = 1) by (unfold Q2R; cbn; lra).
  assert (HR : Q2R 6371 = 6371) by (unfold Q2R; cbn; lra).
  rewrite H2, H1, HR. cbv zeta.
  destruct (Rle_dec 0 _) as [_|Hno]; [|exfalso; exact (Hno Hlow)].
  destruct (Rle_dec 0 _) as [_|Hno]; [reflexivity | exfalso; apply Hno; lra].
Qed.

(** So that on the real numbers the search of shops always returns, and
    returns what the search on the formula returns. *)
Lemma exact_find_nearby_shops (shops_db : list ShopService.Shop)
    (latitude longitude radius_km : R) (limit : Z) :
  Calls.find_nearby_shops PyFloat.exact shops_db latitude longitude
    radius_km limit
  = Py.Returned (find_nearby_shops shops_db latitude longitude radius_km
                   limit).
Proof.
  assert (Hloop : forall shops acc,
            Calls.nearby_loop PyFloat.exact shops latitude longitude
              radius_km acc
            = Py.Returned
                (ShopService.nearby_loop R _calculate_haversine_distance
                   Q2R Rleb round2 shops latitude longitude radius_km acc)).
  { induction shops as [|s rest IH]; intros acc; [reflexivity|].
    cbn [Calls.nearby_loop ShopService.nearby_loop].
    unfold Calls.shop_distance, ShopService.shop_distance.
    rewrite exact_distance.
    cbn [PyFloat.exact PyFloat.of_decimal PyFloat.leb PyFloat.round2].
    destruct (Rleb _ radius_km); apply IH. }
  unfold Calls.find_nearby_shops, find_nearby_shops,
    ShopService.find_nearby_shops.
  rewrite Hloop. reflexivity.
Qed.

End HaversineBounds.

(* ===================================================================== *)
(** * The AI dietician service *)
(* ===================================================================== *)

Module GPTExamples.
Import PyStr PyMore GPTService.

Example str_of_int_samples :
  str_of_int 7 = lit "7" /\ str_of_int 0 = lit "0"
  /\ str_of_int (-3) = lit "-3" /\ str_of_int 140 = lit "140".
Proof. vm_compute. repeat split. Qed.

Example diagnosis_context_gout_celiac :
  _build_diagnosis_context false true true
  = lit "Диагнозы пользователя: подагра (нужны продукты с низким "
    ++ lit "содержанием пуринов < 100мг/100г), целиакия (нужны "
    ++ lit "безглютеновые продукты).".
Proof. vm_compute. reflexivity. Qed.

End GPTExamples.

Section GPTProperties.
Import PyStr PyMore GPTService.
Variable OPENAI_AVAILABLE : bool.
Variable openai_api_key : pystr.
Variable create : ChatRequest -> ApiResult.

(** X15: the diagnosis context of a prompt names a diagnosis exactly when its
    flag is active, and so do the dietary requirements of a meal plan; the
    sentence for a user without diagnoses is used exactly when no flag is
    active. *)
Theorem diagnosis_texts_name_active_flags (d g c : bool) :
  str_in (lit "диабет") (_build_diagnosis_context d g c) = d
  /\ str_in (lit "подагра") (_build_diagnosis_context d g c) = g
  /\ str_in (lit "целиакия") (_build_diagnosis_context d g c) = c
  /\ str_eqb (_build_diagnosis_context d g c)
       (lit "Пользователь без специальных диагнозов.")
     = negb (d || g || c)
  /\ str_in (lit "гликемический") (_build_dietary_requirements d g c) = d
  /\ str_in (lit "пуринов") (_build_dietary_requirements d g c) = g
  /\ str_in (lit "глютена") (_build_dietary_requirements d g c) = c
  /\ str_eqb (_build_dietary_requirements d g c)
       (lit "Сбалансированное питание средиземноморской диеты.")
     = negb (d || g || c).
Proof. destruct d, g, c; vm_compute; repeat split. Qed.

(** X16: without the library or without an API key, [ask_dietician] does not
    consult the API: its answer is the same for every question, every celiac
    flag and every token limit.  The answer has the tips for gout exactly
    under gout, the tips for diabetes exactly under diabetes, the general tip
    exactly under neither, and always ends with the advice to see a doctor. *)
Theorem ask_dietician_offline (question question' : pystr)
    (d g c c' : bool) (limit limit' : option Z)
    (create' : ChatRequest -> ApiResult) :
  unavailable OPENAI_AVAILABLE openai_api_key = true ->
  let answer :=
    ask_dietician OPENAI_AVAILABLE openai_api_key create question
      d g c limit in
  answer
  = ask_dietician OPENAI_AVAILABLE openai_api_key create' question'
      d g c' limit'
  /\ str_in (lit "При подагре рекомендуется") answer = g
  /\ str_in (lit "При диабете выбирайте") answer = d
  /\ str_in (lit "Рекомендуем средиземноморскую диету") answer
     = negb (g || d)
  /\ startswith
       (rev (lit "Обязательно проконсультируйтесь с врачом!"))
       (rev answer) = true.
Proof.
  intros Hoff answer. unfold answer, ask_dietician. rewrite Hoff.
  split; [unfold _get_fallback_response; reflexivity|].
  destruct d, g; vm_compute; repeat split.
Qed.

Lemma occurs_fifth (a b c e q r : pystr) :
  Spec.occurs q (a ++ b ++ c ++ e ++ q ++ r).
Proof.
  exists (a ++ b ++ c ++ e), r.
  rewrite <- (app_assoc a), <- (app_assoc b), <- (app_assoc c). reflexivity.
Qed.

Lemma occurs_prefix (a r : pystr) : Spec.occurs a (a ++ r).
Proof. exists [], r. reflexivity. Qed.

(** X17: when the API is consulted, an answer is returned whatever the API
    does: its content without the white space around it, or the fixed apology
    when the call raises.  The request has the system prompt and a user prompt
    that holds the question and the diagnosis context as they are; the token
    limit sent is the caller's, with [None] and 0 both replaced by 500. *)
Theorem ask_dietician_online (question : pystr) (d g c : bool)
    (limit : option Z) :
  unavailable OPENAI_AVAILABLE openai_api_key = false ->
  ask_dietician OPENAI_AVAILABLE openai_api_key create question d g c limit
  = match create (dietician_request question d g c limit) with
    | ApiContent content => strip content
    | _ => _get_error_response
    end
  /\ messages (dietician_request question d g c limit)
     = [(lit "system", SYSTEM_PROMPT);
        (lit "user", dietician_prompt question d g c)]
  /\ Spec.occurs question (dietician_prompt question d g c)
  /\ Spec.occurs (_build_diagnosis_context d g c)
       (dietician_prompt question d g c)
  /\ max_tokens (dietician_request question d g c limit)
     = match limit with
       | Some 0 | None => 500
       | Some n => n
       end.
Proof.
  intros Hon. unfold ask_dietician. rewrite Hon.
  split; [|split; [|split; [|split]]].
  - destruct (create (dietician_request question d g c limit)); reflexivity.
  - reflexivity.
  - unfold dietician_prompt. cbv zeta. apply occurs_fifth.
  - unfold dietician_prompt. cbv zeta. apply occurs_prefix.
  - unfold dietician_request, max_tokens, int_or.
    destruct limit as [[| |]|]; reflexivity.
Qed.

(** X18: [generate_meal_plan] asks the API for a plan of 1 to 14 days whatever
    number the caller gives, and the plan it falls back to when the API fails
    is for that limited number; but without the API the simplified plan is
    written for the number as given, out of range or not. *)
Theorem generate_meal_plan_days (days : Z) (d g c : bool) :
  (unavailable OPENAI_AVAILABLE openai_api_key = true ->
   generate_meal_plan OPENAI_AVAILABLE openai_api_key create days d g c
   = _get_fallback_meal_plan days)
  /\ (unavailable OPENAI_AVAILABLE openai_api_key = false ->
      exists days',
        1 <= days' <= 14
        /\ (1 <= days <= 14 -> days' = days)
        /\ (days < 1 -> days' = 1)
        /\ (14 < days -> days' = 14)
        /\ generate_meal_plan OPENAI_AVAILABLE openai_api_key create
             days d g c
           = match create (meal_plan_request days' d g c) with
             | ApiContent content => strip content
             | _ => _get_fallback_meal_plan days'
             end).
Proof.
  unfold generate_meal_plan. split; intros H; rewrite H; [reflexivity|].
  exists (Z.min (Z.max 1 days) 14).
  split; [lia|]. split; [lia|]. split; [lia|]. split; [lia|].
  cbv zeta.
  destruct (create (meal_plan_request (Z.min (Z.max 1 days) 14) d g c));
    reflexivity.
Qed.

End GPTProperties.

(** The service without API key, as with the default settings. *)
Lemma ask_dietician_offline_witness :
  GPTService.unavailable true [] = true
  /\ PyStr.str_in (PyStr.lit "При подагре рекомендуется")
       (GPTService.ask_dietician true [] (fun _ => GPTService.ApiError)
          (PyStr.lit "Что можно есть?") false true true None)
     = true.
Proof.
  assert (H : GPTService.unavailable true [] = true) by reflexivity.
  split; [exact H|].
  apply (ask_dietician_offline true [] (fun _ => GPTService.ApiError)
           (PyStr.lit "Что можно есть?") [] false true true false
           None None (fun _ => GPTService.ApiError) H).
Defined.

(** The service with a key and an API that answers. *)
Lemma ask_dietician_online_witness :
  GPTService.unavailable true (PyStr.lit "sk-key") = false
  /\ GPTService.ask_dietician true (PyStr.lit "sk-key")
       (fun _ => GPTService.ApiContent (PyStr.lit "  Да.  "))
       (PyStr.lit "Можно ли рис?") true false false (Some 0)
     = PyStr.lit "Да.".
Proof.
  assert (H : GPTService.unavailable true (PyStr.lit "sk-key") = false)
    by reflexivity.
  split; [exact H|].
  destruct (ask_dietician_online true (PyStr.lit "sk-key")
              (fun _ => GPTService.ApiContent (PyStr.lit "  Да.  "))
              (PyStr.lit "Можно ли рис?") true false false (Some 0) H)
    as [Hr _].
  rewrite Hr. vm_compute. reflexivity.
Defined.

(* ===================================================================== *)
(** * The rate limiter *)
(* ===================================================================== *)

Section RateLimitProperties.
Variable calls period : Z.
Context {Args Res : Type}.
Variable func : Args -> Res.
Variable user_of : Args -> option Z.

Lemma run_app (h : gmap Z (list Q)) (l1 l2 : list (Args * Q)) :
  Middleware.run calls period func user_of h (l1 ++ l2)
  = (fst (Middleware.run calls period func user_of
            (fst (Middleware.run calls period func user_of h l1)) l2),
     snd (Middleware.run calls period func user_of h l1)
     ++ snd (Middleware.run calls period func user_of
               (fst (Middleware.run calls period func user_of h l1)) l2)).
Proof.
  revert h. induction l1 as [|[a t] l1 IH]; intros h; simpl.
  - destruct (Middleware.run calls period func user_of h l2); reflexivity.
  - destruct (Middleware.wrapper calls period func user_of h a t) as [h' r].
    rewrite IH.
    destruct (Middleware.run calls period func user_of h' l1) as [h1 log1].
    simpl.
    destruct (Middleware.run calls period func user_of h1 l2); reflexivity.
Qed.

Lemma run_times_app (u : Z) (l1 l2 : list (Args * Q * bool)) :
  Middleware.run_times user_of u (l1 ++ l2)
  = Middleware.run_times user_of u l1 ++ Middleware.run_times user_of u l2.
Proof.
  unfold Middleware.run_times. rewrite List.filter_app, List.map_app.
  reflexivity.
Qed.

(** What is recent at a later time was recent before. *)
Lemma recent_earlier (s t' x : Q) :
  (s <= t')%Q ->
  Middleware.recent period t' x = true -> Middleware.recent period s x = true.
Proof.
  unfold Middleware.recent. intros Hle.
  destruct (Qlt_le_dec (t' - x) (inject_Z period)) as [H1|H1];
    [|discriminate].
  destruct (Qlt_le_dec (s - x) (inject_Z period)) as [H2|H2];
    [reflexivity|].
  intros _. exfalso. Lqa.lra.
Qed.

Lemma filter_recent_twice (s t' : Q) (l : list Q) :
  (s <= t')%Q ->
  List.filter (Middleware.recent period t')
    (List.filter (Middleware.recent period s) l)
  = List.filter (Middleware.recent period t') l.
Proof.
  intros Hle. induction l as [|x l IH]; simpl; [reflexivity|].
  destruct (Middleware.recent period s x) eqn:Es; simpl.
  - rewrite IH. reflexivity.
  - destruct (Middleware.recent period t' x) eqn:Et; [|exact IH].
    apply (recent_earlier s t' x Hle) in Et. congruence.
Qed.

Lemma sorted_snoc {A : Type} (R : A -> A -> Prop) (l : list A) (x : A) :
  StronglySorted R (l ++ [x]) ->
  StronglySorted R l /\ Forall (fun y => R y x) l.
Proof.
  induction l as [|y l IH]; simpl; intros H.
  - split; constructor.
  - apply StronglySorted_inv in H as [Hs Hy]. destruct (IH Hs) as [Hl Hx].
    apply Forall_app in Hy as [Hy1 Hy2]. apply Forall_cons in Hy2 as [Hyx _].
    split; constructor; assumption.
Qed.

(** After a series of calls at times that do not decrease, the history
    kept for a user and the times at which [func] was run for the user
    have the same recent part, at any time that is not before the last
    call. *)
Lemma run_history_recent (events : list (Args * Q)) (u : Z) (t' : Q) :
  StronglySorted Qle (List.map snd events) ->
  u <> 0 ->
  Forall (fun e => (snd e <= t')%Q) events ->
  List.filter (Middleware.recent period t')
    (default []
       (fst (Middleware.run calls period func user_of ∅ events) !! u))
  = List.filter (Middleware.recent period t')
      (Middleware.run_times user_of u
         (snd (Middleware.run calls period func user_of ∅ events))).
Proof.
  intros Hsorted Hu. revert t' Hsorted.
  induction events as [|[a s] events IH] using rev_ind;
    intros t' Hsorted Hbound; [reflexivity|].
  rewrite List.map_app in Hsorted. simpl in Hsorted.
  apply sorted_snoc in Hsorted as [Hsorted Hprev].
  apply Forall_app in Hbound as [Hb1 Hb2].
  apply Forall_cons in Hb2 as [Hst _]. simpl in Hst.
  assert (Hs : Forall (fun e => (snd e <= s)%Q) events).
  { apply List.Forall_forall. intros e He.
    rewrite List.Forall_forall in Hprev. apply Hprev.
    apply List.in_map, He. }
  pose proof (IH s Hsorted Hs) as IHs.
  pose proof (IH t' Hsorted Hb1) as IHt.
  rewrite run_app.
  destruct (Middleware.run calls period func user_of ∅ events)
    as [h1 log1]. simpl in IHs, IHt |- *.
  unfold Middleware.wrapper.
  destruct (user_of a) as [v|] eqn:Ev.
  - destruct (v =? 0) eqn:Ev0.
    + (* a user id that is not counted *)
      simpl. rewrite run_times_app. unfold Middleware.run_times at 2.
      simpl. rewrite Ev. apply Z.eqb_eq in Ev0. subst v.
      destruct (0 =? u) eqn:E0; [apply Z.eqb_eq in E0; congruence|].
      simpl. rewrite app_nil_r. exact IHt.
    + destruct (v =? u) eqn:Evu.
      * apply Z.eqb_eq in Evu. subst v. cbv zeta.
        destruct (Z.of_nat
                    (length
                       (List.filter (Middleware.recent period s)
                          (default [] (h1 !! u)))) >=? calls).
        -- (* refused *)
           simpl. rewrite lookup_insert_eq. simpl.
           rewrite run_times_app. unfold Middleware.run_times at 2. simpl.
           rewrite app_nil_r, (filter_recent_twice s t' _ Hst). exact IHt.
        -- (* run *)
           simpl. rewrite lookup_insert_eq. simpl.
           rewrite run_times_app. unfold Middleware.run_times at 2. simpl.
           rewrite Ev, Z.eqb_refl. simpl.
           rewrite !List.filter_app, (filter_recent_twice s t' _ Hst), IHt.
           reflexivity.
      * assert (Hvu : v <> u) by (apply Z.eqb_neq, Evu). cbv zeta.
        destruct (Z.of_nat
                    (length
                       (List.filter (Middleware.recent period s)
                          (default [] (h1 !! v)))) >=? calls);
          simpl; rewrite lookup_insert_ne by exact Hvu;
          rewrite run_times_app; unfold Middleware.run_times at 2; simpl;
          rewrite ?Ev, ?Evu; simpl; rewrite app_nil_r; exact IHt.
  - simpl. rewrite run_times_app. unfold Middleware.run_times at 2. simpl.
    rewrite Ev. simpl. rewrite app_nil_r. exact IHt.
Qed.

(** X19: the rate limiter is a sliding window: after any series of calls at
    times that do not decrease, a call of a user with an id that is not 0 runs
    the decorated function exactly when fewer than [calls] of the calls that
    ran it for this user are less than [period] seconds old. *)
Theorem rate_limit_sliding_window (events : list (Args * Q)) (args : Args)
    (now : Q) (u : Z) :
  StronglySorted Qle (List.map snd (events ++ [(args, now)])) ->
  user_of args = Some u ->
  u <> 0 ->
  is_Some
    (snd (Middleware.wrapper calls period func user_of
            (fst (Middleware.run calls period func user_of ∅ events))
            args now))
  <-> Z.of_nat
        (length
           (List.filter (Middleware.recent period now)
              (Middleware.run_times user_of u
                 (snd (Middleware.run calls period func user_of ∅
                         events)))))
      < calls.
Proof.
  intros Hsorted Hargs Hu.
  rewrite List.map_app in Hsorted. simpl in Hsorted.
  apply sorted_snoc in Hsorted as [Hsorted Hprev].
  assert (Hs : Forall (fun e => (snd e <= now)%Q) events).
  { apply List.Forall_forall. intros e He.
    rewrite List.Forall_forall in Hprev. apply Hprev.
    apply List.in_map, He. }
  rewrite <- (run_history_recent events u now Hsorted Hu Hs).
  unfold Middleware.wrapper. rewrite Hargs.
  destruct (u =? 0) eqn:E0; [apply Z.eqb_eq in E0; congruence|].
  cbv zeta.
  destruct (Z.of_nat _ >=? calls) eqn:E; simpl.
  - rewrite Z.geb_leb in E. apply Z.leb_le in E.
    split; [intros [x Hx]; discriminate | lia].
  - rewrite Z.geb_leb in E. apply Z.leb_gt in E.
    split; [intros _; exact E | eauto].
Qed.

(** A call without user, or of the user with id 0, always runs the
    decorated function and leaves the history as it is. *)
Lemma rate_limit_anonymous (h : gmap Z (list Q)) (args : Args) (now : Q) :
  user_of args = None \/ user_of args = Some 0 ->
  Middleware.wrapper calls period func user_of h args now
  = (h, Some (func args)).
Proof.
  unfold Middleware.wrapper. intros [-> | ->]; reflexivity.
Qed.

End RateLimitProperties.

(** Two calls allowed in 60 seconds: after calls of user 7 at seconds 0
    and 10, both run, the call at second 20 is refused, two runs being
    recent. *)
Lemma rate_limit_sliding_window_witness :
  StronglySorted Qle
    (List.map snd ([(7, 0%Q); (7, 10%Q)] ++ [(7, 20%Q)]))
  /\ ~ is_Some
         (snd (Middleware.wrapper 2 60 (fun u : Z => u) Some
                 (fst (Middleware.run 2 60 (fun u : Z => u) Some ∅
                         [(7, 0%Q); (7, 10%Q)]))
                 7 20%Q)).
Proof.
  assert (Hs : StronglySorted Qle
                 (List.map snd ([(7, 0%Q); (7, 10%Q)] ++ [(7, 20%Q)]))).
  { simpl. repeat constructor; unfold Qle; simpl; lia. }
  split; [exact Hs|].
  rewrite (rate_limit_sliding_window 2 60 (fun u : Z => u) Some
             [(7, 0%Q); (7, 10%Q)] 7 20%Q 7 Hs eq_refl);
    [vm_compute; intros H; discriminate H | lia].
Defined.

(* ===================================================================== *)
(** * database.py: the users *)
(* ===================================================================== *)

Module DatabaseFacts.
Import Database.

Lemma find_telegram_id (rows : list User) (tid : Z) (u : User) :
  List.find (fun v => telegram_id v =? tid) rows = Some u ->
  In u rows /\ telegram_id u = tid.
Proof.
  intros H. apply List.find_some in H. destruct H as [Hin Heq].
  split; [exact Hin | lia].
Qed.

Lemma find_none_existsb (rows : list User) (tid : Z) :
  List.find (fun v => telegram_id v =? tid) rows = None ->
  existsb (fun v => telegram_id v =? tid) rows = false.
Proof.
  induction rows as [|v rows IH]; simpl; [reflexivity|].
  destruct (telegram_id v =? tid); [discriminate | exact IH].
Qed.

Lemma find_none_not_in (rows : list User) (tid : Z) :
  List.find (fun v => telegram_id v =? tid) rows = None ->
  ~ In tid (map telegram_id rows).
Proof.
  induction rows as [|v rows IH]; simpl; [tauto|].
  destruct (telegram_id v =? tid) eqn:E; [discriminate|].
  intros H [Hv | Hin]; [lia | exact (IH H Hin)].
Qed.

Lemma find_snoc_new (rows : list User) (tid : Z) (u : User) :
  List.find (fun v => telegram_id v =? tid) rows = None ->
  telegram_id u = tid ->
  List.find (fun v => telegram_id v =? tid) (rows ++ [u]) = Some u.
Proof.
  intros Hnone Hu. induction rows as [|v rows IH]; simpl in *.
  - rewrite Hu, Z.eqb_refl. reflexivity.
  - destruct (telegram_id v =? tid); [discriminate | exact (IH Hnone)].
Qed.

Lemma find_snoc_other (rows : list User) (tid : Z) (u : User) :
  telegram_id u <> tid ->
  List.find (fun v => telegram_id v =? tid) (rows ++ [u])
  = List.find (fun v => telegram_id v =? tid) rows.
Proof.
  intros Hu. induction rows as [|v rows IH]; simpl.
  - destruct (telegram_id u =? tid) eqn:E; [lia | reflexivity].
  - destruct (telegram_id v =? tid); [reflexivity | exact IH].
Qed.

Lemma in_bigint_true (n : Z) :
  BIGINT_MIN <= n <= BIGINT_MAX -> in_bigint n = true.
Proof. unfold in_bigint. intros [H1 H2]. apply andb_true_iff. lia. Qed.

Lemma in_bigint_false (n : Z) :
  in_bigint n = false <-> ~ BIGINT_MIN <= n <= BIGINT_MAX.
Proof.
  unfold in_bigint. rewrite andb_false_iff, Z.leb_gt, Z.leb_gt. lia.
Qed.

End DatabaseFacts.

Section DatabaseProperties.
Import Database.

(** X20: for a [telegram_id] that is a 64-bit integer, [get_or_create_user]
    never ends with an exception.  It returns a row of the table with the
    asked [telegram_id]: the row that [get_user_by_telegram_id] finds, the
    table staying as it is, or else a new last row with the given names,
    the next key and no diagnosis.  Asked again for the same
    [telegram_id], with whatever names, it returns the same row and
    changes nothing, and the rows of the other users are found as before.
    For every other [telegram_id] it ends with the [OverflowError] of the
    driver. *)
Theorem get_or_create_user_result (db : Session) (now tid : Z)
    (username' first_name' last_name' : option PyStr.pystr)
    (language_code' : PyStr.pystr) :
  (BIGINT_MIN <= tid <= BIGINT_MAX ->
   exists db' user,
     get_or_create_user db now tid username' first_name' last_name'
       language_code' = UserRow db' user
     /\ telegram_id user = tid
     /\ In user (users db')
     /\ match get_user_by_telegram_id db tid with
        | Some old => db' = db /\ user = old
        | None =>
          users db' = users db ++ [user]
          /\ next_user_id db' = next_user_id db + 1
          /\ id user = next_user_id db
          /\ (username user, first_name user, last_name user,
              language_code user)
             = (username', first_name', last_name', language_code')
          /\ (has_diabetes user, has_gout user, has_celiac user)
             = (false, false, false)
        end
     /\ (forall now2 un2 fn2 ln2 lc2,
           get_or_create_user db' now2 tid un2 fn2 ln2 lc2
           = UserRow db' user)
     /\ (forall other, other <> tid ->
           get_user_by_telegram_id db' other
           = get_user_by_telegram_id db other))
  /\ (~ BIGINT_MIN <= tid <= BIGINT_MAX ->
      get_or_create_user db now tid username' first_name' last_name'
        language_code' = OverflowError).
Proof.
  split.
  2: { intros Hout. unfold get_or_create_user.
       rewrite (proj2 (DatabaseFacts.in_bigint_false tid) Hout).
       reflexivity. }
  intros Hin. apply DatabaseFacts.in_bigint_true in Hin.
  unfold get_or_create_user, get_user_by_telegram_id. rewrite Hin.
  cbn [negb].
  destruct (List.find (fun u => telegram_id u =? tid) (users db))
    as [old|] eqn:Hfind.
  - exists db, old.
    destruct (DatabaseFacts.find_telegram_id _ _ _ Hfind) as [Hold Htid].
    split; [reflexivity|]. split; [exact Htid|]. split; [exact Hold|].
    split; [split; reflexivity|]. split.
    + intros. rewrite Hfind. reflexivity.
    + intros. reflexivity.
  - unfold create_user. rewrite Hin. cbn [negb].
    rewrite (DatabaseFacts.find_none_existsb _ _ Hfind).
    eexists. eexists. split; [reflexivity|]. cbn [telegram_id users].
    split; [reflexivity|]. split; [apply in_or_app; right; left; reflexivity|].
    split; [repeat (split; [reflexivity|]); reflexivity|]. split.
    + intros. cbn [users].
      rewrite DatabaseFacts.find_snoc_new;
        [reflexivity | exact Hfind | reflexivity].
    + intros other Hne. apply DatabaseFacts.find_snoc_other. cbn. lia.
Qed.

(** X21: the unique constraint and the primary key are kept without the
    database having to enforce them: on a table whose [telegram_id]s are
    pairwise different, and whose keys are pairwise different and below the
    next one, [get_or_create_user] leaves such a table.  It never ends
    with [IntegrityError], and with [OverflowError] only for a
    [telegram_id] that is no 64-bit integer, the table staying as it
    was. *)
Theorem get_or_create_user_keeps_unique (db : Session) (now tid : Z)
    (username' first_name' last_name' : option PyStr.pystr)
    (language_code' : PyStr.pystr)
    (Htids : NoDup (map telegram_id (users db)))
    (Hids : NoDup (map id (users db)))
    (Hnext : Forall (fun u => id u < next_user_id db) (users db)) :
  match get_or_create_user db now tid username' first_name' last_name'
          language_code' with
  | UserRow db' _ =>
    NoDup (map telegram_id (users db'))
    /\ NoDup (map id (users db'))
    /\ Forall (fun u => id u < next_user_id db') (users db')
  | IntegrityError => False
  | OverflowError => ~ BIGINT_MIN <= tid <= BIGINT_MAX
  end.
Proof.
  unfold get_or_create_user, get_user_by_telegram_id.
  destruct (in_bigint tid) eqn:Hin; cbn [negb];
    [|exact (proj1 (DatabaseFacts.in_bigint_false tid) Hin)].
  destruct (List.find (fun u => telegram_id u =? tid) (users db))
    as [old|] eqn:Hfind.
  - split; [exact Htids|]. split; [exact Hids | exact Hnext].
  - unfold create_user. rewrite Hin. cbn [negb].
    rewrite (DatabaseFacts.find_none_existsb _ _ Hfind).
    cbn [users next_user_id]. rewrite !map_app. cbn [map id telegram_id].
    split; [|split].
    + apply NoDup_app. split; [exact Htids|].
      split; [|apply NoDup_singleton].
      intros x Hx Hx'. apply list_elem_of_singleton in Hx'. subst x.
      apply list_elem_of_In in Hx.
      exact (DatabaseFacts.find_none_not_in _ _ Hfind Hx).
    + apply NoDup_app. split; [exact Hids|].
      split; [|apply NoDup_singleton].
      intros x Hx Hx'. apply list_elem_of_singleton in Hx'. subst x.
      apply list_elem_of_In, List.in_map_iff in Hx.
      destruct Hx as [u [Hu Hin']].
      rewrite List.Forall_forall in Hnext. specialize (Hnext u Hin'). lia.
    + apply Forall_app. split.
      * eapply Forall_impl; [exact Hnext|]. cbn. intros; lia.
      * constructor; [cbn; lia | constructor].
Qed.

End DatabaseProperties.

(** On the sample table of one user the three conditions hold; a second
    user is registered under the next key. *)
Lemma get_or_create_user_keeps_unique_witness :
  match Database.get_or_create_user Samples.sample_session 5 77 None
          None None (PyStr.lit "ru") with
  | Database.UserRow db' _ =>
    NoDup (map Database.telegram_id (Database.users db'))
    /\ NoDup (map Database.id (Database.users db'))
    /\ Forall (fun u => Database.id u < Database.next_user_id db')
         (Database.users db')
  | Database.IntegrityError => False
  | Database.OverflowError =>
    ~ Database.BIGINT_MIN <= 77 <= Database.BIGINT_MAX
  end.
Proof.
  apply (get_or_create_user_keeps_unique Samples.sample_session 5 77 None
           None None (PyStr.lit "ru")).
  - apply (bool_decide_unpack _). vm_compute. exact I.
  - apply (bool_decide_unpack _). vm_compute. exact I.
  - repeat constructor.
Defined.

(** The id 77 is a 64-bit integer and new to the sample table: it gets a
    row; the id 2^63 is none and gets the [OverflowError]. *)
Lemma get_or_create_user_result_witness :
  (exists db' user,
     Database.get_or_create_user Samples.sample_session 5 77 None None
       None (PyStr.lit "ru") = Database.UserRow db' user
     /\ Database.telegram_id user = 77)
  /\ Database.get_or_create_user Samples.sample_session 5 (2 ^ 63) None
       None None (PyStr.lit "ru") = Database.OverflowError.
Proof.
  pose proof (get_or_create_user_result Samples.sample_session 5 77 None
                None None (PyStr.lit "ru")) as [Hin _].
  pose proof (get_or_create_user_result Samples.sample_session 5 (2 ^ 63)
                None None None (PyStr.lit "ru")) as [_ Hout].
  split.
  - destruct Hin as [db' [user [H1 [H2 _]]]];
      [unfold Database.BIGINT_MIN, Database.BIGINT_MAX; lia|].
    exists db', user. split; [exact H1 | exact H2].
  - apply Hout. unfold Database.BIGINT_MIN, Database.BIGINT_MAX. lia.
Defined.

(* ===================================================================== *)
(** * handlers.py *)
(* ===================================================================== *)

Module HandlersFacts.
Import PyStr PyMore Database Handlers.

(** [replace] leaves a string in which [old] does not occur. *)
Lemma replace_absent (old new s : pystr) :
  str_in old s = false -> replace old new s = s.
Proof.
  unfold replace. induction s as [|ch s IH]; [reflexivity|].
  intros H. cbn [str_in] in H. apply orb_false_iff in H.
  destruct H as [Hhead Htail]. cbn [replace_from]. rewrite Hhead.
  rewrite (IH Htail). reflexivity.
Qed.

Lemma callback_route_cat (c : pystr) :
  callback_route (lit "cat_" ++ c)
  = RouteCategoryRecipes (replace_from (lit "cat_") [] 0 c).
Proof. vm_compute. reflexivity. Qed.

(** The row of a key is the first one with it when the keys are pairwise
    different. *)
Lemma update_row_find (rows : list User) (tid : Z) (u u' : User) :
  NoDup (map id rows) ->
  List.find (fun v => telegram_id v =? tid) rows = Some u ->
  telegram_id u' = tid ->
  forall t,
    List.find (fun v => telegram_id v =? t) (update_row rows (id u) u')
    = if t =? tid then Some u'
      else List.find (fun v => telegram_id v =? t) rows.
Proof.
  intros Hnd Hfind Htid t. induction rows as [|v rows IH]; [discriminate|].
  cbn [List.find] in Hfind. cbn [update_row].
  apply NoDup_cons in Hnd. destruct Hnd as [Hnotin Hnd'].
  destruct (telegram_id v =? tid) eqn:Ev.
  - injection Hfind as ->. rewrite Z.eqb_refl. cbn [List.find].
    rewrite Htid. rewrite (Z.eqb_sym tid t).
    destruct (t =? tid) eqn:Et; [reflexivity|].
    assert ((telegram_id u =? t) = false) as -> by lia. reflexivity.
  - destruct (List.find_some _ _ Hfind) as [Hin _].
    assert ((id v =? id u) = false) as ->.
    { apply Z.eqb_neq. intros Heq. apply Hnotin. cbn [map]. rewrite Heq.
      apply list_elem_of_In, List.in_map, Hin. }
    cbn [List.find]. destruct (telegram_id v =? t) eqn:Evt.
    + assert ((t =? tid) = false) as -> by lia. reflexivity.
    + exact (IH Hnd' Hfind).
Qed.

Lemma update_row_ids (rows : list User) (u' : User) (row_id : Z) :
  id u' = row_id ->
  map id (update_row rows row_id u') = map id rows.
Proof.
  intros Hid. induction rows as [|v rows IH]; [reflexivity|].
  cbn [update_row]. destruct (id v =? row_id) eqn:E; cbn [map].
  - f_equal. lia.
  - f_equal. exact IH.
Qed.

(** The three names of a diagnosis exclude one another. *)
Lemma diabetes_not_others (diagnosis : pystr) :
  str_eqb diagnosis (lit "diabetes") = true ->
  str_eqb diagnosis (lit "gout") = false
  /\ str_eqb diagnosis (lit "celiac") = false.
Proof.
  intros H. apply PyStrFacts.str_eqb_eq in H. subst diagnosis.
  split; vm_compute; reflexivity.
Qed.

Lemma gout_not_celiac (diagnosis : pystr) :
  str_eqb diagnosis (lit "gout") = true ->
  str_eqb diagnosis (lit "celiac") = false.
Proof.
  intros H. apply PyStrFacts.str_eqb_eq in H. subst diagnosis.
  vm_compute. reflexivity.
Qed.

(** One call of [toggle_diagnosis] on behalf of a registered user. *)
Lemma toggle_diagnosis_step (w : World) (now chat_id user_id : Z)
    (diagnosis : pystr) (user : User) :
  NoDup (map id (users (db w))) ->
  get_user_by_telegram_id (db w) user_id = Some user ->
  let w' := toggle_diagnosis w now chat_id user_id diagnosis in
  exists user',
    get_user_by_telegram_id (db w') user_id = Some user'
    /\ (has_diabetes user', has_gout user', has_celiac user')
       = (xorb (has_diabetes user) (str_eqb diagnosis (lit "diabetes")),
          xorb (has_gout user) (str_eqb diagnosis (lit "gout")),
          xorb (has_celiac user) (str_eqb diagnosis (lit "celiac")))
    /\ (forall t, t <> user_id ->
          get_user_by_telegram_id (db w') t
          = get_user_by_telegram_id (db w) t)
    /\ map id (users (db w')) = map id (users (db w))
    /\ user_states w' = user_states w
    /\ exists text',
         actions w'
         = actions w
           ++ [Send (next_message_id w) chat_id text' HTML
                 (Some (create_settings_keyboard user'))].
Proof.
  intros Hnd Huser. unfold toggle_diagnosis. rewrite Huser.
  pose proof (proj2 (DatabaseFacts.find_telegram_id _ _ _ Huser)) as Htid.
  destruct (str_eqb diagnosis (lit "diabetes")) eqn:Ed;
    [destruct (diabetes_not_others _ Ed) as [-> ->]
    |destruct (str_eqb diagnosis (lit "gout")) eqn:Eg;
     [rewrite (gout_not_celiac _ Eg)
     |destruct (str_eqb diagnosis (lit "celiac")) eqn:Ec]].
  4: { (* no column changes *)
    cbv zeta. unfold show_settings. rewrite Huser. exists user.
    cbn [db user_states actions send_message]. rewrite !xorb_false_r.
    split; [exact Huser|]. split; [reflexivity|].
    split; [reflexivity|]. split; [reflexivity|].
    split; [reflexivity|]. eexists. reflexivity. }
  all: cbv zeta; unfold show_settings, get_user_by_telegram_id;
    cbn [db set_db users];
    match goal with
    | |- context [update_row _ _ ?u'] =>
      pose proof (update_row_find (users (db w)) user_id user u' Hnd
                    Huser Htid) as Hfind;
      rewrite (Hfind user_id), Z.eqb_refl; exists u'
    end;
    cbn [db user_states actions send_message set_db users
         has_diabetes has_gout has_celiac with_diagnoses];
    (split; [rewrite (Hfind user_id), Z.eqb_refl; reflexivity|]);
    (split; [rewrite ?xorb_false_r, ?xorb_true_r; reflexivity|]);
    (split;
     [intros t Ht; rewrite (Hfind t);
      assert ((t =? user_id) = false) as -> by lia; reflexivity|]);
    (split; [apply update_row_ids; reflexivity|]);
    (split; [reflexivity|]); eexists; reflexivity.
Qed.

Lemma user_states_send_message (w : World) (chat_id : Z) (text' : pystr)
    (parse_mode : option pystr) (reply_markup : option Keyboard) :
  user_states (send_message w chat_id text' parse_mode reply_markup)
  = user_states w.
Proof. reflexivity. Qed.


(** [del] on a user with a state. *)
Lemma del_state_present (w : World) (user_id : Z)
    (state : gmap pystr pystr) :
  user_states w !! user_id = Some state ->
  del_state w user_id
  = Done (set_user_states w (delete user_id (user_states w))).
Proof. intros H. unfold del_state. rewrite H. reflexivity. Qed.


End HandlersFacts.

Section HandlersProperties.
Import PyStr PyMore Database Handlers.

(** X22: every button of the four shared keyboards leads to a handler: those
    of the main menu to the nine functions of the menu, those of the settings,
    whatever the user, to [toggle_diagnosis] with the name of the diagnosis
    that the button shows, those of the categories to
    [handle_category_recipes] with the five keys of its [category_names], in
    their order, and the buttons back to [show_main_menu]. *)
Theorem keyboard_buttons_routed (user : User) :
  routes create_main_menu_keyboard
  = [RouteSearchRecipesStart; RouteDailyRecipe; RouteFindShopsStart;
     RouteComparePricesStart; RouteViewDiary; RouteShoppingList;
     RouteAskDieticianStart; RouteSettings; RouteHelp]
  /\ routes (create_settings_keyboard user)
     = [RouteToggleDiagnosis (lit "diabetes");
        RouteToggleDiagnosis (lit "gout");
        RouteToggleDiagnosis (lit "celiac"); RouteMainMenu]
  /\ routes create_back_to_menu_keyboard = [RouteMainMenu]
  /\ routes create_category_keyboard
     = map RouteCategoryRecipes category_names_keys ++ [RouteMainMenu].
Proof.
  split; [vm_compute; reflexivity|].
  split; [|split; vm_compute; reflexivity].
  unfold routes, create_settings_keyboard, add, button.
  cbn [length chunks firstn skipn app concat map callback_data].
  vm_compute. reflexivity.
Qed.

(** X23: the first button of the keyboards that [handle_search_recipes_start],
    [handle_view_diary] and [handle_shopping_list] send leads nowhere:
    [handle_callback] has no branch for its data and only logs a warning.
    Their second button leads back to the main menu. *)
Theorem inline_buttons_unrouted :
  routes search_recipes_start_keyboard = [UnknownCallback; RouteMainMenu]
  /\ routes view_diary_keyboard = [UnknownCallback; RouteMainMenu]
  /\ routes shopping_list_keyboard = [UnknownCallback; RouteMainMenu].
Proof. repeat split; vm_compute; reflexivity. Qed.

(** X24: a callback [cat_] followed by a category in which [cat_] does not
    occur is routed to [handle_category_recipes] with that category. *)
Theorem category_callback_round_trip (category : pystr) :
  str_in (lit "cat_") category = false ->
  callback_route (lit "cat_" ++ category) = RouteCategoryRecipes category.
Proof.
  intros H. rewrite HandlersFacts.callback_route_cat.
  f_equal. exact (HandlersFacts.replace_absent _ _ _ H).
Qed.

(** X25: [toggle_diagnosis] for a registered user, on a table with pairwise
    different keys, negates the flag that it names and no other, none for a
    name that is none of the three; the rows of the other users are found as
    before, the states stay, and the one message it sends carries the settings
    keyboard of the row as it is after the change. *)
Theorem toggle_diagnosis_one_flag (w : World) (now chat_id user_id : Z)
    (diagnosis : pystr) (user : User)
    (Hids : NoDup (map id (users (db w))))
    (Huser : get_user_by_telegram_id (db w) user_id = Some user) :
  let w' := toggle_diagnosis w now chat_id user_id diagnosis in
  exists user',
    get_user_by_telegram_id (db w') user_id = Some user'
    /\ (has_diabetes user', has_gout user', has_celiac user')
       = (xorb (has_diabetes user) (str_eqb diagnosis (lit "diabetes")),
          xorb (has_gout user) (str_eqb diagnosis (lit "gout")),
          xorb (has_celiac user) (str_eqb diagnosis (lit "celiac")))
    /\ (forall t, t <> user_id ->
          get_user_by_telegram_id (db w') t
          = get_user_by_telegram_id (db w) t)
    /\ user_states w' = user_states w
    /\ exists text',
         actions w'
         = actions w
           ++ [Send (next_message_id w) chat_id text' HTML
                 (Some (create_settings_keyboard user'))].
Proof.
  intros w'.
  destruct (HandlersFacts.toggle_diagnosis_step w now chat_id user_id
              diagnosis user Hids Huser)
    as [user' [H1 [H2 [H3 [_ [H5 H6]]]]]].
  exists user'. split; [exact H1|]. split; [exact H2|].
  split; [exact H3|]. split; [exact H5 | exact H6].
Qed.

(** X26: two calls of [toggle_diagnosis] for the same user and diagnosis, at
    whatever times, leave the three flags of every user as they were, and the
    states; for a user who is not registered nothing changes at all. *)
Theorem toggle_diagnosis_twice (w : World) (now1 now2 chat_id user_id : Z)
    (diagnosis : pystr)
    (Hids : NoDup (map id (users (db w)))) :
  let w1 := toggle_diagnosis w now1 chat_id user_id diagnosis in
  let w2 := toggle_diagnosis w1 now2 chat_id user_id diagnosis in
  (forall t, flags_of w2 t = flags_of w t)
  /\ user_states w2 = user_states w
  /\ (get_user_by_telegram_id (db w) user_id = None -> w2 = w).
Proof.
  intros w1 w2.
  destruct (get_user_by_telegram_id (db w) user_id) as [user|] eqn:Huser.
  2: { assert (Hw1 : w1 = w).
       { unfold w1, toggle_diagnosis. rewrite Huser. reflexivity. }
       assert (Hw2 : w2 = w).
       { unfold w2. rewrite Hw1. unfold toggle_diagnosis. rewrite Huser.
         reflexivity. }
       rewrite Hw2. split; [reflexivity|]. split; reflexivity. }
  destruct (HandlersFacts.toggle_diagnosis_step w now1 chat_id user_id
              diagnosis user Hids Huser)
    as [user1 [Hu1 [Hf1 [Ho1 [Hi1 [Hs1 _]]]]]].
  fold w1 in Hu1, Ho1, Hi1, Hs1. rewrite <- Hi1 in Hids.
  destruct (HandlersFacts.toggle_diagnosis_step w1 now2 chat_id user_id
              diagnosis user1 Hids Hu1)
    as [user2 [Hu2 [Hf2 [Ho2 [_ [Hs2 _]]]]]].
  fold w2 in Hu2, Ho2, Hs2.
  split; [|split; [congruence | discriminate]].
  intros t. unfold flags_of. destruct (Z.eq_dec t user_id) as [->|Hne].
  - rewrite Hu2, Huser.
    injection Hf1 as Hd1 Hg1 Hc1. injection Hf2 as Hd2 Hg2 Hc2.
    rewrite Hd2, Hg2, Hc2, Hd1, Hg1, Hc1.
    rewrite !xorb_assoc, !xorb_nilpotent, !xorb_false_r. reflexivity.
  - rewrite (Ho2 t Hne), (Ho1 t Hne). reflexivity.
Qed.

End HandlersProperties.

(** The sample table has one key; its user switches diabetes on. *)
Lemma toggle_diagnosis_one_flag_witness :
  exists user',
    Database.get_user_by_telegram_id
      (Handlers.db
         (Handlers.toggle_diagnosis Samples.sample_world 9 42 42
            (PyStr.lit "diabetes"))) 42 = Some user'
    /\ Database.has_diabetes user' = true.
Proof.
  assert (Hids : NoDup (map Database.id
                          (Database.users
                             (Handlers.db Samples.sample_world)))).
  { apply (bool_decide_unpack _). vm_compute. exact I. }
  destruct (toggle_diagnosis_one_flag Samples.sample_world 9 42 42
              (PyStr.lit "diabetes") _ Hids eq_refl)
    as [user' [H1 [H2 _]]].
  exists user'. split; [exact H1|].
  injection H2 as Hd _ _. rewrite Hd. vm_compute. reflexivity.
Defined.

Lemma toggle_diagnosis_twice_witness :
  Handlers.flags_of
    (Handlers.toggle_diagnosis
       (Handlers.toggle_diagnosis Samples.sample_world 9 42 42
          (PyStr.lit "gout")) 10 42 42 (PyStr.lit "gout")) 42
  = Handlers.flags_of Samples.sample_world 42.
Proof.
  assert (Hids : NoDup (map Database.id
                          (Database.users
                             (Handlers.db Samples.sample_world)))).
  { apply (bool_decide_unpack _). vm_compute. exact I. }
  exact (proj1 (toggle_diagnosis_twice Samples.sample_world 9 10 42 42
                  (PyStr.lit "gout") Hids) 42).
Defined.

Lemma category_callback_round_trip_witness :
  Handlers.callback_route (PyStr.lit "cat_" ++ PyStr.lit "soup")
  = Handlers.RouteCategoryRecipes (PyStr.lit "soup").
Proof.
  apply (category_callback_round_trip (PyStr.lit "soup")).
  vm_compute. reflexivity.
Defined.

Section TextProperties.
Import PyStr PyMore Database Handlers.
Variable lower : pystr -> pystr.
Variable settings : Config.Settings.
Variable OPENAI_AVAILABLE : bool.
Variable openai_api_key : pystr.
Variable create : GPTService.ChatRequest -> GPTService.ApiResult.

Local Abbreviation body :=
  (handle_text_body lower settings OPENAI_AVAILABLE openai_api_key create).
Local Abbreviation handle :=
  (handle_text lower settings OPENAI_AVAILABLE openai_api_key create).


(** X28: the states that the start handlers set are the ones that
    [handle_text] looks for, with one exception: the text after
    [handle_search_recipes_start], [handle_ask_dietician_start] and
    [handle_compare_prices_start] goes to the matching [process_] function,
    the text after [handle_find_shops_start] is not read and is answered as
    [show_main_menu] does. *)
Theorem text_after_start (w : World) (chat_id user_id chat_id' : Z)
    (text' : pystr) :
  let message := {| from_user_id := user_id; message_chat_id := chat_id';
                    message_text := text' |} in
  let searching := handle_search_recipes_start w chat_id user_id in
  let asking := handle_ask_dietician_start w chat_id user_id in
  let comparing := handle_compare_prices_start w chat_id user_id in
  let locating := handle_find_shops_start w chat_id user_id in
  body searching message
  = process_recipe_search lower settings searching message
  /\ body asking message
     = process_dietician_question OPENAI_AVAILABLE openai_api_key create
         asking message
  /\ body comparing message
     = process_price_comparison lower comparing message
  /\ handle locating message = show_main_menu locating chat_id' user_id.
Proof.
  intros message searching asking comparing locating.
  assert (Hsingle : forall action : pystr,
            ({[ lit "action" := action ]} : gmap pystr pystr)
              !! lit "action" = Some action).
  { intros action. apply lookup_singleton_eq. }
  unfold handle_text, handle_text_body.
  split; [|split; [|split]].
  - unfold searching, handle_search_recipes_start, set_action.
    cbv zeta. rewrite HandlersFacts.user_states_send_message.
    cbn [user_states set_user_states from_user_id message].
    rewrite lookup_insert_eq. cbv zeta. rewrite Hsingle.
    reflexivity.
  - unfold asking, handle_ask_dietician_start, set_action.
    cbv zeta. rewrite HandlersFacts.user_states_send_message.
    cbn [user_states set_user_states from_user_id message].
    rewrite lookup_insert_eq. cbv zeta. rewrite Hsingle.
    reflexivity.
  - unfold comparing, handle_compare_prices_start, set_action.
    cbv zeta. rewrite HandlersFacts.user_states_send_message.
    cbn [user_states set_user_states from_user_id message].
    rewrite lookup_insert_eq. cbv zeta. rewrite Hsingle.
    reflexivity.
  - assert (Hst : user_states locating !! user_id
                  = Some {[ lit "action" := lit "find_shops" ]}).
    { unfold locating, handle_find_shops_start, set_action. cbv zeta.
      rewrite HandlersFacts.user_states_send_message.
      cbn [user_states set_user_states]. apply lookup_insert_eq. }
    cbn [from_user_id message message_chat_id].
    rewrite Hst. cbv zeta. rewrite Hsingle.
    replace (is_state (Some (lit "find_shops")) "search_recipes")
      with false by (vm_compute; reflexivity).
    replace (is_state (Some (lit "find_shops")) "ask_dietician")
      with false by (vm_compute; reflexivity).
    replace (is_state (Some (lit "find_shops")) "compare_prices")
      with false by (vm_compute; reflexivity).
    replace (is_state (Some (lit "find_shops")) "add_to_diary")
      with false by (vm_compute; reflexivity).
    replace (is_state (Some (lit "find_shops")) "add_to_shopping")
      with false by (vm_compute; reflexivity).
    rewrite (HandlersFacts.del_state_present _ _ _ Hst).
    unfold show_main_menu, clear_state.
    cbn [user_states set_user_states]. rewrite lookup_delete_eq, Hst.
    reflexivity.
Qed.

End TextProperties.
